(** * eRob pysoem CST demo: a shallow embedding of [pysoem_tset.py]

    The development follows the Python module function by function:

    - [int.to_bytes] / [int.from_bytes] as used on the process-data frames;
    - [configure_pdo_mapping]  (SDO writes of the PDO maps and assignments);
    - [data_exchange_worker]   (background cyclic exchange thread);
    - [set_slaves_to_op_state_cst] (the wait before the OP request);
    - [cyclic_operation_cst]   (CiA-402 enable sequence driven by [step]);
    - [cyclic_operation]       (working-counter statistics).

    Modelling conventions.  Python [int]s are [Z].  Byte strings are lists of
    [Z] in the range 0..255.  Python [float]s (the cycle period
    [ETHERCAT_CYCLE_TIME_MS], clock readings and what is computed from
    them) are IEEE 754 binary64 numbers, with the arithmetic of the
    Standard Library's [SpecFloat]; [int(x)] is truncation towards zero.
    A duration written as a literal in the source ([time.sleep(0.2)]) is
    recorded as that decimal, a rational [Q].  The fieldbus master is an
    external collaborator: whatever it returns (or raises) is an input of
    the model, and whatever the code asks of it is recorded in an event
    trace. *)

From Stdlib Require Import ZArith List Bool Lia QArith.
From Stdlib Require Import Floats.SpecFloat.
From Stdlib Require String DecimalString.
Import ListNotations.

Local Open Scope Z_scope.

(* ===================================================================== *)
(** ** Python integers and byte strings *)
(* ===================================================================== *)

Module PyBytes.

(** The [n] little-endian base-256 digits of [v]. *)
Fixpoint le_digits (n : nat) (v : Z) : list Z :=
  match n with
  | O => []
  | S k => (v mod 256) :: le_digits k (v / 256)
  end.

(** [v.to_bytes(n, 'little')]: [None] stands for [OverflowError]. *)
Definition to_bytes (v : Z) (n : nat) : option (list Z) :=
  if (0 <=? v) && (v <? 256 ^ Z.of_nat n)
  then Some (le_digits n v) else None.

(** [v.to_bytes(n, 'little', signed=True)]: two's complement. *)
Definition to_bytes_signed (v : Z) (n : nat) : option (list Z) :=
  let m := 256 ^ Z.of_nat n in
  if (- m <=? 2 * v) && (2 * v <? m)
  then Some (le_digits n (v mod m)) else None.

(** [int.from_bytes(bs, 'little')]. *)
Fixpoint from_bytes (bs : list Z) : Z :=
  match bs with
  | [] => 0
  | b :: r => b + 256 * from_bytes r
  end.

(** [int.from_bytes(bs, 'little', signed=True)]. *)
Definition from_bytes_signed (bs : list Z) : Z :=
  let u := from_bytes bs in
  let m := 256 ^ Z.of_nat (length bs) in
  if 2 * u <? m then u else u - m.

(** [b[lo:hi]] for [0 <= lo <= hi]. *)
Definition slice (lo hi : nat) (l : list Z) : list Z :=
  firstn (hi - lo) (skipn lo l).

(** [ba[lo:hi] = new] on a [bytearray]. *)
Definition slice_assign (lo hi : nat) (new l : list Z) : list Z :=
  firstn lo l ++ new ++ skipn hi l.

(** [ba[i] = v] on a [bytearray]: [None] stands for the [IndexError]
    (index out of range) or [ValueError] (not a byte) it raises. *)
Definition index_assign (i : nat) (v : Z) (l : list Z) : option (list Z) :=
  if (0 <=? v) && (v <? 256) && (i <? length l)%nat
  then Some (firstn i l ++ v :: skipn (S i) l) else None.

(** Truthiness of a bytes object: non-empty. *)
Definition truthy (l : list Z) : bool :=
  match l with [] => false | _ => true end.

End PyBytes.

(* ===================================================================== *)
(** ** Python floats *)
(* ===================================================================== *)

Module PyFloat.

(** A Python [float] is a binary64 number: precision 53, infinities at
    exponent 1024, results rounded to nearest, ties to even. *)
Definition prec : Z := 53.
Definition emax : Z := 1024.
Definition float : Type := spec_float.

Definition zero : float := S754_zero false.

(** The float an [int] operand is converted to ([float(z)]): exact for
    the integers below 2^53. *)
Definition of_Z (z : Z) : float := binary_normalize prec emax z 0 false.

Definition one : float := of_Z 1.

Definition mul (x y : float) : float := SFmul prec emax x y.
Definition sub (x y : float) : float := SFsub prec emax x y.

(** [x < y] and [x <= y]: false when an operand is not a number. *)
Definition ltb (x y : float) : bool := SFltb x y.
Definition leb (x y : float) : bool := SFleb x y.

Definition is_zero (x : float) : bool :=
  match x with S754_zero _ => true | _ => false end.

Definition is_nan (x : float) : bool :=
  match x with S754_nan => true | _ => false end.

(** [x / y]: [None] stands for [ZeroDivisionError]. *)
Definition div (x y : float) : option float :=
  if is_zero y then None else Some (SFdiv prec emax x y).

(** [x / c] for a literal [c] other than zero. *)
Definition div_by (x c : float) : float := SFdiv prec emax x c.

(** A decimal literal [n / d] of the source, as Python reads it: the
    float nearest to the decimal ([n] and [d] below 2^53). *)
Definition lit (n d : Z) : float := div_by (of_Z n) (of_Z d).

(** [int(x)]: truncation towards zero.  [None] stands for the
    [OverflowError] (infinity) or [ValueError] (not a number)
    it raises. *)
Definition to_int (x : float) : option Z :=
  match x with
  | S754_zero _ => Some 0
  | S754_finite s m e =>
    Some (cond_Zopp s (if 0 <=? e then Zpos m * 2 ^ e
                       else Zpos m / 2 ^ (- e)))
  | S754_infinity _ => None
  | S754_nan => None
  end.

(** [z > x] for an [int] [z] and a float [x]: Python compares the exact
    values. *)
Definition lt_int (x : float) (z : Z) : bool :=
  match x with
  | S754_zero _ => 0 <? z
  | S754_infinity s => s
  | S754_nan => false
  | S754_finite s m e =>
    let v := cond_Zopp s (Zpos m) in
    if 0 <=? e then v * 2 ^ e <? z else v <? z * 2 ^ (- e)
  end.

(** [max(0, x)]: [x] when [x > 0], else the integer 0. *)
Definition max0 (x : float) : float := if ltb zero x then x else zero.

(** [ms / 1000.0]: a time in milliseconds converted to seconds. *)
Definition seconds (ms : float) : float := div_by ms (of_Z 1000).

(** [time.sleep(t)] raises [ValueError] when [t] is negative or not a
    number.  Any other duration is taken to be one the platform can wait
    for. *)
Definition time_sleep_raises (t : float) : bool := is_nan t || ltb t zero.

(** [x] is a zero, an infinity or a finite number of sign [s]. *)
Definition has_sign (s : bool) (x : float) : Prop :=
  match x with
  | S754_zero s' | S754_infinity s' | S754_finite s' _ _ => s' = s
  | S754_nan => False
  end.

End PyFloat.

(** The value of [ETHERCAT_CYCLE_TIME_MS] in the source as shipped
    (line 831): [2.0]. *)
Definition ETHERCAT_CYCLE_TIME_MS : PyFloat.float := PyFloat.of_Z 2.

(** [rounded_within K E x]: [x] is a zero, or a finite float whose
    mantissa is below 2^(K+1) at an exponent of at most [E]; used to
    bound the quotients and products that [int(...)] converts. *)
Definition rounded_within (K E2 : Z) (x : PyFloat.float) : Prop :=
  match x with
  | S754_zero _ => True
  | S754_finite _ m e => Zpos m < 2 ^ (K + 1) /\ e <= E2
  | S754_infinity _ => False
  | S754_nan => False
  end.

(* ===================================================================== *)
(** ** Module-level shared variables *)
(* ===================================================================== *)

(** [_thread_controlword], [_thread_target_torque],
    [_thread_mode_of_operation]: written by the foreground state machine,
    read by the background worker. *)
Record Shared := mkShared {
  thread_controlword : Z;
  thread_target_torque : Z;
  thread_mode_of_operation : Z
}.

(** Values at import time. *)
Definition shared_init : Shared := mkShared 0x0080 0 10.

(* ===================================================================== *)
(** ** [data_exchange_worker] *)
(* ===================================================================== *)

Module Worker.
Import PyBytes.

(** What the worker asks of its environment, in program order. *)
Inductive event :=
| EvAcquire                       (* with _data_exchange_lock: enter *)
| EvRelease                       (* with _data_exchange_lock: leave *)
| EvRecv (timeout : Z)            (* master.receive_processdata(timeout=..) *)
| EvSend (frame : list (list Z))  (* master.send_processdata(), with the
                                     slaves' output buffers at that time *)
| EvSleep (seconds : PyFloat.float) (* time.sleep(..) *)
| EvPrint.                        (* print(..): the cycle-time warning *)

(** The worker's own part of the program state. *)
Record state := mkState {
  data_exchange_cycle_count : Z;
  outputs : list (list Z)         (* slave.output, per slave *)
}.

(** What the environment answers during one tick.  The shared variables
    belong to the foreground thread, which may assign them between any two
    ticks: the worker only reads them. *)
Record tick_env := mkEnv {
  shared_now : Shared;            (* the shared variables as read *)
  recv_result : option Z;         (* wkc, or None when the call raises *)
  expected_wkc : Z;               (* master.expected_wkc *)
  send_ok : bool;                 (* false when send_processdata raises *)
  cycle_elapsed : PyFloat.float   (* time.time() - cycle_start *)
}.

(** Lines 905-914: the body of the per-slave [try].  [None] is an
    exception raised before [slave.output] is assigned. *)
Definition encode_fields (cw tq mode padding : Z) (output : list Z)
  : option (list Z) :=
  match to_bytes cw 2 with
  | None => None
  | Some cwb =>
    let d1 := slice_assign 0 2 cwb output in
    match to_bytes_signed tq 2 with
    | None => None
    | Some tqb =>
      let d2 := slice_assign 2 4 tqb d1 in
      match index_assign 4 mode d2 with
      | None => None
      | Some d3 => index_assign 5 padding d3
      end
    end
  end.

(** One iteration of [for i, slave in enumerate(master.slaves)]:
    the new value of [slave.output]. *)
Definition encode_slave (sh : Shared) (padding : Z) (output : list Z)
  : list Z :=
  if truthy output then
    if (6 <=? length output)%nat then
      match encode_fields (thread_controlword sh) (thread_target_torque sh)
                          (thread_mode_of_operation sh) padding output with
      | Some d => d
      | None => output              (* except: pass *)
      end
    else output
  else output.

Definition padding : Z := 0.

Definition encode_all (sh : Shared) (outs : list (list Z))
  : list (list Z) :=
  map (encode_slave sh padding) outs.

Inductive outcome := TickDone | TickRaised | ThreadDied.

(** The [except Exception] handler of the loop body (line 938), for the
    period [P] = [ETHERCAT_CYCLE_TIME_MS].  An exception of [time.sleep]
    raised inside the handler would leave the loop. *)
Definition tick_handler (P : PyFloat.float) (st : state) (pre : list event)
  : state * list event * outcome :=
  if PyFloat.time_sleep_raises (PyFloat.seconds P)
  then (st, pre ++ [EvSleep (PyFloat.seconds P)], ThreadDied)
  else (st, pre ++ [EvSleep (PyFloat.seconds P)], TickRaised).

(** Lines 887-938: one pass through the body of
    [while _data_exchange_running].  The sleep that ends a pass is made
    with a positive duration only, which [time.sleep] accepts. *)
Definition worker_tick (P : PyFloat.float) (env : tick_env) (st : state)
  : state * list event * outcome :=
  let cycle_time := PyFloat.seconds P in
  match recv_result env with
  | None =>
    tick_handler P st [EvAcquire; EvRecv 5000; EvRelease]
  | Some wkc =>
    (* if wkc >= master.expected_wkc: pass *)
    let st1 := if expected_wkc env <=? wkc then st else st in
    let outs := encode_all (shared_now env) (outputs st1) in
    let st2 := mkState (data_exchange_cycle_count st1) outs in
    if negb (send_ok env) then
      tick_handler P st2
        [EvAcquire; EvRecv 5000; EvSend outs; EvRelease]
    else
      let n := data_exchange_cycle_count st2 + 1 in
      let st3 := mkState n outs in
      let sleep_time :=
        PyFloat.max0 (PyFloat.sub cycle_time (cycle_elapsed env)) in
      let warn :=
        if PyFloat.ltb (PyFloat.mul cycle_time (PyFloat.lit 15 10))
                       (cycle_elapsed env)
           && (n mod 1000 =? 0)
        then [EvPrint] else [] in
      let slp :=
        if PyFloat.ltb PyFloat.zero sleep_time
        then [EvSleep sleep_time] else [] in
      (st3,
       [EvAcquire; EvRecv 5000; EvSend outs; EvRelease] ++ warn ++ slp,
       TickDone)
  end.

(** The loop: [envs] holds what the environment answers at each pass for
    which the test [_data_exchange_running] is found true; the flag is
    found false when [envs] is used up.  The result also counts the passes
    that were made. *)
Fixpoint worker_loop (P : PyFloat.float) (envs : list tick_env) (st : state)
  : state * list event * nat * bool (* thread died *) :=
  match envs with
  | [] => (st, [], O, false)
  | env :: rest =>
    match worker_tick P env st with
    | (st', evs, ThreadDied) => (st', evs, 1%nat, true)
    | (st', evs, _) =>
      match worker_loop P rest st' with
      | (st'', evs', k, died) => (st'', evs ++ evs', S k, died)
      end
    end
  end.

(** What the environment answers to the first exchange, made before the
    loop and outside any [try]. *)
Record prologue_env := mkPrologue {
  shared_at_start : Shared;
  first_send_ok : bool;
  first_recv : option Z
}.

(** The whole thread function: lines 858-873, then the loop. *)
Definition data_exchange_worker (P : PyFloat.float) (pe : prologue_env)
           (envs : list tick_env) (st : state)
  : state * list event * nat * bool :=
  let outs := encode_all (shared_at_start pe) (outputs st) in
  let st0 := mkState (data_exchange_cycle_count st) outs in
  if negb (first_send_ok pe) then
    (st0, [EvAcquire; EvSend outs; EvRelease], O, true)
  else
    match first_recv pe with
    | None =>
      (st0, [EvAcquire; EvSend outs; EvRecv 5000; EvRelease], O, true)
    | Some _ =>
      match worker_loop P envs st0 with
      | (st', evs, k, died) =>
        (st', [EvAcquire; EvSend outs; EvRecv 5000; EvRelease] ++ evs,
         k, died)
      end
    end.

End Worker.

(* ===================================================================== *)
(** ** [cyclic_operation]: working-counter statistics *)
(* ===================================================================== *)

Module Cyclic.

(** The counters of lines 1445-1448. *)
Record stats := mkStats {
  cycle_count : Z;
  success_count : Z;
  timeout_count : Z;
  low_wkc_count : Z
}.

Definition stats_init : stats := mkStats 0 0 0 0.

(** Lines 1466-1485: the [if / elif / elif] on the value returned by
    [receive_processdata].  There is no final [else]: a value matching no
    branch would leave the counters alone. *)
Definition observe (wkc expected : Z) (s : stats) : stats :=
  if wkc =? -1 then
    mkStats (cycle_count s) (success_count s)
            (timeout_count s + 1) (low_wkc_count s)
  else if wkc <? expected then
    mkStats (cycle_count s) (success_count s)
            (timeout_count s) (low_wkc_count s + 1)
  else if wkc >=? expected then
    mkStats (cycle_count s + 1) (success_count s + 1)
            (timeout_count s) (low_wkc_count s)
  else s.

(** [success_count + timeout_count + low_wkc_count] (line 1551). *)
Definition total_attempts (s : stats) : Z :=
  success_count s + timeout_count s + low_wkc_count s.

(** One pass of the loop as far as the counters go: [None] is an
    exception raised by [send_processdata] or [receive_processdata], which
    leaves the loop through the outer [except Exception]. *)
Record iter_env := mkIter {
  send_result : option Z;
  recv_wkc : option Z
}.

Fixpoint cyclic_loop (expected : Z) (envs : list iter_env) (s : stats)
  : stats :=
  match envs with
  | [] => s
  | e :: rest =>
    match send_result e, recv_wkc e with
    | Some _, Some wkc => cyclic_loop expected rest (observe wkc expected s)
    | _, _ => s
    end
  end.

(** Number of [receive_processdata] calls that returned a value, and were
    therefore classified, during the run. *)
Fixpoint classified_calls (envs : list iter_env) : Z :=
  match envs with
  | [] => 0
  | e :: rest =>
    match send_result e, recv_wkc e with
    | Some _, Some _ => 1 + classified_calls rest
    | _, _ => 0
    end
  end.

End Cyclic.

(* ===================================================================== *)
(** ** [cyclic_operation_cst]: the drive state machine *)
(* ===================================================================== *)

Module Cst.
Import PyBytes.

(** What the diagnosis before the loop sees of one slave. *)
Record slave_diag := mkDiag {
  diag_input : list Z;                 (* slave.input *)
  diag_error_code : option (list Z)    (* sdo_read(0x603F, 0, 2);
                                          None when it raises *)
}.

Definition non_critical_error_codes : list Z := [0x730F].

Definition code_in (c : Z) (l : list Z) : bool :=
  existsb (Z.eqb c) l.

(** Lines 1213-1246, for one slave: the new [has_non_critical_error]. *)
Definition diagnose_slave (has : bool) (d : slave_diag) : bool :=
  if truthy (diag_input d) && (12 <=? length (diag_input d))%nat then
    let statusword := from_bytes (slice 0 2 (diag_input d)) in
    if negb (Z.land statusword 0x0008 =? 0) then
      match diag_error_code d with
      | None => has
      | Some data =>
        if truthy data then
          let error_code := from_bytes data in
          if negb (error_code =? 0) then
            if code_in error_code non_critical_error_codes
            then true else has
          else has
        else has
      end
    else has
  else has.

Definition diagnose (ds : list slave_diag) : bool :=
  fold_left diagnose_slave ds false.

(** Lines 1252-1258: the shared variables on entry of the loop. *)
Definition init_shared (sh : Shared) : Shared :=
  if negb (thread_controlword sh =? 0x0080)
  then mkShared 0x0080 0 10
  else sh.

(** The loop's variables. *)
Record state := mkState {
  shared : Shared;
  step : Z;
  print_count : Z;
  fault_cleared : bool
}.

Definition init_state (sh : Shared) : state :=
  mkState (init_shared sh) 0 0 false.

(** Lines 1288-1294: [master.slaves[0].input] read under the lock; the
    argument is [None] when the access raises. *)
Definition read_statusword (inp : option (list Z)) : option Z :=
  match inp with
  | None => None
  | Some i =>
    if truthy i && (12 <=? length i)%nat
    then Some (from_bytes (slice 0 2 i)) else None
  end.

(** The step thresholds of one pass (lines 1301-1304, 1327, 1331, 1335),
    for the period [P] = [ETHERCAT_CYCLE_TIME_MS]. *)
Record thresholds := mkThr {
  fault_reset_duration : Z;
  shutdown_steps : Z;         (* int(1000 / P) *)
  switch_on_steps : Z;        (* int(2000 / P) *)
  enable_steps : Z            (* int(3000 / P) *)
}.

(** [int(ms / ETHERCAT_CYCLE_TIME_MS)] for an integer [ms]: a float
    division, then the truncation.  [None] when either raises. *)
Definition steps_of_ms (ms : Z) (P : PyFloat.float) : option Z :=
  match PyFloat.div (PyFloat.of_Z ms) P with
  | None => None
  | Some q => PyFloat.to_int q
  end.

(** [int(base_duration_steps * 0.5)]. *)
Definition half_steps (base_duration_steps : Z) : option Z :=
  PyFloat.to_int (PyFloat.mul (PyFloat.of_Z base_duration_steps)
                              (PyFloat.lit 5 10)).

(** The four quotients have the same divisor, and 4000 / P, which the
    source evaluates first in every pass, is the largest of them: when it
    is computed without an exception, so are the other three where the
    chain needs them. *)
Definition compute_thresholds (P : PyFloat.float)
           (has_non_critical_error : bool)
  : option thresholds :=
  match steps_of_ms 4000 P, steps_of_ms 1000 P,
        steps_of_ms 2000 P, steps_of_ms 3000 P with
  | Some base_duration_steps, Some s1, Some s2, Some s3 =>
    match (if has_non_critical_error
           then half_steps base_duration_steps
           else Some base_duration_steps) with
    | Some frd => Some (mkThr frd s1 s2 s3)
    | None => None
    end
  | _, _, _, _ => None
  end.

(** Lines 1317-1326: the bookkeeping of [fault_cleared] while in the
    fault-reset branch. *)
Definition update_fault_cleared (has_non_critical_error : bool)
           (frd step : Z) (sw : option Z) (fc : bool) : bool :=
  match sw with
  | None => fc
  | Some w =>
    if Z.land w 0x0008 =? 0 then true
    else if has_non_critical_error
            && PyFloat.lt_int
                 (PyFloat.mul (PyFloat.of_Z frd) (PyFloat.lit 5 10)) step
         then true
         else fc
  end.

(** Lines 1311-1343: the [if / elif] chain, giving the new control word,
    target torque and [fault_cleared]. *)
Definition select_output (t : thresholds) (has_non_critical_error : bool)
           (sw : option Z) (st : state) : Z * Z * bool :=
  let frd := fault_reset_duration t in
  if step st <=? frd then
    (0x0080, 0,
     update_fault_cleared has_non_critical_error frd (step st) sw
                          (fault_cleared st))
  else if step st <=? frd + shutdown_steps t then
    (0x0006, 0, fault_cleared st)
  else if step st <=? frd + switch_on_steps t then
    (0x0007, 0, fault_cleared st)
  else if step st <=? frd + enable_steps t then
    (0x000F, 0, fault_cleared st)
  else
    (0x000F, 50, fault_cleared st).

Inductive outcome := Continue | Raised.

(** Lines 1282-1406: one pass through the body of the [while].  Console
    output is not modelled.  [Raised]: an exception leaves the loop
    (from the thresholds, or from [time.sleep] at the end of the pass). *)
Definition iteration (P : PyFloat.float) (has_non_critical_error : bool)
           (inp : option (list Z)) (st : state) : state * outcome :=
  let sw := read_statusword inp in
  match compute_thresholds P has_non_critical_error with
  | None => (st, Raised)
  | Some t =>
    match select_output t has_non_critical_error sw st with
    | (cw, tq, fc) =>
      let sh := mkShared cw tq 10 in
      let pc := print_count st + 1 in
      let pc' := if pc >=? 100 then 0 else pc in
      let step' := if step st <? 25000 then step st + 1 else step st in
      let st' := mkState sh step' pc' fc in
      if PyFloat.time_sleep_raises (PyFloat.seconds P)
      then (st', Raised) else (st', Continue)
    end
  end.

(** The loop: one input per pass that the clock test
    [time.time() - start_time < duration] lets through.  The result is the
    list of states at the end of each pass, in order. *)
Fixpoint run (P : PyFloat.float) (has_non_critical_error : bool)
         (inps : list (option (list Z))) (st : state) : list state :=
  match inps with
  | [] => []
  | inp :: rest =>
    match iteration P has_non_critical_error inp st with
    | (st', Continue) => st' :: run P has_non_critical_error rest st'
    | (st', Raised) =>
      match compute_thresholds P has_non_critical_error with
      | None => []           (* raised before anything was written *)
      | Some _ => [st']
      end
    end
  end.

(** Control word and torque held in the shared variables at the end of a
    pass. *)
Definition written (st : state) : Z * Z :=
  (thread_controlword (shared st), thread_target_torque (shared st)).

(** Index of the branch of the [if / elif] chain taken at a given step:
    0 fault reset, 1 shutdown, 2 switch on, 3 enable operation,
    4 running. *)
Definition stage_index (t : thresholds) (s : Z) : nat :=
  let frd := fault_reset_duration t in
  if s <=? frd then 0%nat
  else if s <=? frd + shutdown_steps t then 1%nat
  else if s <=? frd + switch_on_steps t then 2%nat
  else if s <=? frd + enable_steps t then 3%nat
  else 4%nat.

(** The largest of the four bounds of the chain: the last branch, which
    commands the torque, is taken above it. *)
Definition last_bound (t : thresholds) : Z :=
  let frd := fault_reset_duration t in
  Z.max frd (Z.max (frd + shutdown_steps t)
                   (Z.max (frd + switch_on_steps t)
                          (frd + enable_steps t))).

(** The whole function as far as the shared variables go. *)
Definition cyclic_operation_cst (P : PyFloat.float) (diags : list slave_diag)
           (sh : Shared) (inps : list (option (list Z))) : list state :=
  run P (diagnose diags) inps (init_state sh).

End Cst.

(* ===================================================================== *)
(** ** pysoem state codes *)
(* ===================================================================== *)

(** The values of [pysoem.INIT_STATE], [pysoem.PREOP_STATE],
    [pysoem.SAFEOP_STATE] and [pysoem.OP_STATE] (EtherCAT AL state codes);
    no result on the bring-up depends on the particular numbers. *)
Definition INIT_STATE : Z := 1.
Definition PREOP_STATE : Z := 2.
Definition SAFEOP_STATE : Z := 4.
Definition OP_STATE : Z := 8.

(* ===================================================================== *)
(** ** [set_slaves_to_op_state_cst]: up to the OP request *)
(* ===================================================================== *)

Module OpState.

(** What the function asks of its environment, in program order
    (console output is not modelled). *)
Inductive event :=
| EvReadState                         (* master.read_state() *)
| EvSleep (seconds : PyFloat.float)   (* time.sleep(..) *)
| EvAcquire
| EvRelease
| EvSend                              (* master.send_processdata() *)
| EvRecv (timeout : Z)                (* master.receive_processdata(..) *)
| EvSetSlaveState (i : nat) (s : Z)   (* slave.state = s *)
| EvSetMasterState (s : Z)            (* master.state = s *)
| EvWriteState.                       (* master.write_state() *)

(** What the environment answers.  The cycle counter belongs to the
    worker thread and the clock to the host: both are read, never set,
    by this function. *)
Record env := mkEnv {
  slave_states : list Z;       (* slave.state after master.read_state() *)
  cycle_count_at : nat -> Z;   (* _data_exchange_cycle_count at the k-th
                                  evaluation of the loop test *)
  elapsed_at : nat -> PyFloat.float;
                               (* time.time() - start_wait after the
                                  k-th sleep *)
  exchange_raises : option nat; (* Some j when call number min(j, 3) of
                                  the confirmation exchange raises *)
  write_wkc : option Z         (* value returned by master.write_state(),
                                  None when it raises *)
}.

Definition wait_cycles : Z := 300.

Inductive wait_exit :=
| CyclesReached     (* the loop test found the count at or above 300 *)
| TimedOut          (* break: more than one second elapsed *)
| SleepRaised       (* time.sleep raised *)
| NoFuel.           (* the model's fuel ran out *)

(** Lines 1017-1022.  [k] sleeps have been made so far; the result is
    the number of sleeps made in all and the way the loop was left. *)
Fixpoint wait_loop (fuel : nat) (P : PyFloat.float) (e : env) (k : nat)
  : nat * wait_exit :=
  match fuel with
  | O => (k, NoFuel)
  | S f =>
    if cycle_count_at e k <? wait_cycles then
      if PyFloat.time_sleep_raises (PyFloat.seconds P)
      then (S k, SleepRaised)
      else if PyFloat.ltb PyFloat.one (elapsed_at e k) then (S k, TimedOut)
      else wait_loop f P e (S k)
    else (k, CyclesReached)
  end.

Inductive phase_result :=
| GateFailed        (* return False, line 1004 *)
| WriteFailed       (* return False, line 1058 *)
| Requested         (* goes on to wait for the OP state, line 1067 *)
| Raised            (* an exception left the function *)
| OutOfFuel.

Definition set_all_op (n : nat) : list event :=
  map (fun i => EvSetSlaveState i OP_STATE) (seq 0 n).

(** Lines 1000-1058. *)
Definition op_request_phase (fuel : nat) (P : PyFloat.float) (e : env)
  : list event * phase_result :=
  if negb (forallb (fun s => s =? SAFEOP_STATE) (slave_states e))
  then ([EvReadState], GateFailed)
  else
    match wait_loop fuel P e 0 with
    | (n, NoFuel) =>
      ([EvReadState] ++ repeat (EvSleep (PyFloat.seconds P)) n, OutOfFuel)
    | (n, SleepRaised) =>
      ([EvReadState] ++ repeat (EvSleep (PyFloat.seconds P)) n, Raised)
    | (n, _) =>
      let waited :=
        [EvReadState] ++ repeat (EvSleep (PyFloat.seconds P)) n in
      let exchange := [EvSend; EvRecv 5000; EvSend; EvRecv 5000] in
      match exchange_raises e with
      | Some j =>
        (waited ++ [EvAcquire] ++ firstn (S (Nat.min j 3)) exchange ++ [EvRelease],
         Raised)
      | None =>
        let evs :=
          waited
          ++ [EvAcquire] ++ exchange ++ [EvRelease]
          ++ set_all_op (length (slave_states e))
          ++ [EvSetMasterState OP_STATE; EvWriteState] in
        match write_wkc e with
        | None => (evs, Raised)
        | Some wkc =>
          if wkc =? 0 then (evs, WriteFailed) else (evs, Requested)
        end
      end
    end.

End OpState.

(* ===================================================================== *)
(** ** [configure_pdo_mapping] *)
(* ===================================================================== *)

Module Pdo.
Import PyBytes.

(** One call [slave.sdo_write(index, subindex, data)] together with
    whether it returned ([true]) or raised ([false]). *)
Record sdo_call := mkCall {
  c_slave : nat;
  c_index : Z;
  c_subindex : Z;
  c_data : list Z;
  c_ok : bool
}.

(** The master and its slaves, as far as this function uses them; [W] is
    the state of the network. *)
Record master (W : Type) := mkMaster {
  n_slaves : nat;                        (* len(master.slaves) *)
  read_state : W -> W;                   (* master.read_state() *)
  slave_state : nat -> W -> Z;           (* master.slaves[i].state *)
  set_slave_state : nat -> Z -> W -> W;  (* master.slaves[i].state = s *)
  write_state : W -> option W;           (* master.write_state();
                                            None when it raises *)
  sdo_write : nat -> Z -> Z -> list Z -> W -> W * bool;
  sleep : Q -> W -> W                    (* time.sleep(seconds) *)
}.

Arguments n_slaves {W}.
Arguments read_state {W}.
Arguments slave_state {W}.
Arguments set_slave_state {W}.
Arguments write_state {W}.
Arguments sdo_write {W}.
Arguments sleep {W}.

Section WithMaster.
Context {W : Type} (M : master W).

(** Lines 358-374, for slave [i]. *)
Definition preop_check_slave (acc : W * bool) (i : nat) : W * bool :=
  let (w, all_preop) := acc in
  if negb (slave_state M i w =? PREOP_STATE) then
    let w1 := set_slave_state M i PREOP_STATE w in
    match write_state M w1 with
    | None => (w1, false)
    | Some w2 =>
      let w3 := read_state M (sleep M (2 # 10) w2) in
      if slave_state M i w3 =? PREOP_STATE
      then (w3, true) else (w3, false)
    end
  else (w, all_preop).

(** Lines 356-374: the final [all_preop]. *)
Definition preop_check (w : W) : W * bool :=
  fold_left preop_check_slave (seq 0 (n_slaves M)) (read_state M w, true).

(** The function's variables while it configures. *)
Record cfg := mkCfg {
  world : W;
  retval : Z;
  trace : list sdo_call
}.

(** One block
    [try: slave.sdo_write(idx, sub, v.to_bytes(n, 'little'));
          time.sleep(0.05)
     except Exception: ...]
    whose handler decrements [retval] when [counted] and only prints
    otherwise. *)
Definition try_write (i : nat) (idx sub v : Z) (n : nat)
           (counted : bool) (c : cfg) : cfg :=
  let failed := if counted then retval c - 1 else retval c in
  match to_bytes v n with
  | None => mkCfg (world c) failed (trace c)
  | Some data =>
    match sdo_write M i idx sub data (world c) with
    | (w', true) =>
      mkCfg (sleep M (5 # 100) w') (retval c)
            (trace c ++ [mkCall i idx sub data true])
    | (w', false) =>
      mkCfg w' failed (trace c ++ [mkCall i idx sub data false])
    end
  end.

(** Lines 559-567: both torque limits in one [try]; the handler only
    prints. *)
Definition torque_limits (i : nat) (c : cfg) : cfg :=
  match to_bytes_signed 0 2, to_bytes_signed 0 2 with
  | Some pos, Some neg =>
    match sdo_write M i 0x60E0 0 pos (world c) with
    | (w1, false) =>
      mkCfg w1 (retval c) (trace c ++ [mkCall i 0x60E0 0 pos false])
    | (w1, true) =>
      let tr1 := trace c ++ [mkCall i 0x60E0 0 pos true] in
      match sdo_write M i 0x60E1 0 neg w1 with
      | (w2, false) =>
        mkCfg w2 (retval c) (tr1 ++ [mkCall i 0x60E1 0 neg false])
      | (w2, true) =>
        mkCfg (sleep M (5 # 100) w2) (retval c)
              (tr1 ++ [mkCall i 0x60E1 0 neg true])
      end
    end
  | _, _ => c
  end.

(** Lines 387-556 for slave [i]: the eighteen [try] blocks in program
    order, as (index, subindex, value, byte count, counted). *)
Definition mapping_writes (i : nat) : list (cfg -> cfg) :=
  [ try_write i 0x1600 0x00 0          1 false;
    try_write i 0x1600 0x01 0x60400010 4 true;
    try_write i 0x1600 0x02 0x60710010 4 true;
    try_write i 0x1600 0x03 0x60600008 4 true;
    try_write i 0x1600 0x04 0x00000008 4 true;
    try_write i 0x1600 0x00 4          1 true;
    try_write i 0x1C12 0x00 0x0000     2 false;
    try_write i 0x1C12 0x01 0x1600     2 true;
    try_write i 0x1C12 0x00 0x0001     2 true;
    try_write i 0x1A00 0x00 0x0000     2 false;
    try_write i 0x1A00 0x01 0x60410010 4 true;
    try_write i 0x1A00 0x02 0x60640020 4 true;
    try_write i 0x1A00 0x03 0x606C0020 4 true;
    try_write i 0x1A00 0x04 0x60770010 4 true;
    try_write i 0x1A00 0x00 4          1 true;
    try_write i 0x1C13 0x00 0x0000     2 false;
    try_write i 0x1C13 0x01 0x1A00     2 true;
    try_write i 0x1C13 0x00 0x0001     2 true ].

(** Lines 382-573 for slave [i].  Every call that can raise sits in an
    inner [try], so the outer handler of line 569 is never entered. *)
Definition configure_slave (c : cfg) (i : nat) : cfg :=
  torque_limits i (fold_left (fun c f => f c) (mapping_writes i) c).

Record result := mkResult {
  res_world : W;
  res_ok : bool;                 (* the value returned *)
  res_retval : option Z;         (* retval, once it exists *)
  res_trace : list sdo_call
}.

Definition configure_pdo_mapping (w : W) : result :=
  let (w1, all_preop) := preop_check w in
  if negb all_preop then mkResult w1 false None []
  else
    let c := fold_left configure_slave (seq 0 (n_slaves M))
                       (mkCfg w1 0 []) in
    if retval c <? 0
    then mkResult (world c) false (Some (retval c)) (trace c)
    else mkResult (world c) true (Some (retval c)) (trace c).

End WithMaster.

(** *** The protocol in the specification's words *)

(** A mapping entry packs index, subindex and bit length. *)
Definition entry_descriptor (index subindex bits : Z) : Z :=
  index * 65536 + subindex * 256 + bits.

(** Receive map: control word (16 bit), target torque (16 bit), mode of
    operation (8 bit), padding (8 bit). *)
Definition rx_entries : list Z :=
  [ entry_descriptor 0x6040 0 16; entry_descriptor 0x6071 0 16;
    entry_descriptor 0x6060 0 8;  entry_descriptor 0x0000 0 8 ].

(** Transmit map: status word (16 bit), actual position (32 bit), actual
    velocity (32 bit), actual torque (16 bit). *)
Definition tx_entries : list Z :=
  [ entry_descriptor 0x6041 0 16; entry_descriptor 0x6064 0 32;
    entry_descriptor 0x606C 0 32; entry_descriptor 0x6077 0 16 ].

(** Entries into sub-slots [k], [k+1], ... *)
Fixpoint entry_writes (idx : Z) (k : Z) (entries : list Z)
  : list (Z * Z * Z) :=
  match entries with
  | [] => []
  | e :: rest => (idx, k, e) :: entry_writes idx (k + 1) rest
  end.

(** Per map: count = 0, the entries into sub-slots 1..N, count = N. *)
Definition spec_map_protocol (idx : Z) (entries : list Z)
  : list (Z * Z * Z) :=
  [(idx, 0, 0)] ++ entry_writes idx 1 entries
  ++ [(idx, 0, Z.of_nat (length entries))].

(** Per assignment object: count = 0, the map's index into sub-slot 1,
    count = 1. *)
Definition spec_assign_protocol (slot map_idx : Z) : list (Z * Z * Z) :=
  [(slot, 0, 0); (slot, 1, map_idx); (slot, 0, 1)].

(** A call seen as (index, subindex, value written). *)
Definition call_value (c : sdo_call) : Z * Z * Z :=
  (c_index c, c_subindex c, from_bytes (c_data c)).

(** The calls made on slave [j] on the objects selected by [r], in
    order. *)
Definition writes_where (j : nat) (r : Z -> bool) (tr : list sdo_call)
  : list (Z * Z * Z) :=
  map call_value
      (filter (fun c => (c_slave c =? j)%nat && r (c_index c)) tr).

(** The calls made on object [idx] of slave [j], in order. *)
Definition writes_to (j : nat) (idx : Z) (tr : list sdo_call)
  : list (Z * Z * Z) :=
  writes_where j (fun x => x =? idx) tr.

(** All the calls made on slave [j], in order. *)
Definition writes_of (j : nat) (tr : list sdo_call) : list (Z * Z * Z) :=
  writes_where j (fun _ => true) tr.

(** The map and assignment writes of one slave in the order of the
    specification: receive map, its assignment, transmit map, its
    assignment. *)
Definition spec_slave_protocol : list (Z * Z * Z) :=
  spec_map_protocol 0x1600 rx_entries
  ++ spec_assign_protocol 0x1C12 0x1600
  ++ spec_map_protocol 0x1A00 tx_entries
  ++ spec_assign_protocol 0x1C13 0x1A00.

Definition is_mapping_object (idx : Z) : bool :=
  (idx =? 0x1600) || (idx =? 0x1A00) || (idx =? 0x1C12) || (idx =? 0x1C13).

(** The writes whose failure the code counts: on a map or assignment
    object, other than the clearing write (value 0 to subindex 0). *)
Definition counted (c : sdo_call) : bool :=
  is_mapping_object (c_index c)
  && negb ((c_subindex c =? 0) && (from_bytes (c_data c) =? 0)).

Definition failed_counted (tr : list sdo_call) : Z :=
  Z.of_nat (length (filter (fun c => counted c && negb (c_ok c)) tr)).

Definition failed_calls (tr : list sdo_call) : list sdo_call :=
  filter (fun c => negb (c_ok c)) tr.

End Pdo.

(* ===================================================================== *)
(** ** Statements under test and concrete inputs *)
(* ===================================================================== *)

(** A tick of the worker with two slaves, one buffer long enough for the
    frame and one too short. *)
Definition frame_example_state : Worker.state :=
  Worker.mkState 41 [[1; 2; 3; 4; 5; 6; 7; 8]; [9; 9]].

Definition frame_example_env : Worker.tick_env :=
  Worker.mkEnv (mkShared 0x000F (-2) 10) (Some 3) 3 true
               (PyFloat.lit 13 10000).

(** The same tick with another value returned by the receive call. *)
Definition with_wkc (env : Worker.tick_env) (wkc : Z) : Worker.tick_env :=
  Worker.mkEnv (Worker.shared_now env) (Some wkc) (Worker.expected_wkc env)
               (Worker.send_ok env) (Worker.cycle_elapsed env).

(** A tick raises when the receive or the send call does. *)
Definition tick_raises (env : Worker.tick_env) : Prop :=
  Worker.recv_result env = None \/ Worker.send_ok env = false.

(** The reading of the tick-level handler under which it leaves a note on
    the console before it backs off for one period. *)
Definition handler_logs_note : Prop :=
  forall (P : PyFloat.float) (env : Worker.tick_env) (st : Worker.state),
    PyFloat.leb PyFloat.zero P = true -> tick_raises env ->
    In Worker.EvPrint (snd (fst (Worker.worker_tick P env st)))
    /\ In (Worker.EvSleep (PyFloat.seconds P))
          (snd (fst (Worker.worker_tick P env st))).

(** The reading of the worker under which some part of its state holds the
    monitor's running totals, updated from the working counter of each
    tick as [cyclic_operation] updates its own. *)
Definition worker_feeds_monitor : Prop :=
  exists totals : Worker.state -> Cyclic.stats,
    forall (P : PyFloat.float) (env : Worker.tick_env) (st : Worker.state)
           (wkc : Z),
      Worker.recv_result env = Some wkc ->
      totals (fst (fst (Worker.worker_tick P env st)))
      = Cyclic.observe wkc (Worker.expected_wkc env) (totals st).

Definition raising_env : Worker.tick_env :=
  Worker.mkEnv shared_init None 3 true (PyFloat.lit 1 1000).

(** Control word and torque assigned by each branch of the chain. *)
Definition stage_output (k : nat) : Z * Z :=
  match k with
  | 0%nat => (0x0080, 0)
  | 1%nat => (0x0006, 0)
  | 2%nat => (0x0007, 0)
  | 3%nat => (0x000F, 0)
  | _ => (0x000F, 50)
  end.

(** The step with which pass number [i] (from 0) of a run is entered. *)
Definition step_at (i : nat) : Z := Z.min (Z.of_nat i) 25000.

(** Nominal time, in milliseconds since the first pass, at which pass
    number [i] is made when every pass lasts one period of 2 ms. *)
Definition elapsed_ms_2 (i : nat) : Z := 2 * Z.of_nat i.

(** A slave whose status word has the fault bit set and whose error code
    is not in the non-critical list. *)
Definition faulted_slave : Cst.slave_diag :=
  Cst.mkDiag [0x08; 0x00; 0; 0; 0; 0; 0; 0; 0; 0; 0; 0] (Some [0x10; 0x73]).

Definition faulted_input : option (list Z) :=
  Some [0x08; 0x00; 0; 0; 0; 0; 0; 0; 0; 0; 0; 0].

(** An environment in which the worker has made 120 cycles per poll of the
    wait loop, and one in which it makes none while the clock advances by
    2 ms per sleep. *)
Definition brisk_env : OpState.env :=
  OpState.mkEnv [SAFEOP_STATE; SAFEOP_STATE]
                (fun k => 120 * Z.of_nat k)
                (fun k => PyFloat.mul (PyFloat.lit 2 1000)
                                      (PyFloat.of_Z (Z.of_nat (S k))))
                None (Some 2).

Definition stalled_env : OpState.env :=
  OpState.mkEnv [SAFEOP_STATE]
                (fun _ => 0)
                (fun k => PyFloat.mul (PyFloat.lit 2 1000)
                                      (PyFloat.of_Z (Z.of_nat (S k))))
                None (Some 1).

(** How the wait loop is left, and what held at every poll before. *)
Definition wait_exit_ok (P : PyFloat.float) (e : OpState.env) (k n : nat)
           (x : OpState.wait_exit) : Prop :=
  (k <= n)%nat
  /\ (forall j, (k <= j < n)%nat -> OpState.cycle_count_at e j < 300)
  /\ (forall j, (k <= j)%nat -> (S j < n)%nat ->
        PyFloat.ltb PyFloat.one (OpState.elapsed_at e j) = false)
  /\ match x with
     | OpState.CyclesReached =>
       300 <= OpState.cycle_count_at e n
       /\ (forall j, (k <= j < n)%nat ->
             PyFloat.ltb PyFloat.one (OpState.elapsed_at e j) = false)
     | OpState.TimedOut =>
       exists m, n = S m /\ (k <= m)%nat
                 /\ PyFloat.ltb PyFloat.one (OpState.elapsed_at e m) = true
     | OpState.SleepRaised =>
       PyFloat.time_sleep_raises (PyFloat.seconds P) = true
     | OpState.NoFuel => True
     end.


(** A network of [n] slaves, all in PREOP, whose object dictionary refuses
    the writes selected by [refuse]. *)
Definition picky_master (n : nat) (refuse : Z -> Z -> list Z -> bool)
  : Pdo.master unit :=
  Pdo.mkMaster unit n (fun w => w) (fun _ _ => PREOP_STATE)
               (fun _ _ w => w) (fun w => Some w)
               (fun _ idx sub data w => (w, negb (refuse idx sub data)))
               (fun _ w => w).

(** Refuses the clearing write of the receive map and the first torque
    limit; accepts everything else. *)
Definition refuse_clear_and_limit (idx sub : Z) (data : list Z) : bool :=
  ((idx =? 0x1600) && (sub =? 0) && (PyBytes.from_bytes data =? 0))
  || (idx =? 0x60E0).

Definition refuse_nothing (idx sub : Z) (data : list Z) : bool := false.

(** The reading of the partial-failure policy under which every failed
    write is counted, no write of a slave is skipped because another one
    failed (18 map and assignment writes and 2 torque limits per slave),
    and the call fails exactly when the counter is not zero. *)
Definition every_failure_counted : Prop :=
  forall (W : Type) (M : Pdo.master W) (w : W),
    snd (Pdo.preop_check M w) = true ->
    let r := Pdo.configure_pdo_mapping M w in
    Pdo.res_retval r
    = Some (- Z.of_nat (length (Pdo.failed_calls (Pdo.res_trace r))))
    /\ (forall j, (j < Pdo.n_slaves M)%nat ->
          length (Pdo.writes_of j (Pdo.res_trace r)) = 20%nat)
    /\ (Pdo.res_ok r = false <-> Pdo.res_retval r <> Some 0).

(* ===================================================================== *)
(** ** Notions used to state further properties of the worker *)
(* ===================================================================== *)

Module WorkerTrace.

(** The lock discipline of a trace: the lock is taken only when free and
    released only when held, the network is used only under the lock, the
    thread sleeps or prints only without it, and the trace ends with the
    lock free.  [held] is the state of the lock before the trace. *)
Fixpoint lock_ok (held : bool) (evs : list Worker.event) : bool :=
  match evs with
  | [] => negb held
  | Worker.EvAcquire :: r => negb held && lock_ok true r
  | Worker.EvRelease :: r => held && lock_ok false r
  | Worker.EvRecv _ :: r => held && lock_ok held r
  | Worker.EvSend _ :: r => held && lock_ok held r
  | Worker.EvSleep _ :: r => negb held && lock_ok held r
  | Worker.EvPrint :: r => negb held && lock_ok held r
  end.

(** A tick completes when neither its receive nor its send call raises. *)
Definition tick_completes (env : Worker.tick_env) : bool :=
  match Worker.recv_result env with
  | Some _ => Worker.send_ok env
  | None => false
  end.

Definition completed_ticks (envs : list Worker.tick_env) : Z :=
  Z.of_nat (length (filter tick_completes envs)).

(** The shared fields fit the wire types of the output frame. *)
Definition fits_frame (sh : Shared) : bool :=
  (0 <=? thread_controlword sh) && (thread_controlword sh <? 65536)
  && (-32768 <=? thread_target_torque sh)
  && (thread_target_torque sh <? 32768)
  && (0 <=? thread_mode_of_operation sh)
  && (thread_mode_of_operation sh <? 256).

End WorkerTrace.

(** A tick during which the shared torque does not fit 16 bits. *)
Definition unfit_example_env : Worker.tick_env :=
  Worker.mkEnv (mkShared 0x000F 40000 10) (Some 3) 3 true
               (PyFloat.lit 1 1000).


(* ===================================================================== *)
(** ** [start_data_exchange_thread], [stop_data_exchange_thread] *)
(* ===================================================================== *)

Module Thread.

(** The module-level variables of the thread control. *)
Record globals := mkGlobals {
  data_exchange_running : bool;
  cycle_count : Z;
  shared : Shared
}.

(** Lines 951-960: what the function assigns before it starts the
    thread. *)
Definition start_data_exchange_thread (g : globals) : globals :=
  let cw := if thread_controlword (shared g) =? 0
            then 0x0080 else thread_controlword (shared g) in
  mkGlobals true 0
            (mkShared cw 0 (thread_mode_of_operation (shared g))).

(** Line 979. *)
Definition stop_data_exchange_thread (g : globals) : globals :=
  mkGlobals false (cycle_count g) (shared g).

End Thread.

(* ===================================================================== *)
(** ** [set_slaves_to_op_state_cst]: after the OP request *)
(* ===================================================================== *)

Module OpCheck.

Inductive event :=
| EvStateCheck (s timeout : Z)   (* master.state_check(s, timeout=..) *)
| EvReadState                    (* master.read_state() *)
| EvSdoRead (i : nat) (idx sub size : Z)
                                 (* slave.sdo_read(..), inside a try *)
| EvSleep (seconds : Q).         (* time.sleep(..) *)

(** What the network answers at each attempt (from 0). *)
Record env := mkEnv {
  slave_count : nat;               (* len(master.slaves) *)
  check_result : nat -> Z;         (* value returned by state_check *)
  states_after : nat -> list Z     (* slave.state after read_state *)
}.

Definition max_attempts : nat := 10.

(** Lines 1070-1080: [remaining] passes of [for attempt in range(..)] are
    still to be made, the next one with index [attempt].  The result is the
    trace and the final [result_state] ([None] if no pass is made). *)
Fixpoint check_loop (remaining attempt : nat) (e : env)
  : list event * option Z :=
  match remaining with
  | O => ([], None)
  | S r =>
    let result_state := check_result e attempt in
    let all_in_op :=
      forallb (fun s => s =? OP_STATE) (states_after e attempt) in
    let evs := [EvStateCheck OP_STATE (5 * 50000); EvReadState] in
    if all_in_op && (result_state =? OP_STATE) then (evs, Some result_state)
    else
      match r with
      | O => (evs, Some result_state)     (* attempt == max_attempts - 1 *)
      | S _ =>
        match check_loop r (S attempt) e with
        | (evs', Some res) => (evs ++ [EvSleep (1 # 10)] ++ evs', Some res)
        | (evs', None) => (evs ++ [EvSleep (1 # 10)] ++ evs',
                           Some result_state)
        end
      end
  end.

(** [print_slave_state_machine_info(master, i)], lines 91-172, as far as
    the network is concerned. *)
Definition state_machine_info (i : nat) : list event :=
  [ EvReadState;
    EvSdoRead i 0x6041 0x00 2; EvSdoRead i 0x6040 0x00 2;
    EvSdoRead i 0x603F 0x00 2; EvSdoRead i 0x6061 0x00 1;
    EvSdoRead i 0x6060 0x00 1 ].

(** Lines 1083-1124, after the loop: [in_op] is
    [result_state == pysoem.OP_STATE]. *)
Definition epilogue (n : nat) (in_op : bool) : list event :=
  [EvReadState]
  ++ (if in_op then [] else flat_map state_machine_info (seq 0 n))
  ++ [EvReadState]
  ++ (if in_op then [EvSleep (1 # 100)] else []).

(** Lines 1068-1126: the trace, the shared variables on return and the
    value returned. *)
Definition wait_for_op (e : env) (sh : Shared)
  : list event * Shared * bool :=
  match check_loop max_attempts 0 e with
  | (evs, Some result_state) =>
    if result_state =? OP_STATE
    then (evs ++ epilogue (slave_count e) true, mkShared 0x0080 0 10, true)
    else (evs ++ epilogue (slave_count e) false, sh, false)
  | (evs, None) => (evs ++ epilogue (slave_count e) false, sh, false)
  end.

(** [k] checks that do not end the loop, each followed by a sleep of
    100 ms, and then one more check. *)
Fixpoint retry_trace (k : nat) : list event :=
  match k with
  | O => [EvStateCheck 8 250000; EvReadState]
  | S j =>
    [EvStateCheck 8 250000; EvReadState; EvSleep (1 # 10)] ++ retry_trace j
  end.

End OpCheck.

(** The shared variables with which [cyclic_operation_cst] is entered when
    [main] has run [start_data_exchange_thread] on the globals [g] and
    [set_slaves_to_op_state_cst] has ended its retry loop in the
    environment [e] (lines 1681-1693). *)
Definition shared_at_entry (g : Thread.globals) (e : OpCheck.env) : Shared :=
  let g1 := Thread.start_data_exchange_thread g in
  Cst.init_shared (snd (fst (OpCheck.wait_for_op e (Thread.shared g1)))).

(** The same when [set_slaves_to_op_state_cst] returns before its retry
    loop (lines 1004 and 1058). *)
Definition shared_at_entry_early (g : Thread.globals) : Shared :=
  Cst.init_shared (Thread.shared (Thread.start_data_exchange_thread g)).

(** A network that reports OP at the third check only. *)
Definition slow_op_env : OpCheck.env :=
  OpCheck.mkEnv 2
                (fun k => if (k <? 2)%nat then SAFEOP_STATE else OP_STATE)
                (fun k => if (k <? 2)%nat then [SAFEOP_STATE; OP_STATE]
                          else [OP_STATE; OP_STATE]).

(* ===================================================================== *)
(** ** Notions used to state further properties of the PDO mapping *)
(* ===================================================================== *)

(** The objects [configure_pdo_mapping] writes to. *)
Definition written_objects : list Z :=
  [0x1600; 0x1C12; 0x1A00; 0x1C13; 0x60E0; 0x60E1].

(** A call addressed to one of [n] slaves and to one of those objects. *)
Definition call_in_range (n : nat) (c : Pdo.sdo_call) : Prop :=
  (Pdo.c_slave c < n)%nat /\ In (Pdo.c_index c) written_objects.

(** What one block of the configuration may add: at most one call, in
    range, and at most [k] off the counter. *)
Definition step_bounded {W : Type} (n : nat) (k : Z)
           (f : @Pdo.cfg W -> @Pdo.cfg W) : Prop :=
  forall c,
    (length (Pdo.trace (f c)) <= length (Pdo.trace c) + 1)%nat
    /\ Pdo.retval c - k <= Pdo.retval (f c) <= Pdo.retval c
    /\ (Forall (call_in_range n) (Pdo.trace c) ->
        Forall (call_in_range n) (Pdo.trace (f c))).

(** A network of two slaves, both in INIT, in which a slave reaches PREOP
    only if it is slave 1 and was the last one asked to; the state of the
    network is the slave asked last. *)
Definition stubborn_master : Pdo.master (option nat) :=
  Pdo.mkMaster (option nat) 2 (fun w => w)
               (fun i w =>
                  match i, w with
                  | 1%nat, Some 1%nat => PREOP_STATE
                  | _, _ => INIT_STATE
                  end)
               (fun i _ _ => Some i) (fun w => Some w)
               (fun _ _ _ _ w => (w, true))
               (fun _ w => w).

(* ===================================================================== *)
(** ** [get_state_name] *)
(* ===================================================================== *)

(** The value of [pysoem.BOOT_STATE].  Unlike the results on the bring-up,
    those on [get_state_name] depend on the five state codes being 1, 2,
    4, 8 and 3. *)
Definition BOOT_STATE : Z := 3.

Module StateName.
Import String.

(** The shape of the string returned. *)
Inductive name :=
| Known (s : string)                      (* an entry of the table *)
| Combined (parts : list string) (code : Z)
| Unknown (code : Z).

(** The dictionary [state_names], in source order. *)
Definition state_names : list (Z * string) :=
  [ (INIT_STATE, "INIT (Initialization)"%string);
    (PREOP_STATE, "PREOP (Pre-Operational)"%string);
    (SAFEOP_STATE, "SAFEOP (Safe Operational)"%string);
    (OP_STATE, "OP (Operational)"%string);
    (BOOT_STATE, "BOOT (Boot)"%string) ].

Fixpoint lookup (k : Z) (d : list (Z * string)) : option string :=
  match d with
  | [] => None
  | (k', v) :: rest => if k =? k' then Some v else lookup k rest
  end.

(** [if state_code & mask: state_parts.append(label)]. *)
Definition part (code mask : Z) (label : string) : list string :=
  if negb (Z.land code mask =? 0) then [label] else [].

(** Lines 38-48. *)
Definition state_parts (code : Z) : list string :=
  part code INIT_STATE "INIT"%string ++ part code PREOP_STATE "PREOP"%string
  ++ part code SAFEOP_STATE "SAFEOP"%string ++ part code OP_STATE "OP"%string
  ++ part code BOOT_STATE "BOOT"%string.

(** Lines 35-51, before formatting. *)
Definition classify (code : Z) : name :=
  match lookup code state_names with
  | Some s => Known s
  | None =>
    match state_parts code with
    | [] => Unknown code
    | parts => Combined parts code
    end
  end.

(** [f"{n}"%string] for an integer. *)
Definition decimal (n : Z) : string :=
  DecimalString.NilZero.string_of_int (Z.to_int n).

(** The f-strings of lines 50 and 51. *)
Definition render (n : name) : string :=
  match n with
  | Known s => s
  | Combined parts code =>
    ("Combined State (" ++ concat "+" parts ++ ", value=" ++ decimal code
                        ++ ")")%string
  | Unknown code => ("Unknown State (" ++ decimal code ++ ")")%string
  end.

Definition get_state_name (state_code : Z) : string :=
  render (classify state_code).

Definition label_INIT : string := "INIT"%string.
Definition label_PREOP : string := "PREOP"%string.
Definition label_BOOT : string := "BOOT"%string.

End StateName.

(* ===================================================================== *)
(** ** [find_adapters] and the choice of the adapter in [main] *)
(* ===================================================================== *)

Module Adapters.
Import String.

Record adapter := mkAdapter {
  name : string;
  desc : string
}.

Definition lo : string := "lo"%string.

Definition is_loopback (a : adapter) : bool := String.eqb (name a) lo.

(** Lines 229-244; the argument is what [pysoem.find_adapters()] returns. *)
Definition find_adapters (adapters : list adapter) : option (list adapter) :=
  match adapters with
  | [] => None
  | _ =>
    let valid_adapters :=
      filter (fun a => negb (is_loopback a)) adapters in
    match valid_adapters with
    | [] => Some adapters
    | _ => Some valid_adapters
    end
  end.

(** Lines 1604-1614 of [main]: [None] when [main] returns for want of an
    adapter, else [adapters[0]]. *)
Definition selected_adapter (adapters : list adapter) : option adapter :=
  match find_adapters adapters with
  | None => None
  | Some [] => None
  | Some (a :: _) => Some a
  end.

End Adapters.

(* ===================================================================== *)
(** ** The master as the bring-up functions use it *)
(* ===================================================================== *)

Module Net.
Import PyBytes.

(** The calls made on the master and its slaves, with what they
    answered. *)
Inductive call :=
| CManualStateChange                              (* manual_state_change = True *)
| CReadState                                      (* master.read_state() *)
| CSetSlaveState (i : nat) (s : Z)                (* slave.state = s *)
| CSetMasterState (s : Z)                         (* master.state = s *)
| CWriteState (ok : bool)                         (* master.write_state() *)
| CStateCheck (s timeout result : Z)              (* master.state_check(..) *)
| CConfigInit (r : option Z)                      (* master.config_init() *)
| CConfigMap (r : option Z)                       (* master.config_map() *)
| CConfigDc (r : option bool)                     (* master.config_dc() *)
| CDcSync (i : nat) (cycle shift : Z) (ok : bool) (* slave.dc_sync(..) *)
| CSdoWrite (i : nat) (idx sub : Z) (data : list Z) (ok : bool)
| CSdoRead (i : nat) (idx sub size : Z) (r : option (list Z))
| CSleep (seconds : Q).

(** The master and its slaves; [W] is the state of the network.  A result
    [None] or [false] stands for an exception raised by the call. *)
Record master (W : Type) := mkMaster {
  n_slaves : W -> nat;                       (* len(master.slaves) *)
  read_state : W -> W;
  slave_state : nat -> W -> Z;
  set_slave_state : nat -> Z -> W -> W;
  set_master_state : Z -> W -> W;
  write_state : W -> option W;
  state_check : Z -> Z -> W -> W * Z;
  config_init : W -> W * option Z;
  config_map : W -> W * option Z;
  config_dc : W -> W * option bool;
  dc_sync : nat -> Z -> Z -> W -> W * bool;
  sdo_write : nat -> Z -> Z -> list Z -> W -> W * bool;
  sdo_read : nat -> Z -> Z -> Z -> W -> W * option (list Z);
  sleep : Q -> W -> W
}.

Arguments n_slaves {W}.
Arguments read_state {W}.
Arguments slave_state {W}.
Arguments set_slave_state {W}.
Arguments set_master_state {W}.
Arguments write_state {W}.
Arguments state_check {W}.
Arguments config_init {W}.
Arguments config_map {W}.
Arguments config_dc {W}.
Arguments dc_sync {W}.
Arguments sdo_write {W}.
Arguments sdo_read {W}.
Arguments sleep {W}.

Inductive outcome := Returned (b : bool) | Raised.

Section WithMaster.
Context {W : Type} (M : master W).

(** The network together with the calls made so far. *)
Definition st : Type := (W * list call)%type.

Definition log (s : st) : list call := snd s.

Definition do_manual_state_change (s : st) : st :=
  (fst s, snd s ++ [CManualStateChange]).

Definition do_read_state (s : st) : st :=
  (read_state M (fst s), snd s ++ [CReadState]).

Definition do_sleep (q : Q) (s : st) : st :=
  (sleep M q (fst s), snd s ++ [CSleep q]).

Definition do_set_slave_state (i : nat) (v : Z) (s : st) : st :=
  (set_slave_state M i v (fst s), snd s ++ [CSetSlaveState i v]).

Definition do_set_master_state (v : Z) (s : st) : st :=
  (set_master_state M v (fst s), snd s ++ [CSetMasterState v]).

Definition do_write_state (s : st) : st * bool :=
  match write_state M (fst s) with
  | Some w => ((w, snd s ++ [CWriteState true]), true)
  | None => ((fst s, snd s ++ [CWriteState false]), false)
  end.

Definition do_state_check (v timeout : Z) (s : st) : st * Z :=
  let (w, r) := state_check M v timeout (fst s) in
  ((w, snd s ++ [CStateCheck v timeout r]), r).

Definition do_config_init (s : st) : st * option Z :=
  let (w, r) := config_init M (fst s) in ((w, snd s ++ [CConfigInit r]), r).

Definition do_config_map (s : st) : st * option Z :=
  let (w, r) := config_map M (fst s) in ((w, snd s ++ [CConfigMap r]), r).

Definition do_config_dc (s : st) : st * option bool :=
  let (w, r) := config_dc M (fst s) in ((w, snd s ++ [CConfigDc r]), r).

Definition do_dc_sync (i : nat) (cycle shift : Z) (s : st) : st * bool :=
  let (w, ok) := dc_sync M i cycle shift (fst s) in
  ((w, snd s ++ [CDcSync i cycle shift ok]), ok).

Definition do_sdo_write (i : nat) (idx sub : Z) (data : list Z) (s : st)
  : st * bool :=
  let (w, ok) := sdo_write M i idx sub data (fst s) in
  ((w, snd s ++ [CSdoWrite i idx sub data ok]), ok).

Definition do_sdo_read (i : nat) (idx sub size : Z) (s : st)
  : st * option (list Z) :=
  let (w, r) := sdo_read M i idx sub size (fst s) in
  ((w, snd s ++ [CSdoRead i idx sub size r]), r).

(** *** [configure_cst_mode] *)

(** [v.to_bytes(n, 'little')] and its signed form for the constants of
    this function, which are in range. *)
Definition bytes_of (v : Z) (n : nat) : list Z := le_digits n v.

(** Lines 1138-1175 for slave [i]: one [try] around the whole body, an
    inner one around the torque slope. *)
Definition configure_cst_slave (s : st) (i : nat) : st :=
  match do_sdo_write i 0x6040 0x00 (bytes_of 0x0000 2) s with
  | (s1, false) => s1
  | (s1, true) =>
    match do_sdo_write i 0x6060 0x00 (bytes_of 10 1)
                       (do_sleep (1 # 10) s1) with
    | (s2, false) => s2
    | (s2, true) =>
      match do_sdo_write i 0x6072 0x00 (bytes_of 100 2)
                         (do_sleep (1 # 10) s2) with
      | (s3, false) => s3
      | (s3, true) =>
        let s4 := fst (do_sdo_write i 0x6087 0x00 (bytes_of 100 2) s3) in
        fst (do_sdo_read i 0x6061 0x00 1 (do_sleep (1 # 10) s4))
      end
    end
  end.

Definition configure_cst_mode (s : st) : st :=
  fold_left configure_cst_slave (seq 0 (n_slaves M (fst s))) s.

End WithMaster.

(** How far the CST configuration of a slave has got, from its object
    accesses: 1 once control word 0 was written, 2 once the mode was,
    3 once the torque limit was. *)
Definition progress_after (c : call) (p : nat -> nat) : nat -> nat :=
  match c with
  | CSdoWrite i idx _ _ true =>
    if idx =? 0x6040 then fun j => if (j =? i)%nat then 1%nat else p j
    else if idx =? 0x6060 then fun j => if (j =? i)%nat then 2%nat else p j
    else if idx =? 0x6072 then fun j => if (j =? i)%nat then 3%nat else p j
    else p
  | _ => p
  end.

(** The progress a call needs: the mode is written only after the control
    word, the torque limit only after the mode, the torque slope and the
    read-back of the mode only after the torque limit. *)
Definition progress_needed (c : call) : option (nat * nat) :=
  match c with
  | CSdoWrite i idx _ _ _ =>
    if idx =? 0x6060 then Some (i, 1%nat)
    else if idx =? 0x6072 then Some (i, 2%nat)
    else if idx =? 0x6087 then Some (i, 3%nat)
    else None
  | CSdoRead i idx _ _ _ =>
    if idx =? 0x6061 then Some (i, 3%nat) else None
  | _ => None
  end.

(** Every call of the trace finds the progress it needs. *)
Fixpoint cst_order_ok (p : nat -> nat) (l : list call) : bool :=
  match l with
  | [] => true
  | c :: r =>
    match progress_needed c with
    | Some (i, k) => (p i =? k)%nat
    | None => true
    end && cst_order_ok (progress_after c p) r
  end.

(** The object writes of a trace, as (slave, index, subindex, data). *)
Definition sdo_writes (l : list call) : list (nat * Z * Z * list Z) :=
  flat_map (fun c => match c with
                     | CSdoWrite i idx sub data _ => [(i, idx, sub, data)]
                     | _ => []
                     end) l.

End Net.

(** A master with [n] slaves that accepts every call, except the object
    writes selected by [refuse]; its state is not used. *)
Definition plain_master (n : nat) (refuse : nat -> Z -> bool)
  : Net.master unit :=
  Net.mkMaster unit (fun _ => n) (fun w => w) (fun _ _ => PREOP_STATE)
               (fun _ _ w => w) (fun _ w => w) (fun w => Some w)
               (fun s _ w => (w, s))
               (fun w => (w, Some (Z.of_nat n)))
               (fun w => (w, Some 12))
               (fun w => (w, Some true))
               (fun _ _ _ w => (w, true))
               (fun i idx _ _ w => (w, negb (refuse i idx)))
               (fun _ _ _ _ w => (w, Some [10]))
               (fun _ w => w).

(** The progress recorded by a whole trace. *)
Definition progress_of (p : nat -> nat) (l : list Net.call) : nat -> nat :=
  fold_left (fun p c => Net.progress_after c p) l p.

(** The object writes [configure_cst_mode] makes on a slave, at most. *)
Definition cst_plan : list (Z * Z * list Z) :=
  [ (0x6040, 0, [0; 0]); (0x6060, 0, [10]); (0x6072, 0, [100; 0]);
    (0x6087, 0, [100; 0]) ].

Definition cst_write_allowed (n : nat) (x : nat * Z * Z * list Z) : Prop :=
  let '(i, idx, sub, data) := x in
  (i < n)%nat /\ In (idx, sub, data) cst_plan.

(* ===================================================================== *)
(** ** [configure_slaves] and [enter_safeop_state] *)
(* ===================================================================== *)

Module Bringup.
Import PyBytes.

Section WithMaster.
Context {W : Type} (M : Net.master W).

(** *** [configure_slaves] *)

(** Lines 605-618 for slave [i]: the new [all_preop]. *)
Definition preop_gate_slave (acc : Net.st * bool) (i : nat)
  : Net.st * bool :=
  let (s, all_preop) := acc in
  if negb (Net.slave_state M i (fst s) =? PREOP_STATE) then
    match Net.do_write_state M
            (Net.do_set_slave_state M i PREOP_STATE s) with
    | (s2, false) => (s2, false)
    | (s2, true) =>
      let s3 := Net.do_read_state M (Net.do_sleep M (2 # 10) s2) in
      if Net.slave_state M i (fst s3) =? PREOP_STATE
      then (s3, true) else (s3, false)
    end
  else (s, all_preop).

(** Lines 637-642 for slave [i]: both assignment counts are cleared in one
    [try], whose handler does nothing. *)
Definition clear_assignment (s : Net.st) (i : nat) : Net.st :=
  match Net.do_sdo_write M i 0x1C12 0x00 (Net.bytes_of 0 2) s with
  | (s1, false) => s1
  | (s1, true) =>
    match Net.do_sdo_write M i 0x1C13 0x00 (Net.bytes_of 0 2) s1 with
    | (s2, false) => s2
    | (s2, true) => Net.do_sleep M (5 # 100) s2
    end
  end.

(** Lines 651-659 for slave [i]. *)
Definition back_to_preop (s : Net.st) (i : nat) : Net.st :=
  if negb (Net.slave_state M i (fst s) =? PREOP_STATE) then
    match Net.do_write_state M
            (Net.do_set_slave_state M i PREOP_STATE s) with
    | (s2, false) => s2
    | (s2, true) => Net.do_read_state M (Net.do_sleep M (2 # 10) s2)
    end
  else s.

(** Lines 669-675: the same loop inside one [try]: the first exception
    ends it. *)
Fixpoint restore_preop (slaves : list nat) (s : Net.st) : Net.st :=
  match slaves with
  | [] => s
  | i :: rest =>
    if negb (Net.slave_state M i (fst s) =? PREOP_STATE) then
      match Net.do_write_state M
              (Net.do_set_slave_state M i PREOP_STATE s) with
      | (s2, false) => s2
      | (s2, true) =>
        restore_preop rest
                      (Net.do_read_state M (Net.do_sleep M (2 # 10) s2))
      end
    else restore_preop rest s
  end.

(** Lines 667-678: the handler of the second failure. *)
Definition abandon_mapping (s : Net.st) : Net.st :=
  let s1 := Net.do_read_state M s in
  restore_preop (seq 0 (Net.n_slaves M (fst s1))) s1.

(** Lines 634-678: what is done after [config_map] has raised; the
    boolean tells whether the second [config_map] returned. *)
Definition default_mapping (s : Net.st) : Net.st * bool :=
  let s1 := fold_left clear_assignment (seq 0 (Net.n_slaves M (fst s))) s in
  match Net.do_config_init M s1 with
  | (s2, None) => (abandon_mapping s2, false)
  | (s2, Some _) =>
    let s3 := Net.do_read_state M (Net.do_sleep M (2 # 10) s2) in
    let s4 := fold_left back_to_preop
                        (seq 0 (Net.n_slaves M (fst s3))) s3 in
    match Net.do_config_map M s4 with
    | (s5, Some _) => (s5, true)
    | (s5, None) => (abandon_mapping s5, false)
    end
  end.

(** Lines 591-691 (console output apart). *)
Definition configure_slaves (s : Net.st) : Net.st * Net.outcome :=
  let s0 :=
    Net.do_read_state M
      (Net.do_read_state M
         (Net.do_sleep M 1 (Net.do_manual_state_change s))) in
  let (s1, all_preop) :=
    fold_left preop_gate_slave (seq 0 (Net.n_slaves M (fst s0)))
              (s0, true) in
  if negb all_preop then (s1, Net.Returned false)
  else
    match Net.do_config_map M s1 with
    | (s2, Some _) => (s2, Net.Returned true)
    | (s2, None) =>
      match default_mapping s2 with
      | (s3, true) => (s3, Net.Returned true)
      | (s3, false) => (s3, Net.Raised)
      end
    end.

(** *** [enter_safeop_state] *)

(** [ETHERCAT_CYCLE_TIME_NS = int(ETHERCAT_CYCLE_TIME_MS * 1_000_000)]
    (line 832), a float product computed when the module is loaded:
    [None] when the conversion raises, in which case no function of the
    module is ever run. *)
Definition cycle_time_ns (P : PyFloat.float) : option Z :=
  PyFloat.to_int (PyFloat.mul P (PyFloat.of_Z 1000000)).

(** Lines 728-733 for slave [i]; [ns] is the value of
    [ETHERCAT_CYCLE_TIME_NS]. *)
Definition sync_slave (ns : Z) (s : Net.st) (i : nat) : Net.st :=
  fst (Net.do_dc_sync M i ns 0 s).

(** Lines 776-799 for slave [i]: the new [dc_config_ok]. *)
Definition read_dc_config (acc : Net.st * bool) (i : nat)
  : Net.st * bool :=
  let (s, dc_config_ok) := acc in
  match Net.do_sdo_read M i 0x1C32 0x01 2 s with
  | (s1, None) => (s1, false)
  | (s1, Some dc_control_data) =>
    if truthy dc_control_data then
      let dc_control := from_bytes dc_control_data in
      let ok := if dc_control =? 2 then dc_config_ok else false in
      match Net.do_sdo_read M i 0x1C32 0x02 4 s1 with
      | (s2, None) => (s2, false)
      | (s2, Some _) => (s2, ok)
      end
    else (s1, dc_config_ok)
  end.

(** [print_slave_state_machine_info], lines 91-172, as far as the network
    is concerned: each read is in a [try] of its own. *)
Definition slave_state_machine_info (s : Net.st) (i : nat) : Net.st :=
  let s1 := Net.do_read_state M s in
  let s2 := fst (Net.do_sdo_read M i 0x6041 0x00 2 s1) in
  let s3 := fst (Net.do_sdo_read M i 0x6040 0x00 2 s2) in
  let s4 := fst (Net.do_sdo_read M i 0x603F 0x00 2 s3) in
  let s5 := fst (Net.do_sdo_read M i 0x6061 0x00 1 s4) in
  fst (Net.do_sdo_read M i 0x6060 0x00 1 s5).

(** Lines 699-815, [ns] being the value of [ETHERCAT_CYCLE_TIME_NS].  The
    third component is [dc_config_ok] when the function gets as far as
    computing it. *)
Definition enter_safeop_state (ns : Z) (s : Net.st)
  : Net.st * Net.outcome * option bool :=
  let s0 := Net.do_read_state M s in
  let n := Net.n_slaves M (fst s0) in
  if negb (forallb (fun i => Net.slave_state M i (fst s0) =? PREOP_STATE)
                   (seq 0 n))
  then (s0, Net.Returned false, None)
  else
    let s1 := Net.do_sleep M (2 # 10) (fst (Net.do_config_dc M s0)) in
    let s2 := fold_left (sync_slave ns) (seq 0 (Net.n_slaves M (fst s1))) s1 in
    match Net.do_write_state M (Net.do_set_master_state M SAFEOP_STATE s2) with
    | (s3, false) => (s3, Net.Raised, None)
    | (s3, true) =>
      match Net.do_state_check M SAFEOP_STATE (4 * 50000) s3 with
      | (s4, result_state) =>
        if result_state =? SAFEOP_STATE then
          let s5 := Net.do_read_state M s4 in
          let (s6, dc_config_ok) :=
            fold_left read_dc_config (seq 0 (Net.n_slaves M (fst s5)))
                      (s5, true) in
          let s7 := fold_left slave_state_machine_info
                              (seq 0 (Net.n_slaves M (fst s6))) s6 in
          (s7, Net.Returned true, Some dc_config_ok)
        else
          (* check_slave_states(master, show_all=True) *)
          (Net.do_read_state M s4, Net.Returned false, None)
      end
    end.

End WithMaster.

(** *** Notions on traces *)

Definition is_config_map (c : Net.call) : bool :=
  match c with Net.CConfigMap _ => true | _ => false end.

Definition is_config_init (c : Net.call) : bool :=
  match c with Net.CConfigInit _ => true | _ => false end.

Definition is_object_write (c : Net.call) : bool :=
  match c with Net.CSdoWrite _ _ _ _ _ => true | _ => false end.

Definition count (f : Net.call -> bool) (l : list Net.call) : nat :=
  length (filter f l).

(** The writes that clear the two assignment objects. *)
Definition is_clear (x : nat * Z * Z * list Z) : Prop :=
  let '(_, idx, sub, data) := x in
  (idx = 0x1C12 \/ idx = 0x1C13) /\ sub = 0 /\ data = [0; 0].

End Bringup.

(** [s'] is [s] after further calls, all of which satisfy [Pr]. *)
Definition extends {W : Type} (Pr : Net.call -> Prop) (s s' : @Net.st W)
  : Prop :=
  exists l, Net.log s' = Net.log s ++ l /\ Forall Pr l.

(** Calls that neither map the process data, nor scan the bus, nor write
    an object. *)
Definition quiet (c : Net.call) : Prop :=
  Bringup.is_config_map c = false
  /\ Bringup.is_config_init c = false
  /\ Bringup.is_object_write c = false.

(** Calls that are quiet or clear an assignment object. *)
Definition clearing (c : Net.call) : Prop :=
  Bringup.is_config_map c = false
  /\ Bringup.is_config_init c = false
  /\ Forall Bringup.is_clear (Net.sdo_writes [c]).

(** Calls that only read: the states or an object. *)
Definition reading (c : Net.call) : Prop :=
  match c with
  | Net.CReadState => True
  | Net.CSdoRead _ _ _ _ _ => True
  | _ => False
  end.

(** The calls arming the sync signal of slaves [a], [a+1], ... with the
    given outcomes. *)
Fixpoint sync_calls (ns : Z) (a : nat) (oks : list bool) : list Net.call :=
  match oks with
  | [] => []
  | ok :: rest => Net.CDcSync a ns 0 ok :: sync_calls ns (S a) rest
  end.

(** The shapes the trace of [configure_slaves] can take once the first
    [config_map] has raised: [rest] is what follows the clearing writes. *)
Definition fallback_shape (rest : list Net.call) (out : Net.outcome) : Prop :=
  (exists lq,
      rest = [Net.CConfigInit None] ++ lq
      /\ Forall quiet lq /\ out = Net.Raised)
  \/ (exists k lq sz,
         rest = [Net.CConfigInit (Some k)] ++ lq ++ [Net.CConfigMap (Some sz)]
         /\ Forall quiet lq /\ out = Net.Returned true)
  \/ (exists k lq lq',
         rest = [Net.CConfigInit (Some k)] ++ lq ++ [Net.CConfigMap None]
                ++ lq'
         /\ Forall quiet lq /\ Forall quiet lq' /\ out = Net.Raised).

(** The shapes of the whole trace: [l0] is what comes before the first
    [config_map], and [n] a number of slaves on which the clearing is to
    be found. *)
Definition slaves_shape (n : nat) (l : list Net.call)
           (out : Net.outcome) : Prop :=
  exists l0,
    Forall quiet l0
    /\ ((l = l0 /\ out = Net.Returned false)
        \/ (exists sz,
               l = l0 ++ [Net.CConfigMap (Some sz)]
               /\ out = Net.Returned true)
        \/ (exists lc rest,
               l = l0 ++ [Net.CConfigMap None] ++ lc ++ rest
               /\ Forall clearing lc
               /\ (forall j, (j < n)%nat ->
                     exists ok, In (Net.CSdoWrite j 0x1C12 0 [0; 0] ok) lc)
               /\ fallback_shape rest out)).

(* ===================================================================== *)
(** ** [main] *)
(* ===================================================================== *)

Module Main.

(** The calls [main] makes once it has an adapter, lines 1631-1710. *)
Inductive step :=
| SOpen          (* master.open(selected_adapter.name) *)
| SScan          (* scan_slaves(master) *)
| SPreop         (* enter_preop_state(master) *)
| SPdo           (* configure_pdo_mapping(master) *)
| SSlaves        (* configure_slaves(master) *)
| SSafeop        (* enter_safeop_state(master) *)
| SStartThread   (* start_data_exchange_thread(master) *)
| SOp            (* set_slaves_to_op_state_cst(master) *)
| SCstMode       (* configure_cst_mode(master) *)
| SCyclic        (* cyclic_operation_cst(master, duration=300, ..) *)
| SStopThread    (* stop_data_exchange_thread() *)
| SBackToSafeop  (* set_slaves_to_safeop_state(master) *)
| SClose.        (* master.close() *)

(** The steps whose result [main] tests (lines 1646-1677), and those whose
    result it drops (lines 1681-1699). *)
Definition gates : list step := [SScan; SPreop; SPdo; SSlaves; SSafeop].

Definition plain : list step :=
  [SStartThread; SOp; SCstMode; SCyclic; SStopThread; SBackToSafeop].

Section WithOutcomes.
(** What each call does: it returns a value, of which only the truth is
    given, or raises. *)
Variable outcome_of : step -> Net.outcome.

(** Lines 1681-1699 from some step on: an exception ends the [try]. *)
Fixpoint run_plain (l : list step) : list step :=
  match l with
  | [] => []
  | g :: rest =>
    g :: match outcome_of g with
         | Net.Returned _ => run_plain rest
         | Net.Raised => []
         end
  end.

(** Lines 1646-1677 from some step on: after a false result the master is
    closed and [main] returns. *)
Fixpoint run_gates (l : list step) : list step :=
  match l with
  | [] => run_plain plain
  | g :: rest =>
    g :: match outcome_of g with
         | Net.Returned true => run_gates rest
         | Net.Returned false => [SClose]
         | Net.Raised => []
         end
  end.

(** The [try] of lines 1628-1699. *)
Definition try_body : list step :=
  SOpen :: match outcome_of SOpen with
           | Net.Returned _ => run_gates gates
           | Net.Raised => []
           end.

(** Lines 1604-1713: the calls made, given what
    [pysoem.find_adapters()] returns; the [finally] closes the master. *)
Definition main (adapters : list Adapters.adapter) : list step :=
  match Adapters.selected_adapter adapters with
  | None => []
  | Some _ => try_body ++ [SClose]
  end.

End WithOutcomes.

(** The order in which [main] takes its steps. *)
Definition order : list step := SOpen :: gates ++ plain.

End Main.


(* ===================================================================== *)
(** ** [enter_preop_state] *)
(* ===================================================================== *)

Module Preop.

Section WithMaster.
Context {W : Type} (M : Net.master W).

(** Lines 271-300 from slave [i] on.  The second component is the result
    of a [return] or a raised exception inside the loop, [None] at the end
    of the loop; the third records each slave the loop looked at with the
    state it found. *)
Fixpoint scan (slaves : list nat) (s : Net.st)
  : Net.st * option Net.outcome * list (nat * Z) :=
  match slaves with
  | [] => (s, None, [])
  | i :: rest =>
    let state := Net.slave_state M i (fst s) in
    if negb (state =? PREOP_STATE) then
      match Net.do_write_state M
              (Net.do_set_slave_state M i INIT_STATE s) with
      | (s2, false) =>
        let '(s', r, found) := scan rest s2 in (s', r, (i, state) :: found)
      | (s2, true) =>
        let '(s', r, found) := scan rest (Net.do_sleep M (1 # 10) s2) in
        (s', r, (i, state) :: found)
      end
    else
      match Net.do_write_state M
              (Net.do_set_master_state M PREOP_STATE s) with
      | (s2, false) => (s2, Some Net.Raised, [(i, state)])
      | (s2, true) =>
        let (s3, result_state) :=
          Net.do_state_check M PREOP_STATE (3 * 50000) s2 in
        (s3, Some (Net.Returned (result_state =? PREOP_STATE)),
         [(i, state)])
      end
  end.

(** Lines 268-335 (console output apart), with the record of [scan]. *)
Definition enter_preop_state (s : Net.st)
  : Net.st * Net.outcome * list (nat * Z) :=
  let s0 := Net.do_read_state M s in
  match scan (seq 0 (Net.n_slaves M (fst s0))) s0 with
  | (s1, Some out, found) => (s1, out, found)
  | (s1, None, found) =>
    let s2 := Net.do_read_state M s1 in
    let all_preop :=
      forallb (fun i => Net.slave_state M i (fst s2) =? PREOP_STATE)
              (seq 0 (Net.n_slaves M (fst s2))) in
    if negb all_preop then
      match Net.do_write_state M
              (Net.do_set_master_state M PREOP_STATE s2) with
      | (s3, false) => (s3, Net.Raised, found)
      | (s3, true) =>
        let (s4, result_state) :=
          Net.do_state_check M PREOP_STATE (3 * 50000)
                             (Net.do_sleep M (2 # 10) s3) in
        (Net.do_read_state M s4,
         Net.Returned (result_state =? PREOP_STATE), found)
      end
    else (s2, Net.Returned true, found)
  end.

End WithMaster.

(** The calls by which one slave is sent to INIT (state code 1). *)
Definition init_request (c : Net.call) : Prop :=
  match c with
  | Net.CSetSlaveState _ s => s = 1
  | Net.CWriteState _ => True
  | Net.CSleep q => q = (1 # 10)%Q
  | _ => False
  end.

(** How a trace ends when the loop met a slave in PREOP (state code 2):
    the request to the master, and the check that decides the result when
    the request is written. *)
Definition ending_in_loop (tail : list Net.call) (out : Net.outcome)
  : Prop :=
  (tail = [Net.CSetMasterState 2; Net.CWriteState false]
   /\ out = Net.Raised)
  \/ (exists r,
         tail = [Net.CSetMasterState 2; Net.CWriteState true;
                 Net.CStateCheck 2 150000 r]
         /\ out = Net.Returned (r =? 2)).

(** How it ends when the loop met none. *)
Definition ending_after_loop (tail : list Net.call) (out : Net.outcome)
  : Prop :=
  (tail = [Net.CReadState] /\ out = Net.Returned true)
  \/ (tail = [Net.CReadState; Net.CSetMasterState 2; Net.CWriteState false]
      /\ out = Net.Raised)
  \/ (exists r,
         tail = [Net.CReadState; Net.CSetMasterState 2;
                 Net.CWriteState true; Net.CSleep (2 # 10);
                 Net.CStateCheck 2 150000 r; Net.CReadState]
         /\ out = Net.Returned (r =? 2)).

(** The slaves sent to INIT by a trace. *)
Definition sent_to_init (l : list Net.call) : list nat :=
  flat_map (fun c => match c with
                     | Net.CSetSlaveState i _ => [i]
                     | _ => []
                     end) l.

End Preop.


(* ===================================================================== *)
(** * Properties *)
(* ===================================================================== *)

(** ** Python floats *)

(** The mantissa stays non-negative through the shifts and the rounding,
    so that a quotient of two floats is never turned into a NaN by the
    rounding and has the sign given by its operands. *)
Lemma shr_1_nonneg (r : shr_record) : 0 <= shr_m r -> 0 <= shr_m (shr_1 r).
Proof.
  destruct r as [m b s]. cbn [shr_m]. intros H. unfold shr_1.
  destruct m as [|[p|p|]|p]; cbn [shr_m]; lia.
Qed.

Lemma iter_shr_1_nonneg (p : positive) :
  forall r, 0 <= shr_m r -> 0 <= shr_m (iter_pos shr_1 p r).
Proof.
  induction p as [p IH|p IH|]; intros r H; cbn [iter_pos].
  - apply IH, IH, shr_1_nonneg, H.
  - apply IH, IH, H.
  - apply shr_1_nonneg, H.
Qed.

Lemma shr_fexp_nonneg (m e : Z) (l : location) :
  0 <= m -> 0 <= shr_m (fst (shr_fexp PyFloat.prec PyFloat.emax m e l)).
Proof.
  intros H. unfold shr_fexp, shr.
  assert (H0 : 0 <= shr_m (shr_record_of_loc m l)).
  { destruct l as [|[| |]]; exact H. }
  destruct (_ - e) as [|p|p]; cbn [fst]; try exact H0.
  apply iter_shr_1_nonneg, H0.
Qed.

Lemma round_nearest_even_nonneg (m : Z) (l : location) :
  0 <= m -> 0 <= round_nearest_even m l.
Proof.
  intros H. unfold round_nearest_even.
  destruct l as [|[| |]]; try lia. destruct (Z.even m); lia.
Qed.

Lemma binary_round_aux_sign (s : bool) (m e : Z) (l : location) :
  0 <= m ->
  PyFloat.has_sign s (binary_round_aux PyFloat.prec PyFloat.emax s m e l).
Proof.
  intros H. unfold binary_round_aux.
  pose proof (shr_fexp_nonneg m e l H) as H1.
  destruct (shr_fexp PyFloat.prec PyFloat.emax m e l) as [r1 e1].
  cbn [fst] in H1.
  pose proof (shr_fexp_nonneg
                (round_nearest_even (shr_m r1) (loc_of_shr_record r1))
                e1 loc_Exact
                (round_nearest_even_nonneg _ _ H1)) as H2.
  destruct (shr_fexp PyFloat.prec PyFloat.emax _ e1 loc_Exact) as [r2 e2].
  cbn [fst] in H2.
  destruct (shr_m r2) as [|p|p]; [reflexivity| |lia].
  destruct (e2 <=? _); reflexivity.
Qed.

Lemma div_core_nonneg (m1 m2 : positive) (e1 e2 : Z) :
  0 <= fst (fst (SFdiv_core_binary PyFloat.prec PyFloat.emax
                                   (Zpos m1) e1 (Zpos m2) e2)).
Proof.
  unfold SFdiv_core_binary. cbv zeta.
  set (s := _ - _ - _).
  set (m' := match s with Z0 => _ | Zpos _ => _ | Zneg _ => _ end).
  assert (Hm : 0 <= m').
  { subst m'. destruct s; try lia. apply Z.shiftl_nonneg. lia. }
  pose proof (Z_div_mod m' (Zpos m2) ltac:(lia)) as Hd.
  destruct (Z.div_eucl m' (Zpos m2)) as [q r]. cbn [fst].
  destruct Hd as [Hq Hr]. nia.
Qed.

(** A period that is not negative is, in seconds, a duration that
    [time.sleep] accepts. *)
Lemma period_seconds_nonneg (P : PyFloat.float) :
  PyFloat.leb PyFloat.zero P = true ->
  PyFloat.time_sleep_raises (PyFloat.seconds P) = false.
Proof.
  intros HP.
  assert (Hs : PyFloat.has_sign false (PyFloat.seconds P)
               \/ PyFloat.seconds P = S754_zero true).
  { unfold PyFloat.seconds, PyFloat.div_by.
    change (PyFloat.of_Z 1000)
      with (S754_finite false 8796093022208000 (-43)).
    destruct P as [s|s| |s m e]; cbn in HP; try discriminate.
    - destruct s; cbn; auto.
    - destruct s; [discriminate|]. left. reflexivity.
    - destruct s; [discriminate|]. left.
      cbn [SFdiv xorb].
      pose proof (div_core_nonneg m 8796093022208000 e (-43)) as Hq.
      destruct (SFdiv_core_binary _ _ _ _ _ _) as [[q e'] l].
      cbn [fst] in Hq. apply binary_round_aux_sign. exact Hq. }
  unfold PyFloat.time_sleep_raises.
  destruct Hs as [Hs| ->]; [|reflexivity].
  destruct (PyFloat.seconds P) as [s|s| |s m e]; cbn in Hs;
    try contradiction; subst s; reflexivity.
Qed.

(** *** Bounds on rounded results *)

Lemma pow2_le_1 (K : Z) : K <= 0 -> 2 ^ K <= 1.
Proof.
  intros H. destruct (Z.eq_dec K 0) as [->|Hn]; [cbn; lia|].
  rewrite Z.pow_neg_r by lia. lia.
Qed.

Lemma pow2_double (K : Z) : 0 < K -> 2 ^ K = 2 * 2 ^ (K - 1).
Proof.
  intros H. rewrite <- Z.pow_succ_r by lia. f_equal. lia.
Qed.

Lemma digits2_pos_bound (p : positive) :
  forall K, Zpos p < 2 ^ K -> Zpos (digits2_pos p) <= K.
Proof.
  induction p as [p IH|p IH|]; intros K HK; cbn [digits2_pos];
    (destruct (Z.ltb_spec 0 K) as [HK0|HK0];
     [|pose proof (pow2_le_1 K HK0); lia]).
  - rewrite pow2_double in HK by assumption.
    rewrite Pos2Z.inj_succ. specialize (IH (K - 1)). lia.
  - rewrite pow2_double in HK by assumption.
    rewrite Pos2Z.inj_succ. specialize (IH (K - 1)). lia.
  - lia.
Qed.

Lemma Zdigits2_bound (z K : Z) :
  0 <= z < 2 ^ K -> 0 <= K -> Zdigits2 z <= K.
Proof.
  intros [H0 H1] HK. destruct z as [|p|p]; cbn [Zdigits2]; try lia.
  apply digits2_pos_bound. exact H1.
Qed.

Lemma shr_1_le (r : shr_record) :
  0 <= shr_m r -> 0 <= shr_m (shr_1 r) <= shr_m r.
Proof.
  destruct r as [m b s]. cbn [shr_m]. intros H. unfold shr_1.
  destruct m as [|[p|p|]|p]; cbn [shr_m]; lia.
Qed.

Lemma iter_shr_1_le (p : positive) :
  forall r, 0 <= shr_m r -> 0 <= shr_m (iter_pos shr_1 p r) <= shr_m r.
Proof.
  induction p as [p IH|p IH|]; intros r H; cbn [iter_pos].
  - pose proof (shr_1_le r H) as H1.
    pose proof (IH (shr_1 r) (proj1 H1)) as H2.
    pose proof (IH _ (proj1 H2)) as H3. lia.
  - pose proof (IH r H) as H2.
    pose proof (IH _ (proj1 H2)) as H3. lia.
  - apply shr_1_le, H.
Qed.

Lemma shr_fexp_spec (m e : Z) (l : location) :
  0 <= m ->
  0 <= shr_m (fst (shr_fexp PyFloat.prec PyFloat.emax m e l)) <= m
  /\ snd (shr_fexp PyFloat.prec PyFloat.emax m e l)
     <= Z.max e (Z.max (Zdigits2 m + e - 53) (-1074)).
Proof.
  intros H. unfold shr_fexp, shr.
  assert (H0 : shr_m (shr_record_of_loc m l) = m).
  { destruct l as [|[| |]]; reflexivity. }
  assert (Hf : fexp PyFloat.prec PyFloat.emax (Zdigits2 m + e)
               = Z.max (Zdigits2 m + e - 53) (-1074)).
  { reflexivity. }
  rewrite Hf.
  destruct (Z.max (Zdigits2 m + e - 53) (-1074) - e) as [|p|p] eqn:Hn;
    cbn [fst snd].
  - rewrite H0. lia.
  - pose proof (iter_shr_1_le p (shr_record_of_loc m l)) as Hi.
    rewrite H0 in Hi. split; [apply Hi; exact H|]. lia.
  - rewrite H0. lia.
Qed.

Lemma round_nearest_even_le (m : Z) (l : location) :
  0 <= m -> 0 <= round_nearest_even m l <= m + 1.
Proof.
  intros H. unfold round_nearest_even.
  destruct l as [|[| |]]; try lia. destruct (Z.even m); lia.
Qed.

Lemma binary_round_aux_bounded (s : bool) (m e : Z) (l : location)
      (K E : Z) :
  0 <= m < 2 ^ K -> 0 <= K -> e <= E ->
  let E1 := Z.max E (Z.max (K + E - 53) (-1074)) in
  let E2 := Z.max E1 (Z.max (K + 1 + E1 - 53) (-1074)) in
  E2 <= 971 ->
  rounded_within K E2 (binary_round_aux PyFloat.prec PyFloat.emax s m e l).
Proof.
  intros Hm HK He E1 E2 HE2. unfold binary_round_aux.
  pose proof (shr_fexp_spec m e l (proj1 Hm)) as [Hr1 He1].
  pose proof (Zdigits2_bound m K Hm HK) as Hd.
  destruct (shr_fexp PyFloat.prec PyFloat.emax m e l) as [r1 e1].
  cbn [fst snd] in Hr1, He1.
  pose proof (round_nearest_even_le (shr_m r1) (loc_of_shr_record r1)
                                    (proj1 Hr1)) as Hx.
  set (x := round_nearest_even (shr_m r1) (loc_of_shr_record r1)) in *.
  assert (Hpow : 2 ^ (K + 1) = 2 * 2 ^ K).
  { rewrite (pow2_double (K + 1)) by lia. do 2 f_equal. lia. }
  assert (Hxb : 0 <= x < 2 ^ (K + 1)) by lia.
  pose proof (shr_fexp_spec x e1 loc_Exact (proj1 Hxb)) as [Hr2 He2].
  pose proof (Zdigits2_bound x (K + 1) Hxb ltac:(lia)) as Hdx.
  destruct (shr_fexp PyFloat.prec PyFloat.emax x e1 loc_Exact) as [r2 e2].
  cbn [fst snd] in Hr2, He2.
  assert (He2' : e2 <= E2) by (subst E1 E2; lia).
  destruct (shr_m r2) as [|p|p] eqn:Hp; cbn [rounded_within]; [exact I| |lia].
  change (PyFloat.emax - PyFloat.prec) with 971.
  destruct (Z.leb_spec e2 971); [|lia].
  cbn [rounded_within]. split; lia.
Qed.

Lemma rounded_within_weaken (K E K' E' : Z) (x : PyFloat.float) :
  rounded_within K E x -> K <= K' -> E <= E' -> rounded_within K' E' x.
Proof.
  destruct x as [s|s| |s m e]; cbn; try tauto.
  intros [Hm He] HK HE. split; [|lia].
  eapply Z.lt_le_trans; [exact Hm|].
  apply Z.pow_le_mono_r; lia.
Qed.

Lemma to_int_rounded (K E : Z) (x : PyFloat.float) :
  0 <= K -> 0 <= E ->
  rounded_within K E x ->
  exists z, PyFloat.to_int x = Some z /\ Z.abs z < 2 ^ (K + 1 + E).
Proof.
  intros HK HE. destruct x as [s|s| |s m e]; cbn [rounded_within];
    try contradiction.
  - intros _. exists 0. split; [reflexivity|].
    cbn [Z.abs]. apply Z.pow_pos_nonneg; lia.
  - intros [Hm He]. eexists. split; [reflexivity|].
    assert (Hv : 0 <= (if 0 <=? e then Zpos m * 2 ^ e
                       else Zpos m / 2 ^ (- e)) < 2 ^ (K + 1 + E)).
    { destruct (Z.leb_spec 0 e) as [H0|H0].
      - split; [apply Z.mul_nonneg_nonneg; [lia|apply Z.pow_nonneg; lia]|].
        rewrite Z.pow_add_r by lia.
        assert (Hp : 0 < 2 ^ e) by (apply Z.pow_pos_nonneg; lia).
        assert (Hle : 2 ^ e <= 2 ^ E) by (apply Z.pow_le_mono_r; lia).
        nia.
      - assert (Hp : 0 < 2 ^ (- e)) by (apply Z.pow_pos_nonneg; lia).
        split; [apply Z.div_pos; lia|].
        apply Z.le_lt_trans with (m := Zpos m).
        + apply Z.div_le_upper_bound; [lia|]. nia.
        + eapply Z.lt_le_trans; [exact Hm|].
          apply Z.pow_le_mono_r; lia. }
    destruct s; cbn [cond_Zopp]; lia.
Qed.

(** A quotient of two floats with full mantissas whose exponents differ
    by 6 to 11. *)
Lemma div_bounded (n1 m : positive) (e1 e : Z) :
  Zpos (digits2_pos n1) = 53 -> Zpos (digits2_pos m) = 53 ->
  Zpos n1 < 2 ^ 53 ->
  6 <= e1 - e <= 11 ->
  rounded_within 106 65
    (SFdiv PyFloat.prec PyFloat.emax
           (S754_finite false n1 e1) (S754_finite false m e)).
Proof.
  intros Hd1 Hd2 Hn1 He. cbn [SFdiv xorb].
  unfold SFdiv_core_binary. cbv zeta. cbn [Zdigits2].
  rewrite Hd1, Hd2.
  assert (Hf : Z.min (fexp PyFloat.prec PyFloat.emax (53 + e1 - (53 + e)))
                     (e1 - e) = e1 - e - 53).
  { change (fexp PyFloat.prec PyFloat.emax (53 + e1 - (53 + e)))
      with (Z.max (53 + e1 - (53 + e) - 53) (-1074)). lia. }
  rewrite Hf.
  replace (e1 - e - (e1 - e - 53)) with 53 by lia.
  cbv iota beta.
  assert (Hm' : Z.shiftl (Zpos n1) 53 = Zpos n1 * 2 ^ 53).
  { apply Z.shiftl_mul_pow2. lia. }
  rewrite Hm'.
  pose proof (Z_div_mod (Zpos n1 * 2 ^ 53) (Zpos m) ltac:(lia)) as Hd.
  destruct (Z.div_eucl (Zpos n1 * 2 ^ 53) (Zpos m)) as [q r].
  destruct Hd as [Hq Hr].
  assert (Hq0 : 0 <= q) by nia.
  assert (Hq1 : q <= Zpos n1 * 2 ^ 53) by nia.
  assert (Hq2 : q < 2 ^ 106).
  { change (2 ^ 106) with (2 ^ 53 * 2 ^ 53). 
    assert (Zpos n1 * 2 ^ 53 < 2 ^ 53 * 2 ^ 53); [|lia].
    apply Z.mul_lt_mono_pos_r; [reflexivity|exact Hn1]. }
  apply (binary_round_aux_bounded false q (e1 - e - 53)
                                  (new_location (Zpos m) r) 106 (-42));
    [lia|lia|lia|].
  cbv. discriminate.
Qed.

(** A valid float between 1.0 and 10.0. *)
Lemma range_float (P : PyFloat.float) :
  valid_binary PyFloat.prec PyFloat.emax P = true ->
  PyFloat.leb (PyFloat.of_Z 1) P = true ->
  PyFloat.leb P (PyFloat.of_Z 10) = true ->
  exists m e,
    P = S754_finite false m e
    /\ -52 <= e <= -49 /\ Zpos (digits2_pos m) = 53.
Proof.
  change (PyFloat.of_Z 1) with (S754_finite false 4503599627370496 (-52)).
  change (PyFloat.of_Z 10) with (S754_finite false 5629499534213120 (-49)).
  unfold PyFloat.leb, SFleb.
  destruct P as [s|s| |s m e]; cbn [SFcompare valid_binary];
    try (destruct s; discriminate); try discriminate.
  destruct s; [discriminate|].
  intros Hv H1 H10.
  assert (He1 : -52 <= e).
  { destruct (Z.compare_spec (-52) e); try lia; discriminate. }
  assert (He2 : e <= -49).
  { destruct (Z.compare_spec e (-49)); try lia; discriminate. }
  exists m, e. split; [reflexivity|]. split; [lia|].
  unfold bounded, canonical_mantissa in Hv.
  apply andb_prop in Hv. destruct Hv as [Hc _].
  apply Z.eqb_eq in Hc.
  change (fexp PyFloat.prec PyFloat.emax (Zpos (digits2_pos m) + e))
    with (Z.max (Zpos (digits2_pos m) + e - 53) (-1074)) in Hc.
  lia.
Qed.

(** *** The thresholds for a period between 1 and 10 ms *)

Lemma steps_in_range (ms : Z) (n1 : positive) (e1 : Z) (m : positive)
      (e : Z) :
  PyFloat.of_Z ms = S754_finite false n1 e1 ->
  Zpos (digits2_pos n1) = 53 -> Zpos n1 < 2 ^ 53 -> -43 <= e1 <= -41 ->
  -52 <= e <= -49 -> Zpos (digits2_pos m) = 53 ->
  exists z,
    Cst.steps_of_ms ms (S754_finite false m e) = Some z
    /\ Z.abs z < 2 ^ 172.
Proof.
  intros Hms Hd1 Hn1 He1 He Hd.
  unfold Cst.steps_of_ms, PyFloat.div. cbn [PyFloat.is_zero]. rewrite Hms.
  pose proof (div_bounded n1 m e1 e Hd1 Hd Hn1 ltac:(lia)) as Hb.
  destruct (to_int_rounded 106 65 _ ltac:(lia) ltac:(lia) Hb) as (z & Hz & Hzb).
  exists z. split; [exact Hz|exact Hzb].
Qed.

Lemma pos_iter_xO (p d : positive) :
  Zpos (Pos.iter xO p d) = Zpos p * 2 ^ Zpos d.
Proof.
  rewrite <- Z.shiftl_mul_pow2 by lia. cbn [Z.shiftl].
  apply (Pos.iter_swap_gen _ _ Zpos xO (Z.mul 2)). reflexivity.
Qed.

(** The float of an integer below 2^172 in absolute value. *)
Lemma of_Z_bounded (z : Z) :
  Z.abs z < 2 ^ 172 -> rounded_within 224 343 (PyFloat.of_Z z).
Proof.
  intros Hz. unfold PyFloat.of_Z, binary_normalize.
  assert (Hround : forall s p, Zpos p < 2 ^ 172 ->
            rounded_within 224 343
              (binary_round PyFloat.prec PyFloat.emax s p 0)).
  { intros s p Hp. unfold binary_round, shl_align.
    pose proof (digits2_pos_bound p 172 Hp) as Hdp.
    change (fexp PyFloat.prec PyFloat.emax (Zpos (digits2_pos p) + 0))
      with (Z.max (Zpos (digits2_pos p) + 0 - 53) (-1074)).
    destruct (Z.max (Zpos (digits2_pos p) + 0 - 53) (-1074) - 0)
      as [|d|d] eqn:Hd.
    - apply (binary_round_aux_bounded s (Zpos p) 0 loc_Exact 224 0);
        [|lia|lia|cbv; discriminate].
      split; [lia|]. eapply Z.lt_le_trans; [exact Hp|].
      apply Z.pow_le_mono_r; lia.
    - apply (binary_round_aux_bounded s (Zpos p) 0 loc_Exact 224 0);
        [|lia|lia|cbv; discriminate].
      split; [lia|]. eapply Z.lt_le_trans; [exact Hp|].
      apply Z.pow_le_mono_r; lia.
    - assert (Hd52 : Zpos d <= 52) by lia.
      apply (binary_round_aux_bounded
               s (Zpos (Pos.iter xO p d)) _ loc_Exact 224 0);
        [|lia|lia|cbv; discriminate].
      rewrite pos_iter_xO. split; [lia|].
      change (2 ^ 224) with (2 ^ 172 * 2 ^ 52).
      assert (Hp2 : 0 < 2 ^ Zpos d) by (apply Z.pow_pos_nonneg; lia).
      assert (Hle : 2 ^ Zpos d <= 2 ^ 52) by (apply Z.pow_le_mono_r; lia).
      nia. }
  destruct z as [|p|p]; [exact I| |]; apply Hround; cbn [Z.abs] in Hz; lia.
Qed.

Lemma half_steps_exist (z : Z) :
  Z.abs z < 2 ^ 172 -> exists h, Cst.half_steps z = Some h.
Proof.
  intros Hz. unfold Cst.half_steps.
  change (PyFloat.lit 5 10) with (S754_finite false 4503599627370496 (-53)).
  pose proof (of_Z_bounded z Hz) as Hb.
  assert (Hprod : rounded_within 277 739
            (PyFloat.mul (PyFloat.of_Z z)
                         (S754_finite false 4503599627370496 (-53)))).
  { destruct (PyFloat.of_Z z) as [s|s| |s m e]; cbn [rounded_within] in Hb;
      try contradiction.
    - exact I.
    - destruct Hb as [Hm He]. unfold PyFloat.mul. cbn [SFmul].
      apply (binary_round_aux_bounded
               _ (Zpos (m * 4503599627370496)) (e + -53) loc_Exact 277 290);
        [|lia|lia|cbv; discriminate].
      rewrite Pos2Z.inj_mul. split; [lia|].
      change (2 ^ 277) with (2 ^ 225 * 2 ^ 52).
      change (Zpos 4503599627370496) with (2 ^ 52).
      change (224 + 1) with 225 in Hm.
      assert (0 < 2 ^ 52) by reflexivity. nia. }
  destruct (to_int_rounded 277 739 _ ltac:(lia) ltac:(lia) Hprod)
    as (h & Hh & _).
  exists h. exact Hh.
Qed.

(** X26.  For every binary64 period between 1.0 and 10.0 ms, with or
    without a fault found before the loop, the stage thresholds of
    [cyclic_operation_cst] are computed: none of the divisions by the
    period of lines 1302 to 1317 raises [ZeroDivisionError], and none of
    the conversions [int(...)] raises [OverflowError] or [ValueError]. *)
Theorem compute_thresholds_total_in_range (P : PyFloat.float) (h : bool) :
  valid_binary PyFloat.prec PyFloat.emax P = true ->
  PyFloat.leb (PyFloat.of_Z 1) P = true ->
  PyFloat.leb P (PyFloat.of_Z 10) = true ->
  exists t, Cst.compute_thresholds P h = Some t.
Proof.
  intros Hv H1 H10.
  destruct (range_float P Hv H1 H10) as (m & e & -> & He & Hd).
  unfold Cst.compute_thresholds.
  destruct (steps_in_range 4000 8796093022208000 (-41) m e
              eq_refl eq_refl eq_refl ltac:(lia) He Hd) as (b & -> & Hb).
  destruct (steps_in_range 1000 8796093022208000 (-43) m e
              eq_refl eq_refl eq_refl ltac:(lia) He Hd) as (s1 & -> & _).
  destruct (steps_in_range 2000 8796093022208000 (-42) m e
              eq_refl eq_refl eq_refl ltac:(lia) He Hd) as (s2 & -> & _).
  destruct (steps_in_range 3000 6597069766656000 (-41) m e
              eq_refl eq_refl eq_refl ltac:(lia) He Hd) as (s3 & -> & _).
  destruct h.
  - destruct (half_steps_exist b Hb) as (hb & ->). eexists. reflexivity.
  - eexists. reflexivity.
Qed.

Lemma compute_thresholds_total_in_range_witness :
  valid_binary PyFloat.prec PyFloat.emax ETHERCAT_CYCLE_TIME_MS = true
  /\ PyFloat.leb (PyFloat.of_Z 1) ETHERCAT_CYCLE_TIME_MS = true
  /\ PyFloat.leb ETHERCAT_CYCLE_TIME_MS (PyFloat.of_Z 10) = true
  /\ exists t, Cst.compute_thresholds ETHERCAT_CYCLE_TIME_MS true = Some t.
Proof.
  split; [reflexivity|]. split; [reflexivity|]. split; [reflexivity|].
  apply (compute_thresholds_total_in_range ETHERCAT_CYCLE_TIME_MS true);
    reflexivity.
Defined.

(** ** Byte strings *)

Lemma le_digits_2 (v : Z) :
  0 <= v < 65536 -> PyBytes.le_digits 2 v = [v mod 256; v / 256].
Proof.
  intros Hv. simpl. f_equal. f_equal.
  apply Z.mod_small. split.
  - apply Z.div_pos; lia.
  - apply Z.div_lt_upper_bound; lia.
Qed.

Lemma from_bytes_le_digits_2 (v : Z) :
  0 <= v < 65536 -> PyBytes.from_bytes (PyBytes.le_digits 2 v) = v.
Proof.
  intros Hv. rewrite le_digits_2 by assumption.
  cbn [PyBytes.from_bytes].
  pose proof (Z.div_mod v 256 ltac:(lia)). lia.
Qed.

Lemma to_bytes_2_in_range (v : Z) :
  0 <= v < 65536 -> PyBytes.to_bytes v 2 = Some [v mod 256; v / 256].
Proof.
  intros Hv. unfold PyBytes.to_bytes.
  replace (256 ^ Z.of_nat 2) with 65536 by reflexivity.
  destruct (Z.leb_spec 0 v); [|lia].
  destruct (Z.ltb_spec v 65536); [|lia].
  cbn [andb]. now rewrite le_digits_2.
Qed.

Lemma to_bytes_signed_2_in_range (v : Z) :
  -32768 <= v < 32768 ->
  PyBytes.to_bytes_signed v 2
  = Some [(v mod 65536) mod 256; (v mod 65536) / 256].
Proof.
  intros Hv. unfold PyBytes.to_bytes_signed.
  replace (256 ^ Z.of_nat 2) with 65536 by reflexivity.
  cbv zeta.
  replace ((- (65536) <=? 2 * v) && (2 * v <? 65536)) with true
    by (symmetry; apply andb_true_intro; split;
        [apply Z.leb_le | apply Z.ltb_lt]; lia).
  rewrite le_digits_2; [reflexivity|].
  apply Z.mod_pos_bound. lia.
Qed.

Lemma from_bytes_signed_twos_complement (v : Z) :
  -32768 <= v < 32768 ->
  PyBytes.from_bytes_signed [(v mod 65536) mod 256; (v mod 65536) / 256] = v.
Proof.
  intros Hv. unfold PyBytes.from_bytes_signed.
  assert (Hu : 0 <= v mod 65536 < 65536) by (apply Z.mod_pos_bound; lia).
  rewrite <- (le_digits_2 (v mod 65536)) by assumption.
  rewrite from_bytes_le_digits_2 by assumption.
  replace (256 ^ Z.of_nat (length (PyBytes.le_digits 2 (v mod 65536))))
    with 65536 by reflexivity.
  cbv zeta.
  destruct (Z_lt_le_dec v 0) as [Hneg|Hpos].
  - assert (E : v mod 65536 = v + 65536).
    { symmetry. apply (Z.mod_unique v 65536 (-1)); lia. }
    rewrite E. destruct (Z.ltb_spec (2 * (v + 65536)) 65536); lia.
  - rewrite Z.mod_small by lia.
    destruct (Z.ltb_spec (2 * v) 65536); lia.
Qed.

(** ** The worker's encode step *)

(** On a buffer of at least six bytes, with fields that fit their types, the
    encode step rewrites exactly the first six bytes. *)
Lemma encode_slave_long (sh : Shared) (out : list Z) :
  0 <= thread_controlword sh < 65536 ->
  -32768 <= thread_target_torque sh < 32768 ->
  0 <= thread_mode_of_operation sh < 256 ->
  (6 <= length out)%nat ->
  Worker.encode_slave sh Worker.padding out
  = [ thread_controlword sh mod 256; thread_controlword sh / 256;
      (thread_target_torque sh mod 65536) mod 256;
      (thread_target_torque sh mod 65536) / 256;
      thread_mode_of_operation sh; 0 ] ++ skipn 6 out.
Proof.
  intros Hcw Htq Hmode Hlen.
  destruct out as [|b0 [|b1 [|b2 [|b3 [|b4 [|b5 rest]]]]]];
    simpl in Hlen; try lia.
  unfold Worker.encode_slave, Worker.encode_fields.
  cbn [PyBytes.truthy].
  replace (6 <=? length (b0 :: b1 :: b2 :: b3 :: b4 :: b5 :: rest))%nat
    with true by (symmetry; apply Nat.leb_le; simpl; lia).
  rewrite to_bytes_2_in_range by assumption.
  rewrite to_bytes_signed_2_in_range by assumption.
  unfold PyBytes.slice_assign, PyBytes.index_assign, Worker.padding.
  cbn [firstn skipn app length Nat.ltb Nat.leb].
  destruct (Z.leb_spec 0 (thread_mode_of_operation sh)); [|lia].
  destruct (Z.ltb_spec (thread_mode_of_operation sh) 256); [|lia].
  reflexivity.
Qed.

Lemma encode_slave_short (sh : Shared) (out : list Z) :
  (length out < 6)%nat -> Worker.encode_slave sh Worker.padding out = out.
Proof.
  intros Hlen. unfold Worker.encode_slave.
  destruct (PyBytes.truthy out); [|reflexivity].
  destruct (Nat.leb_spec 6 (length out)); [lia|reflexivity].
Qed.

Lemma tick_outputs (P : PyFloat.float) (env : Worker.tick_env) (st : Worker.state)
      (wkc : Z) :
  Worker.recv_result env = Some wkc ->
  Worker.outputs (fst (fst (Worker.worker_tick P env st)))
  = Worker.encode_all (Worker.shared_now env) (Worker.outputs st).
Proof.
  intros Hr. unfold Worker.worker_tick, Worker.tick_handler. rewrite Hr.
  destruct (Z.leb (Worker.expected_wkc env) wkc);
    destruct (Worker.send_ok env); cbn [negb];
    try destruct (PyFloat.time_sleep_raises (PyFloat.seconds P)); reflexivity.
Qed.

(** C9.  On a worker tick that reaches the encode step, every slave whose
    output buffer holds at least 6 bytes gets the control word as
    little-endian 16 bit at bytes 0-1, the target torque as signed
    little-endian 16 bit at bytes 2-3, the mode of operation at byte 4 and
    the padding 0 at byte 5, the bytes from index 6 on being kept; the
    buffer of a slave with fewer than 6 bytes is unchanged.  The shared
    fields are assumed to fit their wire types. *)
Theorem worker_encode_frame_effect
        (P : PyFloat.float) (env : Worker.tick_env) (st : Worker.state) (wkc : Z) :
  Worker.recv_result env = Some wkc ->
  0 <= thread_controlword (Worker.shared_now env) < 65536 ->
  -32768 <= thread_target_torque (Worker.shared_now env) < 32768 ->
  0 <= thread_mode_of_operation (Worker.shared_now env) < 256 ->
  let sh := Worker.shared_now env in
  let outs' := Worker.outputs (fst (fst (Worker.worker_tick P env st))) in
  length outs' = length (Worker.outputs st) /\
  forall (i : nat) (out : list Z),
    nth_error (Worker.outputs st) i = Some out ->
    exists out',
      nth_error outs' i = Some out' /\
      length out' = length out /\
      ((6 <= length out)%nat ->
       firstn 6 out'
       = [ thread_controlword sh mod 256; thread_controlword sh / 256;
           (thread_target_torque sh mod 65536) mod 256;
           (thread_target_torque sh mod 65536) / 256;
           thread_mode_of_operation sh; 0 ] /\
       PyBytes.from_bytes (PyBytes.slice 0 2 out') = thread_controlword sh /\
       PyBytes.from_bytes_signed (PyBytes.slice 2 4 out')
       = thread_target_torque sh /\
       skipn 6 out' = skipn 6 out) /\
      ((length out < 6)%nat -> out' = out).
Proof.
  intros Hr Hcw Htq Hmode sh outs'.
  subst outs'. rewrite (tick_outputs P env st wkc Hr). fold sh.
  unfold Worker.encode_all. split.
  - apply length_map.
  - intros i out Hi.
    exists (Worker.encode_slave sh Worker.padding out). split.
    + rewrite nth_error_map, Hi. reflexivity.
    + destruct (Nat.leb_spec 6 (length out)) as [Hlong|Hshort].
      * rewrite (encode_slave_long sh out Hcw Htq Hmode Hlong).
        split; [|split]; [| |intros; lia].
        -- cbn [length app]. rewrite length_skipn. lia.
        -- intros _. cbn [app firstn skipn PyBytes.slice Nat.sub].
           repeat split.
           ++ rewrite <- (le_digits_2 (thread_controlword sh)) by assumption.
              apply from_bytes_le_digits_2. assumption.
           ++ apply from_bytes_signed_twos_complement. assumption.
      * rewrite (encode_slave_short sh out Hshort).
        split; [reflexivity|]. split; [intros; lia|reflexivity].
Qed.

Lemma worker_encode_frame_effect_witness :
  length (Worker.outputs
            (fst (fst (Worker.worker_tick ETHERCAT_CYCLE_TIME_MS frame_example_env
                                          frame_example_state))))
  = length (Worker.outputs frame_example_state).
Proof.
  exact (proj1 (worker_encode_frame_effect
                  ETHERCAT_CYCLE_TIME_MS frame_example_env frame_example_state 3 eq_refl
                  ltac:(cbn; lia) ltac:(cbn; lia) ltac:(cbn; lia))).
Defined.

Example frame_example_outputs :
  Worker.outputs
    (fst (fst (Worker.worker_tick ETHERCAT_CYCLE_TIME_MS frame_example_env frame_example_state)))
  = [[15; 0; 254; 255; 10; 0; 7; 8]; [9; 9]].
Proof. reflexivity. Qed.

(** ** The worker loop and exceptions *)

(** A raising tick: nothing is printed, the only sleep is the one-period
    back-off that ends the pass, the cycle count is not advanced and the
    thread goes on. *)
Lemma raising_tick (P : PyFloat.float) (env : Worker.tick_env) (st : Worker.state) :
  PyFloat.leb PyFloat.zero P = true -> tick_raises env ->
  exists st' pre,
    Worker.worker_tick P env st
    = (st', pre ++ [Worker.EvSleep (PyFloat.seconds P)], Worker.TickRaised)
    /\ ~ In Worker.EvPrint pre
    /\ (forall s, ~ In (Worker.EvSleep s) pre)
    /\ Worker.data_exchange_cycle_count st'
       = Worker.data_exchange_cycle_count st.
Proof.
  intros HP Hraise.
  unfold Worker.worker_tick, Worker.tick_handler.
  rewrite (period_seconds_nonneg P HP).
  destruct (Worker.recv_result env) as [wkc|] eqn:Hr.
  - destruct Hraise as [Hn|Hs]; [congruence|]. rewrite Hs. cbn [negb].
    destruct (Worker.expected_wkc env <=? wkc);
      (eexists; eexists; split; [reflexivity|];
       split; [|split]; [| |reflexivity];
       [ cbn; intros [H|[H|[H|[H|[]]]]]; discriminate
       | cbn; intros s [H|[H|[H|[H|[]]]]]; discriminate ]).
  - eexists; eexists. split; [reflexivity|].
    split; [|split]; [| |reflexivity].
    + cbn. intros [H|[H|[H|[]]]]; discriminate.
    + cbn. intros s [H|[H|[H|[]]]]; discriminate.
Qed.

Lemma tick_never_dies (P : PyFloat.float) (env : Worker.tick_env) (st : Worker.state) :
  PyFloat.leb PyFloat.zero P = true ->
  snd (Worker.worker_tick P env st) <> Worker.ThreadDied.
Proof.
  intros HP. unfold Worker.worker_tick, Worker.tick_handler.
  rewrite (period_seconds_nonneg P HP).
  destruct (Worker.recv_result env); [|cbn; discriminate].
  destruct (Worker.send_ok env); cbn; discriminate.
Qed.

Lemma worker_loop_runs_every_pass (P : PyFloat.float) (envs : list Worker.tick_env) :
  PyFloat.leb PyFloat.zero P = true ->
  forall st,
    snd (fst (Worker.worker_loop P envs st)) = length envs
    /\ snd (Worker.worker_loop P envs st) = false.
Proof.
  intros HP. induction envs as [|env rest IH]; intros st.
  - split; reflexivity.
  - cbn [Worker.worker_loop length].
    pose proof (tick_never_dies P env st HP) as Hlive.
    destruct (Worker.worker_tick P env st) as [[st' evs] oc].
    cbn [snd] in Hlive.
    specialize (IH st').
    destruct (Worker.worker_loop P rest st') as [[[st'' evs'] k] died].
    cbn [fst snd] in IH. destruct IH as [Hk Hd].
    destruct oc; [| |congruence]; cbn [fst snd]; split; congruence.
Qed.

(** C7 as stated does not hold: a tick whose receive call raises prints
    nothing. *)
Lemma handler_logs_note_fails : ~ handler_logs_note.
Proof.
  intros H.
  destruct (H ETHERCAT_CYCLE_TIME_MS raising_env frame_example_state)
    as [Hprint _].
  - reflexivity.
  - left. reflexivity.
  - cbn in Hprint.
    destruct Hprint as [E|[E|[E|[E|[]]]]]; discriminate.
Qed.

(** C7, amended.  While the running flag is found set, an exception raised
    inside a tick never ends the loop: every pass is made, and a raising
    tick waits one cycle period, without printing anything, before the
    next pass.  (The period is not negative.) *)
Theorem worker_loop_survives_exceptions
        (P : PyFloat.float) (envs : list Worker.tick_env) (st : Worker.state) :
  PyFloat.leb PyFloat.zero P = true ->
  snd (fst (Worker.worker_loop P envs st)) = length envs
  /\ snd (Worker.worker_loop P envs st) = false
  /\ forall env st0,
      tick_raises env ->
      exists st' pre,
        Worker.worker_tick P env st0
        = (st', pre ++ [Worker.EvSleep (PyFloat.seconds P)], Worker.TickRaised)
        /\ ~ In Worker.EvPrint pre
        /\ (forall s, ~ In (Worker.EvSleep s) pre).
Proof.
  intros HP.
  destruct (worker_loop_runs_every_pass P envs HP st) as [Hk Hd].
  split; [exact Hk|]. split; [exact Hd|].
  intros env st0 Hraise.
  destruct (raising_tick P env st0 HP Hraise) as (st' & pre & E & Hp & Hs & _).
  exists st', pre. auto.
Qed.

Lemma worker_loop_survives_exceptions_witness :
  snd (fst (Worker.worker_loop
              ETHERCAT_CYCLE_TIME_MS
              [raising_env; frame_example_env; raising_env]
              frame_example_state)) = 3%nat.
Proof.
  exact (proj1 (worker_loop_survives_exceptions
                  ETHERCAT_CYCLE_TIME_MS
                  [raising_env; frame_example_env; raising_env]
                  frame_example_state eq_refl)).
Defined.

(** ** The worker and the working counter *)

Lemma tick_same_for_any_wkc
      (P : PyFloat.float) (env : Worker.tick_env) (st : Worker.state) (w1 w2 : Z) :
  Worker.worker_tick P (with_wkc env w1) st
  = Worker.worker_tick P (with_wkc env w2) st.
Proof.
  unfold Worker.worker_tick, with_wkc. cbn.
  destruct (Worker.expected_wkc env <=? w1),
           (Worker.expected_wkc env <=? w2); reflexivity.
Qed.

(** C8, amended.  A tick only compares the working counter returned by the
    receive call with the expected one and drops the result: the state it
    leaves, the calls it makes and its outcome are the same whatever value
    was returned.  The success, degraded and timeout totals are those of
    [cyclic_operation], advanced by its own receive calls. *)
Theorem worker_tick_ignores_wkc
        (P : PyFloat.float) (env : Worker.tick_env) (st : Worker.state) (w1 w2 : Z) :
  Worker.worker_tick P (with_wkc env w1) st
  = Worker.worker_tick P (with_wkc env w2) st
  /\ Worker.data_exchange_cycle_count
       (fst (fst (Worker.worker_tick P (with_wkc env w1) st)))
     = (if Worker.send_ok env
        then Worker.data_exchange_cycle_count st + 1
        else Worker.data_exchange_cycle_count st)
  /\ Worker.outputs (fst (fst (Worker.worker_tick P (with_wkc env w1) st)))
     = Worker.encode_all (Worker.shared_now env) (Worker.outputs st).
Proof.
  split; [apply tick_same_for_any_wkc|].
  unfold Worker.worker_tick, Worker.tick_handler, with_wkc. cbn.
  destruct (Worker.expected_wkc env <=? w1), (Worker.send_ok env);
    cbn; try destruct (PyFloat.time_sleep_raises (PyFloat.seconds P)); cbn; auto.
Qed.

(** C8 as stated does not hold: no part of the worker's state follows the
    running totals. *)
Lemma worker_feeds_monitor_fails : ~ worker_feeds_monitor.
Proof.
  intros [totals H].
  pose proof (H ETHERCAT_CYCLE_TIME_MS (with_wkc frame_example_env 3)
                frame_example_state 3 eq_refl) as H3.
  pose proof (H ETHERCAT_CYCLE_TIME_MS (with_wkc frame_example_env (-1))
                frame_example_state (-1) eq_refl) as Ht.
  rewrite (tick_same_for_any_wkc ETHERCAT_CYCLE_TIME_MS frame_example_env
                                frame_example_state 3 (-1)) in H3.
  rewrite H3 in Ht. cbn in Ht.
  apply (f_equal Cyclic.timeout_count) in Ht. cbn in Ht. lia.
Qed.

(** ** Working-counter statistics *)

Lemma observe_counts_once (wkc expected : Z) (s : Cyclic.stats) :
  Cyclic.total_attempts (Cyclic.observe wkc expected s)
  = Cyclic.total_attempts s + 1.
Proof.
  unfold Cyclic.observe, Cyclic.total_attempts.
  destruct s as [c a b d].
  destruct (Z.eqb_spec wkc (-1)); [cbn [Cyclic.success_count
    Cyclic.timeout_count Cyclic.low_wkc_count]; lia|].
  destruct (Z.ltb_spec wkc expected); [cbn [Cyclic.success_count
    Cyclic.timeout_count Cyclic.low_wkc_count]; lia|].
  destruct (Z.geb_spec wkc expected); [cbn [Cyclic.success_count
    Cyclic.timeout_count Cyclic.low_wkc_count]; lia|lia].
Qed.

Lemma cyclic_loop_total (expected : Z) (envs : list Cyclic.iter_env) :
  forall s,
    Cyclic.total_attempts (Cyclic.cyclic_loop expected envs s)
    = Cyclic.total_attempts s + Cyclic.classified_calls envs.
Proof.
  induction envs as [|e rest IH]; intros s;
    cbn [Cyclic.cyclic_loop Cyclic.classified_calls].
  - lia.
  - destruct (Cyclic.send_result e); [|lia].
    destruct (Cyclic.recv_wkc e) as [wkc|]; [|lia].
    rewrite IH, observe_counts_once. lia.
Qed.

(** C4.  With a non-negative expected working counter, a returned value at
    or above it counts as a success, the sentinel -1 as a timeout, and any
    other value below it as degraded; each returned value advances exactly
    one of the three totals, so that after any run they add up to the
    number of receive calls classified so far. *)
Theorem wkc_classification (expected : Z) :
  0 <= expected ->
  (forall wkc s, expected <= wkc ->
     Cyclic.observe wkc expected s
     = Cyclic.mkStats (Cyclic.cycle_count s + 1) (Cyclic.success_count s + 1)
                      (Cyclic.timeout_count s) (Cyclic.low_wkc_count s))
  /\ (forall s,
     Cyclic.observe (-1) expected s
     = Cyclic.mkStats (Cyclic.cycle_count s) (Cyclic.success_count s)
                      (Cyclic.timeout_count s + 1) (Cyclic.low_wkc_count s))
  /\ (forall wkc s, wkc < expected -> wkc <> -1 ->
     Cyclic.observe wkc expected s
     = Cyclic.mkStats (Cyclic.cycle_count s) (Cyclic.success_count s)
                      (Cyclic.timeout_count s) (Cyclic.low_wkc_count s + 1))
  /\ (forall envs s,
     Cyclic.total_attempts (Cyclic.cyclic_loop expected envs s)
     = Cyclic.total_attempts s + Cyclic.classified_calls envs)
  /\ (forall envs,
     Cyclic.total_attempts
       (Cyclic.cyclic_loop expected envs Cyclic.stats_init)
     = Cyclic.classified_calls envs).
Proof.
  intros Hexp. split; [|split; [|split; [|split]]].
  - intros wkc s Hw. unfold Cyclic.observe.
    destruct (Z.eqb_spec wkc (-1)); [lia|].
    destruct (Z.ltb_spec wkc expected); [lia|].
    destruct (Z.geb_spec wkc expected); [reflexivity|lia].
  - intros s. reflexivity.
  - intros wkc s Hw Hn. unfold Cyclic.observe.
    destruct (Z.eqb_spec wkc (-1)); [lia|].
    destruct (Z.ltb_spec wkc expected); [reflexivity|lia].
  - intros envs s. apply cyclic_loop_total.
  - intros envs. rewrite cyclic_loop_total. reflexivity.
Qed.

Lemma wkc_classification_witness :
  Cyclic.observe (-1) 3 Cyclic.stats_init = Cyclic.mkStats 0 0 1 0.
Proof.
  exact (proj1 (proj2 (wkc_classification 3 ltac:(lia))) Cyclic.stats_init).
Defined.

Example cyclic_loop_example :
  Cyclic.cyclic_loop 3
    [ Cyclic.mkIter (Some 1) (Some 3); Cyclic.mkIter (Some 1) (Some (-1));
      Cyclic.mkIter (Some 1) (Some 2); Cyclic.mkIter (Some 1) (Some 4) ]
    Cyclic.stats_init
  = Cyclic.mkStats 2 2 1 1.
Proof. reflexivity. Qed.

(** ** The drive state machine *)

Section CstRun.
Variables (P : PyFloat.float) (h : bool) (t : Cst.thresholds).
Hypothesis Hthr : Cst.compute_thresholds P h = Some t.

Lemma select_output_stage (sw : option Z) (st : Cst.state) :
  fst (Cst.select_output t h sw st)
  = stage_output (Cst.stage_index t (Cst.step st)).
Proof.
  unfold Cst.select_output, Cst.stage_index. cbv zeta.
  repeat match goal with
         | |- context [if ?b then _ else _] => destruct b
         end; reflexivity.
Qed.

Lemma iteration_written (inp : option (list Z)) (st : Cst.state) :
  Cst.written (fst (Cst.iteration P h inp st))
  = stage_output (Cst.stage_index t (Cst.step st)).
Proof.
  unfold Cst.iteration. rewrite Hthr.
  rewrite <- (select_output_stage (Cst.read_statusword inp) st).
  destruct (Cst.select_output t h (Cst.read_statusword inp) st)
    as [[cw tq] fc].
  destruct (PyFloat.time_sleep_raises (PyFloat.seconds P)); reflexivity.
Qed.

Lemma iteration_step (inp : option (list Z)) (st : Cst.state) :
  Cst.step (fst (Cst.iteration P h inp st))
  = if Cst.step st <? 25000 then Cst.step st + 1 else Cst.step st.
Proof.
  unfold Cst.iteration. rewrite Hthr.
  destruct (Cst.select_output t h (Cst.read_statusword inp) st)
    as [[cw tq] fc].
  destruct (PyFloat.time_sleep_raises (PyFloat.seconds P)); reflexivity.
Qed.

Lemma iteration_mode (inp : option (list Z)) (st : Cst.state) :
  thread_mode_of_operation (Cst.shared (fst (Cst.iteration P h inp st)))
  = 10.
Proof.
  unfold Cst.iteration. rewrite Hthr.
  destruct (Cst.select_output t h (Cst.read_statusword inp) st)
    as [[cw tq] fc].
  destruct (PyFloat.time_sleep_raises (PyFloat.seconds P)); reflexivity.
Qed.

(** The state left by pass [i] of a run entered with step [k]. *)
Lemma run_nth (inps : list (option (list Z))) :
  forall (st : Cst.state) (k i : nat) (s : Cst.state),
    Cst.step st = step_at k ->
    nth_error (Cst.run P h inps st) i = Some s ->
    Cst.written s = stage_output (Cst.stage_index t (step_at (k + i)))
    /\ Cst.step s = step_at (S (k + i)).
Proof.
  induction inps as [|inp rest IH]; intros st k i s Hk Hi.
  - destruct i; discriminate.
  - cbn [Cst.run] in Hi.
    pose proof (iteration_written inp st) as Hw.
    pose proof (iteration_step inp st) as Hs.
    assert (Hs' : Cst.step (fst (Cst.iteration P h inp st))
                  = step_at (S k)).
    { rewrite Hs, Hk. unfold step_at.
      destruct (Z.ltb_spec (Z.min (Z.of_nat k) 25000) 25000); lia. }
    destruct (Cst.iteration P h inp st) as [st' oc].
    cbn [fst] in Hw, Hs'.
    destruct oc.
    + destruct i as [|i].
      * cbn in Hi. inversion Hi; subst s.
        rewrite Nat.add_0_r, <- Hk. auto.
      * cbn [nth_error] in Hi.
        destruct (IH st' (S k) i s Hs' Hi) as [Hw2 Hs2].
        replace (k + S i)%nat with (S k + i)%nat by lia. auto.
    + rewrite Hthr in Hi. destruct i as [|[|i]]; try discriminate.
      cbn in Hi. inversion Hi; subst s.
      rewrite Nat.add_0_r, <- Hk. auto.
Qed.

Lemma stage_index_monotone (a b : Z) :
  a <= b -> (Cst.stage_index t a <= Cst.stage_index t b)%nat.
Proof.
  intros Hab. unfold Cst.stage_index. cbv zeta.
  repeat match goal with
         | |- context [Z.leb ?x ?y] => destruct (Z.leb_spec x y)
         end; lia.
Qed.

Lemma stage_index_bound (a : Z) : (Cst.stage_index t a <= 4)%nat.
Proof.
  unfold Cst.stage_index. cbv zeta.
  repeat match goal with
         | |- context [Z.leb ?x ?y] => destruct (Z.leb_spec x y)
         end; lia.
Qed.

Lemma run_length_no_raise (inps : list (option (list Z))) :
  PyFloat.time_sleep_raises (PyFloat.seconds P) = false ->
  forall st, length (Cst.run P h inps st) = length inps.
Proof.
  intros Hp. induction inps as [|inp rest IH]; intros st; [reflexivity|].
  cbn [Cst.run length]. unfold Cst.iteration. rewrite Hthr.
  destruct (Cst.select_output t h (Cst.read_statusword inp) st)
    as [[cw tq] fc].
  rewrite Hp. cbn [length]. now rewrite IH.
Qed.

End CstRun.

(** Whatever a pass of the state machine leaves in the shared variables
    fits the wire types of the output frame. *)
Lemma iteration_fits_frame (P : PyFloat.float) (h : bool) (t : Cst.thresholds)
      (inp : option (list Z)) (st : Cst.state) :
  Cst.compute_thresholds P h = Some t ->
  let sh := Cst.shared (fst (Cst.iteration P h inp st)) in
  0 <= thread_controlword sh < 65536
  /\ -32768 <= thread_target_torque sh < 32768
  /\ 0 <= thread_mode_of_operation sh < 256.
Proof.
  intros Ht sh. subst sh.
  pose proof (iteration_written P h t Ht inp st) as Hw.
  pose proof (iteration_mode P h t Ht inp st) as Hm.
  unfold Cst.written in Hw. rewrite Hm.
  destruct (Cst.stage_index t (Cst.step st)) as [|[|[|[|k]]]];
    cbn [stage_output] in Hw; inversion Hw as [[Hc Hq]];
    rewrite Hc, Hq; lia.
Qed.

Lemma init_state_step (sh : Shared) :
  Cst.step (Cst.init_state sh) = step_at 0.
Proof. reflexivity. Qed.

Lemma thresholds_2ms :
  Cst.compute_thresholds ETHERCAT_CYCLE_TIME_MS false = Some (Cst.mkThr 2000 500 1000 1500).
Proof. reflexivity. Qed.

(** C1.  With a period of 2 ms and no non-critical error found by the
    diagnosis, whatever the status words read during the run (fault bit set
    or not), every pass is made and the pair (control word, torque) it
    leaves in the shared variables depends on the nominal time of the pass
    only (2 ms per pass, counted from the first one, bounds inclusive):
    (0x0080, 0) up to 4000 ms, (0x0006, 0) during the next 1000 ms,
    (0x0007, 0) during the next 1000 ms, (0x000F, 0) during the next
    1000 ms and (0x000F, 50) from then on. *)
Theorem cst_enable_sequence_2ms
        (diags : list Cst.slave_diag) (sh : Shared)
        (inps : list (option (list Z))) :
  Cst.diagnose diags = false ->
  let states := Cst.cyclic_operation_cst ETHERCAT_CYCLE_TIME_MS diags sh inps in
  length states = length inps
  /\ forall (i : nat) (s : Cst.state),
      nth_error states i = Some s ->
      let ms := elapsed_ms_2 i in
      (ms <= 4000 -> Cst.written s = (0x0080, 0))
      /\ (4000 < ms <= 5000 -> Cst.written s = (0x0006, 0))
      /\ (5000 < ms <= 6000 -> Cst.written s = (0x0007, 0))
      /\ (6000 < ms <= 7000 -> Cst.written s = (0x000F, 0))
      /\ (7000 < ms -> Cst.written s = (0x000F, 50)).
Proof.
  intros Hd states. subst states. unfold Cst.cyclic_operation_cst.
  rewrite Hd. split.
  - apply (run_length_no_raise ETHERCAT_CYCLE_TIME_MS false _ thresholds_2ms). reflexivity.
  - intros i s Hi. cbv zeta.
    destruct (run_nth ETHERCAT_CYCLE_TIME_MS false _ thresholds_2ms inps (Cst.init_state sh)
                      0 i s (init_state_step sh) Hi) as [Hw _].
    rewrite Hw. cbn [Nat.add].
    unfold Cst.stage_index, step_at, elapsed_ms_2.
    cbn [Cst.fault_reset_duration Cst.shutdown_steps Cst.switch_on_steps
         Cst.enable_steps].
    repeat match goal with
           | |- context [Z.leb ?x ?y] => destruct (Z.leb_spec x y)
           end; cbn [stage_output]; repeat split; intros; try reflexivity; lia.
Qed.

Lemma cst_enable_sequence_2ms_witness :
  length (Cst.cyclic_operation_cst ETHERCAT_CYCLE_TIME_MS [faulted_slave] shared_init
                                   [faulted_input; faulted_input; None])
  = 3%nat.
Proof.
  exact (proj1 (cst_enable_sequence_2ms
                  [faulted_slave] shared_init
                  [faulted_input; faulted_input; None] eq_refl)).
Defined.

(** The lengths of the five runs of equal pairs, pass by pass. *)
Example cst_sequence_run_lengths :
  map Cst.written
      (Cst.cyclic_operation_cst ETHERCAT_CYCLE_TIME_MS [faulted_slave] shared_init
                                (repeat faulted_input 3505))
  = repeat (0x0080, 0) 2001 ++ repeat (0x0006, 0) 500
    ++ repeat (0x0007, 0) 500 ++ repeat (0x000F, 0) 500
    ++ repeat (0x000F, 50) 4.
Proof. vm_compute. reflexivity. Qed.

(** The thresholds the code computes for some periods between 1 ms and
    10 ms, the bounds included. *)
Example thresholds_in_range :
  Cst.compute_thresholds (PyFloat.of_Z 1) false
  = Some (Cst.mkThr 4000 1000 2000 3000)
  /\ Cst.compute_thresholds (PyFloat.lit 16 10) false
     = Some (Cst.mkThr 2500 625 1250 1875)
  /\ Cst.compute_thresholds (PyFloat.lit 16 10) true
     = Some (Cst.mkThr 1250 625 1250 1875)
  /\ Cst.compute_thresholds (PyFloat.lit 25 10) true
     = Some (Cst.mkThr 800 400 800 1200)
  /\ Cst.compute_thresholds
       (PyFloat.lit 9975062344139651 1000000000000000) false
     = Some (Cst.mkThr 401 100 200 300)
  /\ Cst.compute_thresholds (PyFloat.of_Z 10) false
     = Some (Cst.mkThr 400 100 200 300).
Proof. vm_compute. repeat split; reflexivity. Qed.

(** C2.  Whatever the period, with the thresholds the code computes from
    it (fault-reset steps, and [int(3000 / P)] for the enable-operation
    offset): a pass entered with a step at or below the enable-operation
    threshold writes the torque 0, and so does every pass of a run up to
    that threshold; and when the period is not negative the pass ends
    without an exception.  Every period between 1 ms and 10 ms is
    covered. *)
Theorem no_torque_before_enable_threshold
        (P : PyFloat.float) (h : bool) (t : Cst.thresholds) :
  Cst.compute_thresholds P h = Some t ->
  (forall inp st,
      Cst.step st <= Cst.fault_reset_duration t + Cst.enable_steps t ->
      thread_target_torque
        (Cst.shared (fst (Cst.iteration P h inp st))) = 0)
  /\ (forall sh inps i s,
        nth_error (Cst.run P h inps (Cst.init_state sh)) i = Some s ->
        step_at i <= Cst.fault_reset_duration t + Cst.enable_steps t ->
        thread_target_torque (Cst.shared s) = 0)
  /\ (PyFloat.leb PyFloat.zero P = true ->
      forall inp st, snd (Cst.iteration P h inp st) = Cst.Continue).
Proof.
  intros Ht.
  assert (Hstage : forall a,
             a <= Cst.fault_reset_duration t + Cst.enable_steps t ->
             snd (stage_output (Cst.stage_index t a)) = 0).
  { intros a Ha. unfold Cst.stage_index. cbv zeta.
    repeat match goal with
           | |- context [Z.leb ?x ?y] => destruct (Z.leb_spec x y)
           end; try reflexivity; lia. }
  split; [|split].
  - intros inp st Hstep.
    pose proof (iteration_written P h t Ht inp st) as Hw.
    apply (f_equal snd) in Hw. cbn [Cst.written snd] in Hw.
    rewrite Hw. apply Hstage. exact Hstep.
  - intros sh inps i s Hi Hstep.
    destruct (run_nth P h t Ht inps (Cst.init_state sh) 0 i s
                      (init_state_step sh) Hi) as [Hw _].
    apply (f_equal snd) in Hw. cbn [Cst.written snd] in Hw.
    rewrite Hw. apply Hstage. exact Hstep.
  - intros HP inp st. unfold Cst.iteration. rewrite Ht.
    destruct (Cst.select_output t h (Cst.read_statusword inp) st)
      as [[cw tq] fc].
    rewrite (period_seconds_nonneg P HP). reflexivity.
Qed.

Lemma no_torque_before_enable_threshold_witness :
  thread_target_torque
    (Cst.shared (fst (Cst.iteration (PyFloat.lit 16 10) false faulted_input
                                    (Cst.mkState shared_init 4375 0 false))))
  = 0.
Proof.
  exact (proj1 (no_torque_before_enable_threshold
                  (PyFloat.lit 16 10) false
                  (Cst.mkThr 2500 625 1250 1875) eq_refl)
               faulted_input (Cst.mkState shared_init 4375 0 false)
               ltac:(cbn; lia)).
Defined.

(** C10.  In a run, the step goes from one pass to the next by zero or one
    and stays between 0 and 25000; the branch of the chain taken is
    monotone in the step; and after a pass that left (0x000F, 50) in the
    shared variables, every later pass of the run leaves the same pair. *)
Theorem cst_step_and_stage_monotone
        (P : PyFloat.float) (h : bool) (sh : Shared) (inps : list (option (list Z))) :
  let states := Cst.run P h inps (Cst.init_state sh) in
  (forall i s s',
      nth_error states i = Some s -> nth_error states (S i) = Some s' ->
      Cst.step s <= Cst.step s' <= Cst.step s + 1)
  /\ (forall i s, nth_error states i = Some s -> 0 <= Cst.step s <= 25000)
  /\ (forall t a b,
        Cst.compute_thresholds P h = Some t -> a <= b ->
        (Cst.stage_index t a <= Cst.stage_index t b)%nat)
  /\ (forall i j s s',
        (i <= j)%nat ->
        nth_error states i = Some s -> nth_error states j = Some s' ->
        Cst.written s = (0x000F, 50) -> Cst.written s' = (0x000F, 50)).
Proof.
  intros states. subst states.
  destruct (Cst.compute_thresholds P h) as [t|] eqn:Ht.
  2:{ assert (E : Cst.run P h inps (Cst.init_state sh) = []).
      { destruct inps as [|inp rest]; [reflexivity|].
        cbn [Cst.run]. unfold Cst.iteration. rewrite Ht. reflexivity. }
      rewrite E.
      split; [|split; [|split]]; intros; try discriminate;
        destruct i; discriminate. }
  pose proof (run_nth P h t Ht inps (Cst.init_state sh) 0) as Hrun.
  split; [|split; [|split]].
  - intros i s s' Hi Hi'.
    destruct (Hrun i s (init_state_step sh) Hi) as [_ Hs].
    destruct (Hrun (S i) s' (init_state_step sh) Hi') as [_ Hs'].
    rewrite Hs, Hs'. cbn [Nat.add]. unfold step_at. lia.
  - intros i s Hi.
    destruct (Hrun i s (init_state_step sh) Hi) as [_ Hs].
    rewrite Hs. unfold step_at. lia.
  - intros t' a b E Hab. inversion E; subst t'.
    apply (stage_index_monotone t a b Hab).
  - intros i j s s' Hij Hi Hj Hw.
    destruct (Hrun i s (init_state_step sh) Hi) as [Hwi _].
    destruct (Hrun j s' (init_state_step sh) Hj) as [Hwj _].
    cbn [Nat.add] in Hwi, Hwj.
    assert (Hm : (Cst.stage_index t (step_at i)
                  <= Cst.stage_index t (step_at j))%nat).
    { apply stage_index_monotone. unfold step_at. lia. }
    pose proof (stage_index_bound t (step_at j)) as Hb.
    rewrite Hwj. rewrite Hwi in Hw.
    destruct (Cst.stage_index t (step_at i)) as [|[|[|[|k]]]];
      cbn [stage_output] in Hw; try discriminate.
    assert (E4 : Cst.stage_index t (step_at j) = 4%nat) by lia.
    rewrite E4. reflexivity.
Qed.

(** ** The wait before the OP request *)

Lemma wait_loop_exit (P : PyFloat.float) (e : OpState.env) (fuel : nat) :
  forall k n x,
    OpState.wait_loop fuel P e k = (n, x) -> wait_exit_ok P e k n x.
Proof.
  induction fuel as [|f IH]; intros k n x Hw; cbn [OpState.wait_loop] in Hw.
  - inversion Hw; subst. unfold wait_exit_ok.
    repeat split; intros; lia.
  - unfold OpState.wait_cycles in Hw.
    destruct (Z.ltb_spec (OpState.cycle_count_at e k) 300) as [Hlow|Hhigh].
    + destruct (PyFloat.time_sleep_raises (PyFloat.seconds P)) eqn:Hneg.
      * inversion Hw; subst. unfold wait_exit_ok.
        split; [lia|]. split; [|split; [|exact Hneg]].
        -- intros j Hj. replace j with k by lia. exact Hlow.
        -- intros; lia.
      * destruct (PyFloat.ltb PyFloat.one (OpState.elapsed_at e k)) eqn:Hel.
        -- inversion Hw; subst. unfold wait_exit_ok.
           split; [lia|]. split; [|split].
           ++ intros j Hj. replace j with k by lia. exact Hlow.
           ++ intros; lia.
           ++ exists k. split; [reflexivity|]. split; [lia|exact Hel].
        -- destruct (IH (S k) n x Hw) as (Hle & Hcnt & Hclk & Hx).
           unfold wait_exit_ok.
           split; [lia|]. split; [|split].
           ++ intros j Hj. destruct (Nat.eq_dec j k) as [->|Hne];
                [exact Hlow|]. apply Hcnt. lia.
           ++ intros j Hj Hjn. destruct (Nat.eq_dec j k) as [->|Hne];
                [exact Hel|]. apply Hclk; lia.
           ++ destruct x; try exact Hx.
              ** destruct Hx as [Hr Hall]. split; [exact Hr|].
                 intros j Hj. destruct (Nat.eq_dec j k) as [->|Hne];
                   [exact Hel|]. apply Hall. lia.
              ** destruct Hx as (m & Hm & Hkm & Hlt).
                 exists m. repeat split; [exact Hm|lia|exact Hlt].
    + inversion Hw; subst. unfold wait_exit_ok.
      split; [lia|]. split; [intros; lia|]. split; [intros; lia|].
      split; [exact Hhigh|intros; lia].
Qed.

(** Once the clock reading of some poll exceeds one second, enough fuel
    lets the loop end, by the count or by the clock. *)
Lemma wait_loop_ends (P : PyFloat.float) (e : OpState.env) (N : nat) :
  PyFloat.time_sleep_raises (PyFloat.seconds P) = false ->
  PyFloat.ltb PyFloat.one (OpState.elapsed_at e N) = true ->
  forall fuel k,
    (k <= N)%nat -> (N - k < fuel)%nat ->
    snd (OpState.wait_loop fuel P e k) = OpState.CyclesReached
    \/ snd (OpState.wait_loop fuel P e k) = OpState.TimedOut.
Proof.
  intros Hp HN. induction fuel as [|f IH]; intros k Hk Hf; [lia|].
  cbn [OpState.wait_loop].
  destruct (OpState.cycle_count_at e k <? OpState.wait_cycles);
    [|left; reflexivity].
  rewrite Hp.
  destruct (PyFloat.ltb PyFloat.one (OpState.elapsed_at e k)) eqn:Hel;
    [right; reflexivity|].
  assert (Hne : k <> N).
  { intros ->. congruence. }
  apply IH; lia.
Qed.

Lemma in_repeat_eq {A : Type} (x y : A) (n : nat) :
  In x (repeat y n) -> x = y.
Proof. intros H. exact (repeat_spec n y x H). Qed.

Lemma no_write_state_in_wait (P : PyFloat.float) (n : nat) :
  ~ In OpState.EvWriteState
       ([OpState.EvReadState] ++ repeat (OpState.EvSleep (PyFloat.seconds P)) n).
Proof.
  intros H. apply in_app_or in H. destruct H as [[H|[]]|H].
  - discriminate.
  - apply in_repeat_eq in H. discriminate.
Qed.

Lemma no_write_state_in_exchange (j : nat) :
  ~ In OpState.EvWriteState
       ([OpState.EvAcquire]
          ++ firstn (S (Nat.min j 3))
               [OpState.EvSend; OpState.EvRecv 5000; OpState.EvSend;
                OpState.EvRecv 5000]
          ++ [OpState.EvRelease]).
Proof.
  assert (Hm : (Nat.min j 3 = 0 \/ Nat.min j 3 = 1 \/ Nat.min j 3 = 2
                \/ Nat.min j 3 = 3)%nat) by lia.
  destruct Hm as [E|[E|[E|E]]]; rewrite E; cbn; intros H;
    repeat (destruct H as [H|H]; [discriminate|]); exact H.
Qed.

(** Safety: a trace with an OP request is the wait, left by the count or
    by the clock, the confirmation exchange, and the request. *)
Lemma op_request_after_wait
      (fuel : nat) (P : PyFloat.float) (e : OpState.env) :
  In OpState.EvWriteState (fst (OpState.op_request_phase fuel P e)) ->
  exists n x,
    OpState.wait_loop fuel P e 0 = (n, x)
    /\ (x = OpState.CyclesReached \/ x = OpState.TimedOut)
    /\ fst (OpState.op_request_phase fuel P e)
       = [OpState.EvReadState]
         ++ repeat (OpState.EvSleep (PyFloat.seconds P)) n
         ++ [OpState.EvAcquire; OpState.EvSend; OpState.EvRecv 5000;
             OpState.EvSend; OpState.EvRecv 5000; OpState.EvRelease]
         ++ map (fun i => OpState.EvSetSlaveState i 8)
                (seq 0 (length (OpState.slave_states e)))
         ++ [OpState.EvSetMasterState 8; OpState.EvWriteState].
Proof.
  unfold OpState.op_request_phase.
  destruct (forallb (fun s => s =? SAFEOP_STATE) (OpState.slave_states e));
    cbn [negb].
  2:{ cbn. intros [H|[]]. discriminate. }
  destruct (OpState.wait_loop fuel P e 0) as [n x] eqn:Hw.
  destruct x.
  3:{ cbn [fst]. intros H. exfalso. exact (no_write_state_in_wait P n H). }
  3:{ cbn [fst]. intros H. exfalso. exact (no_write_state_in_wait P n H). }
  all: destruct (OpState.exchange_raises e) as [j|].
  1,3: cbn [fst]; intros H; exfalso;
    apply in_app_or in H; destruct H as [H|H];
    [exact (no_write_state_in_wait P n H)
    |exact (no_write_state_in_exchange j H)].
  all: intros _; exists n; eexists; split; [reflexivity|];
    split; [auto|];
    destruct (OpState.write_wkc e) as [wkc|];
    [destruct (wkc =? 0)|]; cbn [fst];
    rewrite <- !app_assoc; reflexivity.
Qed.

(** Liveness: with every slave in SAFEOP, a period that is not negative, a
    confirmation exchange that returns and a clock that passes one second
    at some poll, the OP request is made. *)
Lemma op_request_is_written
      (fuel : nat) (P : PyFloat.float) (e : OpState.env) (N : nat) :
  forallb (fun s => s =? SAFEOP_STATE) (OpState.slave_states e) = true ->
  PyFloat.leb PyFloat.zero P = true ->
  OpState.exchange_raises e = None ->
  PyFloat.ltb PyFloat.one (OpState.elapsed_at e N) = true ->
  (N < fuel)%nat ->
  In OpState.EvWriteState (fst (OpState.op_request_phase fuel P e))
  /\ snd (OpState.op_request_phase fuel P e)
     = match OpState.write_wkc e with
       | None => OpState.Raised
       | Some wkc =>
         if wkc =? 0 then OpState.WriteFailed else OpState.Requested
       end.
Proof.
  intros Hgate HP Hex HN Hfuel.
  pose proof (wait_loop_ends P e N (period_seconds_nonneg P HP) HN fuel 0
                             ltac:(lia) ltac:(lia)) as Hend.
  unfold OpState.op_request_phase. rewrite Hgate, Hex. cbn [negb].
  destruct (OpState.wait_loop fuel P e 0) as [n x].
  cbn [snd] in Hend.
  assert (Hin : forall pre,
             In OpState.EvWriteState
                (pre ++ ([OpState.EvAcquire]
                  ++ [OpState.EvSend; OpState.EvRecv 5000; OpState.EvSend;
                      OpState.EvRecv 5000] ++ [OpState.EvRelease])
                  ++ OpState.set_all_op (length (OpState.slave_states e))
                  ++ [OpState.EvSetMasterState OP_STATE;
                      OpState.EvWriteState])).
  { intros pre. apply in_or_app; right. apply in_or_app; right.
    apply in_or_app; right. cbn. auto. }
  destruct Hend as [Hx | Hx]; rewrite Hx;
    destruct (OpState.write_wkc e) as [wkc|];
    try destruct (wkc =? 0); cbn [fst snd].
  all: split; [apply Hin | reflexivity].
Qed.

(** C6.  Whenever the OP request is made, the calls of the function are:
    the reading of the states; the wait loop, which slept one period per
    poll for as long as the worker's cycle count was below 300 and no
    clock reading exceeded one second, and which was left because the
    count had reached 300 or because more than one second had elapsed;
    the confirmation exchange under the lock; the state OP (code 8) set
    on every slave and on the master; and [write_state].  And the request
    is made, after at most [N + 1] sleeps, as soon as the clock passes one
    second at poll [N] (all slaves in SAFEOP, the period not negative,
    the confirmation exchange returning); the function then goes on to
    wait for OP unless [write_state] raises or returns 0. *)
Theorem op_request_waits_for_cycles
        (fuel : nat) (P : PyFloat.float) (e : OpState.env) :
  (In OpState.EvWriteState (fst (OpState.op_request_phase fuel P e)) ->
   exists n,
     fst (OpState.op_request_phase fuel P e)
     = [OpState.EvReadState]
       ++ repeat (OpState.EvSleep (PyFloat.seconds P)) n
       ++ [OpState.EvAcquire; OpState.EvSend; OpState.EvRecv 5000;
           OpState.EvSend; OpState.EvRecv 5000; OpState.EvRelease]
       ++ map (fun i => OpState.EvSetSlaveState i 8)
              (seq 0 (length (OpState.slave_states e)))
       ++ [OpState.EvSetMasterState 8; OpState.EvWriteState]
     /\ (forall j, (j < n)%nat -> OpState.cycle_count_at e j < 300)
     /\ (forall j, (S j < n)%nat ->
           PyFloat.ltb PyFloat.one (OpState.elapsed_at e j) = false)
     /\ (300 <= OpState.cycle_count_at e n
         \/ exists m,
             n = S m
             /\ PyFloat.ltb PyFloat.one (OpState.elapsed_at e m) = true))
  /\ (forall N,
        forallb (fun s => s =? 4) (OpState.slave_states e) = true ->
        PyFloat.leb PyFloat.zero P = true ->
        OpState.exchange_raises e = None ->
        PyFloat.ltb PyFloat.one (OpState.elapsed_at e N) = true ->
        (N < fuel)%nat ->
        In OpState.EvWriteState (fst (OpState.op_request_phase fuel P e))
        /\ snd (OpState.op_request_phase fuel P e)
           = match OpState.write_wkc e with
             | None => OpState.Raised
             | Some wkc =>
               if wkc =? 0 then OpState.WriteFailed else OpState.Requested
             end
        /\ (fst (OpState.wait_loop fuel P e 0) <= S N)%nat).
Proof.
  split.
  - intros Hin.
    destruct (op_request_after_wait fuel P e Hin)
      as (n & x & Hw & Hx & Hevs).
    destruct (wait_loop_exit P e fuel 0 n x Hw) as (_ & Hcnt & Hclk & Hexit).
    exists n. split; [exact Hevs|]. split; [|split].
    + intros j Hj. apply Hcnt. lia.
    + intros j Hj. apply Hclk; lia.
    + destruct Hx as [-> | ->].
      * left. exact (proj1 Hexit).
      * right. destruct Hexit as (m & Hm & _ & Hlt). exists m. auto.
  - intros N Hgate HP Hex HN Hfuel.
    destruct (op_request_is_written fuel P e N Hgate HP Hex HN Hfuel)
      as [Hin Hres].
    split; [exact Hin|]. split; [exact Hres|].
    destruct (OpState.wait_loop fuel P e 0) as [n x] eqn:Hw.
    destruct (wait_loop_exit P e fuel 0 n x Hw) as (_ & _ & Hclk & _).
    cbn [fst].
    destruct (Nat.le_gt_cases n (S N)) as [Hle|Hgt]; [exact Hle|].
    exfalso. pose proof (Hclk N ltac:(lia) ltac:(lia)). congruence.
Qed.

Lemma op_request_waits_for_cycles_witness :
  In OpState.EvWriteState
     (fst (OpState.op_request_phase 501 ETHERCAT_CYCLE_TIME_MS stalled_env)).
Proof.
  exact (proj1 (proj2 (op_request_waits_for_cycles
                         501 ETHERCAT_CYCLE_TIME_MS stalled_env)
                      500%nat eq_refl eq_refl eq_refl
                      ltac:(vm_compute; reflexivity) ltac:(lia))).
Defined.

Example brisk_wait :
  OpState.wait_loop 501 ETHERCAT_CYCLE_TIME_MS brisk_env 0
  = (3%nat, OpState.CyclesReached).
Proof. reflexivity. Qed.

Example stalled_wait :
  OpState.wait_loop 501 ETHERCAT_CYCLE_TIME_MS stalled_env 0
  = (501%nat, OpState.TimedOut).
Proof. vm_compute. reflexivity. Qed.

(** ** The PDO mapping writes *)

Lemma spec_slave_protocol_eq :
  Pdo.spec_slave_protocol
  = [ (0x1600, 0, 0); (0x1600, 1, 0x60400010); (0x1600, 2, 0x60710010);
      (0x1600, 3, 0x60600008); (0x1600, 4, 0x00000008); (0x1600, 0, 4);
      (0x1C12, 0, 0); (0x1C12, 1, 0x1600); (0x1C12, 0, 1);
      (0x1A00, 0, 0); (0x1A00, 1, 0x60410010); (0x1A00, 2, 0x60640020);
      (0x1A00, 3, 0x606C0020); (0x1A00, 4, 0x60770010); (0x1A00, 0, 4);
      (0x1C13, 0, 0); (0x1C13, 1, 0x1A00); (0x1C13, 0, 1) ].
Proof. reflexivity. Qed.

Lemma writes_where_app (j : nat) (r : Z -> bool) (tr1 tr2 : list Pdo.sdo_call) :
  Pdo.writes_where j r (tr1 ++ tr2)
  = Pdo.writes_where j r tr1 ++ Pdo.writes_where j r tr2.
Proof. unfold Pdo.writes_where. now rewrite filter_app, map_app. Qed.

Lemma failed_counted_snoc (tr : list Pdo.sdo_call) (c : Pdo.sdo_call) :
  Pdo.failed_counted (tr ++ [c])
  = Pdo.failed_counted tr
    + (if Pdo.counted c && negb (Pdo.c_ok c) then 1 else 0).
Proof.
  unfold Pdo.failed_counted. rewrite filter_app, length_app.
  cbn [filter]. destruct (Pdo.counted c && negb (Pdo.c_ok c)); cbn; lia.
Qed.

Section PdoFacts.
Context {W : Type} (M : Pdo.master W).

Lemma try_write_step (i : nat) (idx sub v : Z) (n : nat) (flag : bool)
      (data : list Z) (val : Z) :
  PyBytes.to_bytes v n = Some data ->
  PyBytes.from_bytes data = val ->
  forall c j r,
    Pdo.writes_where j r
      (Pdo.trace (Pdo.try_write M i idx sub v n flag c))
    = Pdo.writes_where j r (Pdo.trace c)
      ++ (if (i =? j)%nat && r idx then [(idx, sub, val)] else []).
Proof.
  intros Hd Hv c j r. unfold Pdo.try_write. rewrite Hd.
  destruct (Pdo.sdo_write M i idx sub data (Pdo.world c)) as [w' ok].
  destruct ok; cbn [Pdo.trace]; rewrite writes_where_app;
    f_equal; unfold Pdo.writes_where; cbn [filter Pdo.c_slave Pdo.c_index];
    destruct ((i =? j)%nat && r idx); cbn [map];
    unfold Pdo.call_value; cbn [Pdo.c_index Pdo.c_subindex Pdo.c_data];
    now rewrite ?Hv.
Qed.

Lemma try_write_counter (i : nat) (idx sub v : Z) (n : nat) (flag : bool)
      (data : list Z) :
  PyBytes.to_bytes v n = Some data ->
  Pdo.counted (Pdo.mkCall i idx sub data false) = flag ->
  forall c,
    Pdo.retval c = - Pdo.failed_counted (Pdo.trace c) ->
    Pdo.retval (Pdo.try_write M i idx sub v n flag c)
    = - Pdo.failed_counted
          (Pdo.trace (Pdo.try_write M i idx sub v n flag c)).
Proof.
  intros Hd Hflag c Hinv. unfold Pdo.try_write. rewrite Hd.
  destruct (Pdo.sdo_write M i idx sub data (Pdo.world c)) as [w' ok].
  destruct ok; cbn [Pdo.trace Pdo.retval]; rewrite failed_counted_snoc.
  - cbn [Pdo.c_ok negb]. rewrite andb_false_r. lia.
  - rewrite Hflag. cbn [Pdo.c_ok negb]. rewrite andb_true_r.
    destruct flag; lia.
Qed.

Lemma torque_limits_writes (i : nat) (c : Pdo.cfg) :
  exists t,
    (t = [(0x60E0, 0, 0)] \/ t = [(0x60E0, 0, 0); (0x60E1, 0, 0)])
    /\ forall j r,
        Pdo.writes_where j r (Pdo.trace (Pdo.torque_limits M i c))
        = Pdo.writes_where j r (Pdo.trace c)
          ++ (if (i =? j)%nat
              then filter (fun v => r (fst (fst v))) t else []).
Proof.
  unfold Pdo.torque_limits.
  change (PyBytes.to_bytes_signed 0 2) with (Some [0; 0]).
  cbv beta iota zeta.
  destruct (Pdo.sdo_write M i 0x60E0 0 [0; 0] (Pdo.world c))
    as [w1 ok1].
  destruct ok1.
  - destruct (Pdo.sdo_write M i 0x60E1 0 [0; 0] w1) as [w2 ok2].
    exists [(0x60E0, 0, 0); (0x60E1, 0, 0)]. split; [auto|].
    intros j r.
    destruct ok2; cbv zeta; cbn [Pdo.trace];
      rewrite !writes_where_app, <- app_assoc; f_equal;
      unfold Pdo.writes_where; cbn [filter Pdo.c_slave Pdo.c_index fst];
      destruct (i =? j)%nat; cbn [andb];
      destruct (r 0x60E0), (r 0x60E1); reflexivity.
  - exists [(0x60E0, 0, 0)]. split; [auto|].
    intros j r. cbn [Pdo.trace]. rewrite writes_where_app. f_equal.
    unfold Pdo.writes_where. cbn [filter Pdo.c_slave Pdo.c_index fst].
    destruct (i =? j)%nat; cbn [andb]; destruct (r 0x60E0); reflexivity.
Qed.

Lemma torque_limits_counter (i : nat) (c : Pdo.cfg) :
  Pdo.retval c = - Pdo.failed_counted (Pdo.trace c) ->
  Pdo.retval (Pdo.torque_limits M i c)
  = - Pdo.failed_counted (Pdo.trace (Pdo.torque_limits M i c)).
Proof.
  intros Hinv. unfold Pdo.torque_limits.
  change (PyBytes.to_bytes_signed 0 2) with (Some [0; 0]).
  cbv beta iota zeta.
  destruct (Pdo.sdo_write M i 0x60E0 0 [0; 0] (Pdo.world c))
    as [w1 ok1].
  destruct ok1.
  - destruct (Pdo.sdo_write M i 0x60E1 0 [0; 0] w1) as [w2 ok2].
    destruct ok2; cbv zeta; cbn [Pdo.trace Pdo.retval];
      rewrite !failed_counted_snoc; cbn; lia.
  - cbn [Pdo.trace Pdo.retval]. rewrite failed_counted_snoc. cbn. lia.
Qed.

(** A sequence of blocks that each make one write makes them all, in
    order. *)
Lemma steps_writes (i : nat) (fs : list (@Pdo.cfg W -> @Pdo.cfg W))
      (vs : list (Z * Z * Z)) :
  Forall2 (fun f v =>
             forall c j r,
               Pdo.writes_where j r (Pdo.trace (f c))
               = Pdo.writes_where j r (Pdo.trace c)
                 ++ (if (i =? j)%nat && r (fst (fst v))
                     then [v] else [])) fs vs ->
  forall c j r,
    Pdo.writes_where j r (Pdo.trace (fold_left (fun c f => f c) fs c))
    = Pdo.writes_where j r (Pdo.trace c)
      ++ (if (i =? j)%nat
          then filter (fun v => r (fst (fst v))) vs else []).
Proof.
  induction 1 as [|f v fs vs Hf _ IH]; intros c j r; cbn [fold_left filter].
  - destruct (i =? j)%nat; now rewrite app_nil_r.
  - rewrite IH, Hf, <- app_assoc. f_equal.
    destruct (i =? j)%nat; cbn [andb]; [|reflexivity].
    destruct (r (fst (fst v))); reflexivity.
Qed.

Lemma steps_counter (fs : list (@Pdo.cfg W -> @Pdo.cfg W)) :
  Forall (fun f =>
            forall c,
              Pdo.retval c = - Pdo.failed_counted (Pdo.trace c) ->
              Pdo.retval (f c) = - Pdo.failed_counted (Pdo.trace (f c)))
         fs ->
  forall c,
    Pdo.retval c = - Pdo.failed_counted (Pdo.trace c) ->
    Pdo.retval (fold_left (fun c f => f c) fs c)
    = - Pdo.failed_counted
          (Pdo.trace (fold_left (fun c f => f c) fs c)).
Proof.
  induction 1 as [|f fs Hf _ IH]; intros c Hinv; cbn [fold_left]; auto.
Qed.

Lemma mapping_writes_plan (i : nat) :
  Forall2 (fun f v =>
             forall c j r,
               Pdo.writes_where j r (Pdo.trace (f c))
               = Pdo.writes_where j r (Pdo.trace c)
                 ++ (if (i =? j)%nat && r (fst (fst v))
                     then [v] else []))
          (Pdo.mapping_writes M i) Pdo.spec_slave_protocol.
Proof.
  rewrite spec_slave_protocol_eq. unfold Pdo.mapping_writes.
  repeat (constructor;
          [intros c j r; cbn [fst]; eapply try_write_step; reflexivity|]).
  constructor.
Qed.

Lemma mapping_writes_counter (i : nat) :
  Forall (fun f =>
            forall c,
              Pdo.retval c = - Pdo.failed_counted (Pdo.trace c) ->
              Pdo.retval (f c) = - Pdo.failed_counted (Pdo.trace (f c)))
         (Pdo.mapping_writes M i).
Proof.
  unfold Pdo.mapping_writes.
  repeat (constructor;
          [intros c; eapply try_write_counter; reflexivity|]).
  constructor.
Qed.

End PdoFacts.

Section PdoRun.
Context {W : Type} (M : Pdo.master W).

(** The writes of one slave: the whole protocol, then one or both torque
    limits; nothing on any other slave. *)
Lemma configure_slave_writes (c : Pdo.cfg) (i : nat) :
  exists t,
    (t = [(0x60E0, 0, 0)] \/ t = [(0x60E0, 0, 0); (0x60E1, 0, 0)])
    /\ forall j r,
        Pdo.writes_where j r (Pdo.trace (Pdo.configure_slave M c i))
        = Pdo.writes_where j r (Pdo.trace c)
          ++ (if (i =? j)%nat
              then filter (fun v => r (fst (fst v)))
                          (Pdo.spec_slave_protocol ++ t)
              else []).
Proof.
  unfold Pdo.configure_slave.
  destruct (torque_limits_writes
              M i (fold_left (fun c f => f c) (Pdo.mapping_writes M i) c))
    as (t & Ht & Hw).
  exists t. split; [exact Ht|]. intros j r.
  rewrite Hw, (steps_writes i _ _ (mapping_writes_plan M i)).
  rewrite <- app_assoc. f_equal.
  destruct (i =? j)%nat; [|reflexivity].
  now rewrite filter_app.
Qed.

Lemma configure_slave_counter (c : Pdo.cfg) (i : nat) :
  Pdo.retval c = - Pdo.failed_counted (Pdo.trace c) ->
  Pdo.retval (Pdo.configure_slave M c i)
  = - Pdo.failed_counted (Pdo.trace (Pdo.configure_slave M c i)).
Proof.
  intros Hinv. unfold Pdo.configure_slave.
  apply torque_limits_counter.
  apply steps_counter; [apply mapping_writes_counter|exact Hinv].
Qed.

Lemma configure_all_writes (n : nat) :
  forall (a : nat) (c : Pdo.cfg) (j : nat),
  exists tl,
    (((a <= j < a + n)%nat
      /\ exists t,
          (t = [(0x60E0, 0, 0)] \/ t = [(0x60E0, 0, 0); (0x60E1, 0, 0)])
          /\ tl = Pdo.spec_slave_protocol ++ t)
     \/ (~ (a <= j < a + n)%nat /\ tl = []))
    /\ forall r,
        Pdo.writes_where j r
          (Pdo.trace (fold_left (Pdo.configure_slave M) (seq a n) c))
        = Pdo.writes_where j r (Pdo.trace c)
          ++ filter (fun v => r (fst (fst v))) tl.
Proof.
  induction n as [|n IH]; intros a c j.
  - exists []. split; [right; split; [lia|reflexivity]|].
    intros r. cbn. now rewrite app_nil_r.
  - cbn [seq fold_left].
    destruct (configure_slave_writes c a) as (t & Ht & Hw).
    destruct (IH (S a) (Pdo.configure_slave M c a) j)
      as (tl & Hcase & Hrest).
    destruct (Nat.eqb_spec a j) as [Heq|Hne].
    + exists (Pdo.spec_slave_protocol ++ t). split.
      * left. split; [lia|]. exists t. auto.
      * intros r. rewrite Hrest, Hw.
        destruct Hcase as [[Hin _]|[_ ->]]; [lia|].
        replace (a =? j)%nat with true by (symmetry; now apply Nat.eqb_eq).
        cbn [filter]. now rewrite app_nil_r.
    + exists tl. split.
      * destruct Hcase as [[Hin Ht']|[Hout ->]].
        -- left. split; [lia|exact Ht'].
        -- right. split; [lia|reflexivity].
      * intros r. rewrite Hrest, Hw.
        replace (a =? j)%nat with false
          by (symmetry; now apply Nat.eqb_neq).
        now rewrite app_nil_r.
Qed.

Lemma configure_all_counter (n : nat) :
  forall (a : nat) (c : Pdo.cfg),
    Pdo.retval c = - Pdo.failed_counted (Pdo.trace c) ->
    Pdo.retval (fold_left (Pdo.configure_slave M) (seq a n) c)
    = - Pdo.failed_counted
          (Pdo.trace (fold_left (Pdo.configure_slave M) (seq a n) c)).
Proof.
  induction n as [|n IH]; intros a c Hinv; cbn [seq fold_left]; auto.
  apply IH. apply configure_slave_counter. exact Hinv.
Qed.

(** What a call that passes the PREOP check returns. *)
Lemma configure_pdo_mapping_passed (w : W) :
  snd (Pdo.preop_check M w) = true ->
  let c := fold_left (Pdo.configure_slave M) (seq 0 (Pdo.n_slaves M))
                     (Pdo.mkCfg (fst (Pdo.preop_check M w)) 0 []) in
  Pdo.res_trace (Pdo.configure_pdo_mapping M w) = Pdo.trace c
  /\ Pdo.res_retval (Pdo.configure_pdo_mapping M w) = Some (Pdo.retval c)
  /\ Pdo.res_ok (Pdo.configure_pdo_mapping M w)
     = negb (Pdo.retval c <? 0).
Proof.
  intros Hgate. unfold Pdo.configure_pdo_mapping.
  destruct (Pdo.preop_check M w) as [w1 ok]. cbn [snd] in Hgate.
  subst ok. cbn [negb fst].
  destruct (Pdo.retval _ <? 0); cbn; auto.
Qed.

Lemma slave_writes_passed (w : W) (j : nat) :
  snd (Pdo.preop_check M w) = true ->
  (j < Pdo.n_slaves M)%nat ->
  exists t,
    (t = [(0x60E0, 0, 0)] \/ t = [(0x60E0, 0, 0); (0x60E1, 0, 0)])
    /\ forall r,
        Pdo.writes_where j r
          (Pdo.res_trace (Pdo.configure_pdo_mapping M w))
        = filter (fun v => r (fst (fst v))) (Pdo.spec_slave_protocol ++ t).
Proof.
  intros Hgate Hj.
  destruct (configure_pdo_mapping_passed w Hgate) as (Htr & _ & _).
  rewrite Htr.
  destruct (configure_all_writes
              (Pdo.n_slaves M) 0
              (Pdo.mkCfg (fst (Pdo.preop_check M w)) 0 []) j)
    as (tl & Hcase & Hw).
  destruct Hcase as [[_ (t & Ht & ->)]|[Hout _]]; [|lia].
  exists t. split; [exact Ht|]. intros r. rewrite Hw. reflexivity.
Qed.

End PdoRun.

(** C3.  Once the PREOP check has passed, the writes issued on each slave
    are, for the receive map 0x1600 and for the transmit map 0x1A00:
    entry count 0, the four entry descriptors into sub-slots 1 to 4 in the
    order of the specification, entry count 4; for each assignment object
    0x1C12 and 0x1C13: count 0, the map's index into sub-slot 1, count 1;
    and, taken together: receive map, its assignment, transmit map, its
    assignment. *)
Theorem pdo_mapping_write_order
        {W : Type} (M : Pdo.master W) (w : W) (j : nat) :
  snd (Pdo.preop_check M w) = true ->
  (j < Pdo.n_slaves M)%nat ->
  let tr := Pdo.res_trace (Pdo.configure_pdo_mapping M w) in
  Pdo.writes_to j 0x1600 tr = Pdo.spec_map_protocol 0x1600 Pdo.rx_entries
  /\ Pdo.writes_to j 0x1C12 tr = Pdo.spec_assign_protocol 0x1C12 0x1600
  /\ Pdo.writes_to j 0x1A00 tr = Pdo.spec_map_protocol 0x1A00 Pdo.tx_entries
  /\ Pdo.writes_to j 0x1C13 tr = Pdo.spec_assign_protocol 0x1C13 0x1A00
  /\ Pdo.writes_where j Pdo.is_mapping_object tr = Pdo.spec_slave_protocol.
Proof.
  intros Hgate Hj tr. subst tr.
  destruct (slave_writes_passed M w j Hgate Hj) as (t & Ht & Hw).
  unfold Pdo.writes_to. rewrite !Hw.
  destruct Ht as [-> | ->]; repeat split; reflexivity.
Qed.

Lemma pdo_mapping_write_order_witness :
  Pdo.writes_to 1 0x1600
    (Pdo.res_trace
       (Pdo.configure_pdo_mapping (picky_master 2 refuse_clear_and_limit) tt))
  = Pdo.spec_map_protocol 0x1600 Pdo.rx_entries.
Proof.
  exact (proj1 (pdo_mapping_write_order
                  (picky_master 2 refuse_clear_and_limit) tt 1
                  eq_refl ltac:(cbn; lia))).
Defined.

Example rx_map_protocol_value :
  Pdo.spec_map_protocol 0x1600 Pdo.rx_entries
  = [ (0x1600, 0, 0); (0x1600, 1, 0x60400010); (0x1600, 2, 0x60710010);
      (0x1600, 3, 0x60600008); (0x1600, 4, 0x00000008); (0x1600, 0, 4) ].
Proof. reflexivity. Qed.

(** C5 as stated does not hold: a refused clearing write is not counted,
    so that the call succeeds with a failed write in its trace. *)
Lemma every_failure_counted_fails : ~ every_failure_counted.
Proof.
  intros H.
  destruct (H unit (picky_master 1 refuse_clear_and_limit) tt eq_refl)
    as (Hcount & _ & _).
  vm_compute in Hcount. discriminate.
Qed.

(** What the call does on that input: it returns [True] with the counter
    at 0, two writes having failed; after the refused first torque limit
    the second one is not attempted. *)
Example refused_clear_run :
  let r := Pdo.configure_pdo_mapping (picky_master 1 refuse_clear_and_limit)
                                     tt in
  Pdo.res_ok r = true
  /\ Pdo.res_retval r = Some 0
  /\ map Pdo.call_value (Pdo.failed_calls (Pdo.res_trace r))
     = [(0x1600, 0, 0); (0x60E0, 0, 0)]
  /\ Pdo.writes_to 0 0x60E1 (Pdo.res_trace r) = []
  /\ length (Pdo.writes_of 0 (Pdo.res_trace r)) = 19%nat.
Proof. vm_compute. repeat split. Qed.

(** C5, amended.  Once the PREOP check has passed, the eighteen map and
    assignment writes of every slave are all attempted, whichever of them
    fail, followed by one or both torque-limit writes; the counter ends at
    minus the number of failed writes of entry descriptors, entry counts,
    assignment entries and assignment counts (failed clearing writes and
    torque-limit writes are not counted); and the call reports failure
    exactly when the counter is not zero. *)
Theorem pdo_partial_failure_policy
        {W : Type} (M : Pdo.master W) (w : W) :
  snd (Pdo.preop_check M w) = true ->
  let r := Pdo.configure_pdo_mapping M w in
  (forall j, (j < Pdo.n_slaves M)%nat ->
     exists t,
       (t = [(0x60E0, 0, 0)] \/ t = [(0x60E0, 0, 0); (0x60E1, 0, 0)])
       /\ Pdo.writes_of j (Pdo.res_trace r) = Pdo.spec_slave_protocol ++ t)
  /\ Pdo.res_retval r = Some (- Pdo.failed_counted (Pdo.res_trace r))
  /\ (Pdo.res_ok r = false <-> Pdo.res_retval r <> Some 0).
Proof.
  intros Hgate r. subst r.
  destruct (configure_pdo_mapping_passed M w Hgate) as (Htr & Hret & Hok).
  cbv zeta in Htr, Hret, Hok.
  pose proof (configure_all_counter
                M (Pdo.n_slaves M) 0
                (Pdo.mkCfg (fst (Pdo.preop_check M w)) 0 []) eq_refl)
    as Hinv.
  split; [|split].
  - intros j Hj.
    destruct (slave_writes_passed M w j Hgate Hj) as (t & Ht & Hw).
    exists t. split; [exact Ht|].
    unfold Pdo.writes_of. rewrite Hw.
    clear. induction (Pdo.spec_slave_protocol ++ t) as [|v l IH];
      cbn [filter]; [reflexivity|now rewrite IH].
  - rewrite Hret, Htr. f_equal. exact Hinv.
  - rewrite Hok, Hret.
    assert (Hle : 0 <= Pdo.failed_counted
                         (Pdo.trace
                            (fold_left (Pdo.configure_slave M)
                               (seq 0 (Pdo.n_slaves M))
                               (Pdo.mkCfg (fst (Pdo.preop_check M w)) 0 []))))
      by (unfold Pdo.failed_counted; lia).
    destruct (Z.ltb_spec
                (Pdo.retval
                   (fold_left (Pdo.configure_slave M)
                      (seq 0 (Pdo.n_slaves M))
                      (Pdo.mkCfg (fst (Pdo.preop_check M w)) 0 []))) 0)
      as [Hlt|Hge]; cbn [negb]; split; intros Hx;
      try reflexivity; try discriminate.
    + intros E. inversion E. lia.
    + exfalso. apply Hx. f_equal. lia.
Qed.

Lemma pdo_partial_failure_policy_witness :
  Pdo.res_retval
    (Pdo.configure_pdo_mapping (picky_master 2 refuse_clear_and_limit) tt)
  = Some (- Pdo.failed_counted
            (Pdo.res_trace
               (Pdo.configure_pdo_mapping
                  (picky_master 2 refuse_clear_and_limit) tt))).
Proof.
  exact (proj1 (proj2 (pdo_partial_failure_policy
                         (picky_master 2 refuse_clear_and_limit) tt
                         eq_refl))).
Defined.

(* ===================================================================== *)
(** * Further properties *)
(* ===================================================================== *)

(** ** The worker: buffers *)

Lemma fits_frame_true (sh : Shared) :
  WorkerTrace.fits_frame sh = true ->
  0 <= thread_controlword sh < 65536
  /\ -32768 <= thread_target_torque sh < 32768
  /\ 0 <= thread_mode_of_operation sh < 256.
Proof.
  unfold WorkerTrace.fits_frame. intros H.
  repeat (apply andb_prop in H; destruct H as [H ?]).
  repeat match goal with
         | H : (_ <=? _) = true |- _ => apply Z.leb_le in H
         | H : (_ <? _) = true |- _ => apply Z.ltb_lt in H
         end.
  lia.
Qed.

Lemma encode_fields_unfit (sh : Shared) (out : list Z) :
  WorkerTrace.fits_frame sh = false ->
  Worker.encode_fields (thread_controlword sh) (thread_target_torque sh)
                       (thread_mode_of_operation sh) Worker.padding out
  = None.
Proof.
  unfold WorkerTrace.fits_frame, Worker.encode_fields,
    PyBytes.to_bytes, PyBytes.to_bytes_signed, PyBytes.index_assign.
  replace (256 ^ Z.of_nat 2) with 65536 by reflexivity.
  intros H.
  destruct ((0 <=? thread_controlword sh)
            && (thread_controlword sh <? 65536)) eqn:Hcw;
    [|reflexivity].
  assert (Htq : ((- (65536) <=? 2 * thread_target_torque sh)
                 && (2 * thread_target_torque sh <? 65536))
                = ((-32768 <=? thread_target_torque sh)
                   && (thread_target_torque sh <? 32768))).
  { destruct (Z.leb_spec (-32768) (thread_target_torque sh)),
             (Z.ltb_spec (thread_target_torque sh) 32768);
      cbn [andb].
    - apply andb_true_intro. split; [apply Z.leb_le|apply Z.ltb_lt]; lia.
    - apply andb_false_intro2. apply Z.ltb_ge. lia.
    - apply andb_false_intro1. apply Z.leb_gt. lia.
    - apply andb_false_intro1. apply Z.leb_gt. lia. }
  cbv zeta. rewrite Htq.
  destruct ((-32768 <=? thread_target_torque sh)
            && (thread_target_torque sh <? 32768)) eqn:Htq';
    [|reflexivity].
  cbn [andb] in H. rewrite Htq' in H. cbn [andb] in H.
  rewrite H. reflexivity.
Qed.

Lemma encode_slave_unfit (sh : Shared) (out : list Z) :
  WorkerTrace.fits_frame sh = false ->
  Worker.encode_slave sh Worker.padding out = out.
Proof.
  intros H. unfold Worker.encode_slave.
  rewrite (encode_fields_unfit sh out H).
  destruct (PyBytes.truthy out); [|reflexivity].
  destruct (6 <=? length out)%nat; reflexivity.
Qed.

(** What the encode step does to one buffer, in every case. *)
Lemma encode_slave_cases (sh : Shared) (out : list Z) :
  Worker.encode_slave sh Worker.padding out = out
  \/ ((6 <= length out)%nat
      /\ WorkerTrace.fits_frame sh = true
      /\ Worker.encode_slave sh Worker.padding out
         = [ thread_controlword sh mod 256; thread_controlword sh / 256;
             (thread_target_torque sh mod 65536) mod 256;
             (thread_target_torque sh mod 65536) / 256;
             thread_mode_of_operation sh; 0 ] ++ skipn 6 out).
Proof.
  destruct (WorkerTrace.fits_frame sh) eqn:Hfit.
  - destruct (fits_frame_true sh Hfit) as (Hcw & Htq & Hm).
    destruct (Nat.leb_spec 6 (length out)) as [Hlong|Hshort].
    + right. split; [exact Hlong|]. split; [reflexivity|].
      apply encode_slave_long; assumption.
    + left. apply encode_slave_short. exact Hshort.
  - left. apply encode_slave_unfit. exact Hfit.
Qed.

Lemma encode_slave_keeps_size (sh : Shared) (out : list Z) :
  length (Worker.encode_slave sh Worker.padding out) = length out
  /\ skipn 6 (Worker.encode_slave sh Worker.padding out) = skipn 6 out.
Proof.
  destruct (encode_slave_cases sh out) as [E|(Hlen & _ & E)]; rewrite E.
  - auto.
  - split; [|reflexivity]. cbn [length app]. rewrite length_skipn. lia.
Qed.

Lemma encode_all_keeps_sizes (sh : Shared) (outs : list (list Z)) :
  map (@length Z) (Worker.encode_all sh outs) = map (@length Z) outs
  /\ map (skipn 6) (Worker.encode_all sh outs) = map (skipn 6) outs.
Proof.
  unfold Worker.encode_all. rewrite !map_map. split; apply map_ext;
    intros out; apply encode_slave_keeps_size.
Qed.

Lemma tick_keeps_sizes (P : PyFloat.float) (env : Worker.tick_env) (st : Worker.state) :
  map (@length Z) (Worker.outputs (fst (fst (Worker.worker_tick P env st))))
  = map (@length Z) (Worker.outputs st)
  /\ map (skipn 6)
         (Worker.outputs (fst (fst (Worker.worker_tick P env st))))
     = map (skipn 6) (Worker.outputs st).
Proof.
  destruct (Worker.recv_result env) as [wkc|] eqn:Hr.
  - rewrite (tick_outputs P env st wkc Hr). apply encode_all_keeps_sizes.
  - unfold Worker.worker_tick, Worker.tick_handler. rewrite Hr.
    destruct (PyFloat.time_sleep_raises (PyFloat.seconds P)); cbn [fst]; auto.
Qed.

Lemma loop_keeps_sizes (P : PyFloat.float) (envs : list Worker.tick_env) :
  forall st,
    map (@length Z)
        (Worker.outputs (fst (fst (fst (Worker.worker_loop P envs st)))))
    = map (@length Z) (Worker.outputs st)
    /\ map (skipn 6)
           (Worker.outputs (fst (fst (fst (Worker.worker_loop P envs st)))))
       = map (skipn 6) (Worker.outputs st).
Proof.
  induction envs as [|env rest IH]; intros st; [cbn; auto|].
  cbn [Worker.worker_loop].
  pose proof (tick_keeps_sizes P env st) as [Hl Hs].
  destruct (Worker.worker_tick P env st) as [[st' evs] oc].
  cbn [fst] in Hl, Hs.
  specialize (IH st').
  destruct (Worker.worker_loop P rest st') as [[[st'' evs'] k] died].
  cbn [fst] in IH. destruct IH as [Hl' Hs'].
  destruct oc; cbn [fst]; split; congruence.
Qed.

(** X1.  Whatever the worker thread does (first exchange, then any number
    of ticks, raising or not, for any period and any values of the shared
    variables), it never changes the number of slaves' buffers, the length
    of a buffer or the bytes of a buffer from index 6 on. *)
Theorem worker_keeps_buffer_sizes
        (P : PyFloat.float) (pe : Worker.prologue_env) (envs : list Worker.tick_env)
        (st : Worker.state) :
  let st' := fst (fst (fst (Worker.data_exchange_worker P pe envs st))) in
  map (@length Z) (Worker.outputs st') = map (@length Z) (Worker.outputs st)
  /\ map (skipn 6) (Worker.outputs st') = map (skipn 6) (Worker.outputs st).
Proof.
  cbv zeta. unfold Worker.data_exchange_worker.
  pose proof (encode_all_keeps_sizes (Worker.shared_at_start pe)
                                     (Worker.outputs st)) as [Hl Hs].
  destruct (Worker.first_send_ok pe); cbn [negb fst]; [|cbn; auto].
  destruct (Worker.first_recv pe); [|cbn; auto].
  pose proof (loop_keeps_sizes
                P envs
                (Worker.mkState (Worker.data_exchange_cycle_count st)
                   (Worker.encode_all (Worker.shared_at_start pe)
                                      (Worker.outputs st)))) as [Hl' Hs'].
  destruct (Worker.worker_loop P envs _) as [[[st'' evs'] k] died].
  cbn [fst Worker.outputs] in *. split; congruence.
Qed.

(** X2.  When a shared field does not fit its wire type (control word
    outside 0..65535, torque outside -32768..32767 or mode outside 0..255),
    a tick whose calls return leaves every output buffer as it was, sends
    that unchanged frame and still counts the cycle: the conversion error
    is swallowed slave by slave. *)
Theorem worker_tick_unfit_fields
        (P : PyFloat.float) (env : Worker.tick_env) (st : Worker.state) (wkc : Z) :
  Worker.recv_result env = Some wkc ->
  Worker.send_ok env = true ->
  WorkerTrace.fits_frame (Worker.shared_now env) = false ->
  let r := Worker.worker_tick P env st in
  Worker.outputs (fst (fst r)) = Worker.outputs st
  /\ Worker.data_exchange_cycle_count (fst (fst r))
     = Worker.data_exchange_cycle_count st + 1
  /\ In (Worker.EvSend (Worker.outputs st)) (snd (fst r))
  /\ snd r = Worker.TickDone.
Proof.
  intros Hr Hs Hfit. cbv zeta.
  assert (E : Worker.encode_all (Worker.shared_now env) (Worker.outputs st)
              = Worker.outputs st).
  { unfold Worker.encode_all. rewrite <- (map_id (Worker.outputs st)) at 2.
    apply map_ext. intros out. apply encode_slave_unfit. exact Hfit. }
  unfold Worker.worker_tick. rewrite Hr, Hs.
  destruct (Worker.expected_wkc env <=? wkc); cbn [negb fst snd];
    rewrite E; (split; [reflexivity|]; split; [reflexivity|];
                split; [cbn; auto|reflexivity]).
Qed.

Lemma worker_tick_unfit_fields_witness :
  Worker.outputs
    (fst (fst (Worker.worker_tick ETHERCAT_CYCLE_TIME_MS unfit_example_env frame_example_state)))
  = Worker.outputs frame_example_state.
Proof.
  exact (proj1 (worker_tick_unfit_fields
                  ETHERCAT_CYCLE_TIME_MS unfit_example_env frame_example_state 3
                  eq_refl eq_refl eq_refl)).
Defined.

(** X3.  The encode step is idempotent: encoding the same shared values
    again leaves every buffer as the first encoding left it. *)
Theorem encode_all_idempotent (sh : Shared) (outs : list (list Z)) :
  Worker.encode_all sh (Worker.encode_all sh outs) = Worker.encode_all sh outs.
Proof.
  unfold Worker.encode_all. rewrite map_map. apply map_ext. intros out.
  destruct (encode_slave_cases sh out) as [E|(Hlen & Hfit & E)].
  - now rewrite E.
  - rewrite E.
    destruct (encode_slave_cases
                sh ([ thread_controlword sh mod 256;
                      thread_controlword sh / 256;
                      (thread_target_torque sh mod 65536) mod 256;
                      (thread_target_torque sh mod 65536) / 256;
                      thread_mode_of_operation sh; 0 ] ++ skipn 6 out))
      as [E'|(_ & _ & E')]; rewrite E'; reflexivity.
Qed.

(** ** The worker: cycle count, lock and sleeps *)

Lemma tick_count (P : PyFloat.float) (env : Worker.tick_env) (st : Worker.state) :
  Worker.data_exchange_cycle_count (fst (fst (Worker.worker_tick P env st)))
  = Worker.data_exchange_cycle_count st
    + (if WorkerTrace.tick_completes env then 1 else 0).
Proof.
  unfold Worker.worker_tick, Worker.tick_handler, WorkerTrace.tick_completes.
  destruct (Worker.recv_result env) as [wkc|].
  - destruct (Worker.expected_wkc env <=? wkc), (Worker.send_ok env);
      cbn [negb]; try destruct (PyFloat.time_sleep_raises (PyFloat.seconds P)); cbn; lia.
  - destruct (PyFloat.time_sleep_raises (PyFloat.seconds P)); cbn; lia.
Qed.

(** X4.  With a period that is not negative, the cycle counter read by
    [set_slaves_to_op_state_cst] grows by exactly the number of ticks whose
    receive and send calls both returned: a raising tick is not counted. *)
Theorem worker_counts_completed_ticks
        (P : PyFloat.float) (envs : list Worker.tick_env) (st : Worker.state) :
  PyFloat.leb PyFloat.zero P = true ->
  Worker.data_exchange_cycle_count
    (fst (fst (fst (Worker.worker_loop P envs st))))
  = Worker.data_exchange_cycle_count st + WorkerTrace.completed_ticks envs.
Proof.
  intros HP. revert st.
  induction envs as [|env rest IH]; intros st.
  - cbn. unfold WorkerTrace.completed_ticks. cbn. lia.
  - cbn [Worker.worker_loop].
    pose proof (tick_count P env st) as Hc.
    pose proof (tick_never_dies P env st HP) as Hlive.
    destruct (Worker.worker_tick P env st) as [[st' evs] oc].
    cbn [fst snd] in Hc, Hlive.
    specialize (IH st').
    destruct (Worker.worker_loop P rest st') as [[[st'' evs'] k] died].
    cbn [fst] in IH.
    assert (Hsum : WorkerTrace.completed_ticks (env :: rest)
                   = (if WorkerTrace.tick_completes env then 1 else 0)
                     + WorkerTrace.completed_ticks rest).
    { unfold WorkerTrace.completed_ticks. cbn [filter].
      destruct (WorkerTrace.tick_completes env); cbn [length]; lia. }
    destruct oc; [| |congruence]; cbn [fst]; lia.
Qed.

Lemma worker_counts_completed_ticks_witness :
  Worker.data_exchange_cycle_count
    (fst (fst (fst (Worker.worker_loop
                      ETHERCAT_CYCLE_TIME_MS [raising_env; frame_example_env; raising_env]
                      frame_example_state))))
  = Worker.data_exchange_cycle_count frame_example_state
    + WorkerTrace.completed_ticks
        [raising_env; frame_example_env; raising_env].
Proof.
  exact (worker_counts_completed_ticks
           ETHERCAT_CYCLE_TIME_MS [raising_env; frame_example_env; raising_env]
           frame_example_state ltac:(unfold Qle; cbn; lia)).
Defined.

Lemma lock_ok_app (a b : list Worker.event) :
  forall held,
    WorkerTrace.lock_ok held a = true ->
    WorkerTrace.lock_ok false b = true ->
    WorkerTrace.lock_ok held (a ++ b) = true.
Proof.
  induction a as [|ev a IH]; intros held Ha Hb.
  - cbn in Ha. destruct held; [discriminate|exact Hb].
  - cbn [app WorkerTrace.lock_ok] in *.
    destruct ev, held; cbn [andb negb] in *;
      try discriminate; apply IH; assumption.
Qed.

Lemma tick_lock_ok (P : PyFloat.float) (env : Worker.tick_env) (st : Worker.state) :
  WorkerTrace.lock_ok false (snd (fst (Worker.worker_tick P env st))) = true.
Proof.
  unfold Worker.worker_tick, Worker.tick_handler.
  destruct (Worker.recv_result env) as [wkc|].
  - destruct (Worker.send_ok env); cbn [negb].
    + cbn [fst snd].
      destruct (PyFloat.ltb _ _ && _);
        destruct (PyFloat.ltb PyFloat.zero _); reflexivity.
    + destruct (PyFloat.time_sleep_raises (PyFloat.seconds P)); reflexivity.
  - destruct (PyFloat.time_sleep_raises (PyFloat.seconds P)); reflexivity.
Qed.

Lemma loop_lock_ok (P : PyFloat.float) (envs : list Worker.tick_env) :
  forall st,
    WorkerTrace.lock_ok
      false (snd (fst (fst (Worker.worker_loop P envs st)))) = true.
Proof.
  induction envs as [|env rest IH]; intros st; [reflexivity|].
  cbn [Worker.worker_loop].
  pose proof (tick_lock_ok P env st) as Ht.
  destruct (Worker.worker_tick P env st) as [[st' evs] oc].
  cbn [fst snd] in Ht. specialize (IH st').
  destruct (Worker.worker_loop P rest st') as [[[st'' evs'] k] died].
  cbn [fst snd] in IH.
  destruct oc; cbn [fst snd]; try exact Ht; apply lock_ok_app; assumption.
Qed.

(** X5.  The trace of the worker thread respects the lock discipline on
    every run: each receive and send is made with the lock held, the lock
    is released before any sleep or print (also when a call raises inside
    the [with] block), and it is free when the thread ends. *)
Theorem worker_lock_discipline
        (P : PyFloat.float) (pe : Worker.prologue_env) (envs : list Worker.tick_env)
        (st : Worker.state) :
  WorkerTrace.lock_ok
    false (snd (fst (fst (Worker.data_exchange_worker P pe envs st))))
  = true.
Proof.
  unfold Worker.data_exchange_worker.
  destruct (Worker.first_send_ok pe); cbn [negb]; [|reflexivity].
  destruct (Worker.first_recv pe); [|reflexivity].
  pose proof (loop_lock_ok
                P envs
                (Worker.mkState (Worker.data_exchange_cycle_count st)
                   (Worker.encode_all (Worker.shared_at_start pe)
                                      (Worker.outputs st)))) as Hl.
  destruct (Worker.worker_loop P envs _) as [[[st'' evs'] k] died].
  cbn [fst snd] in *.
  apply (lock_ok_app [Worker.EvAcquire; Worker.EvSend _; Worker.EvRecv 5000;
                      Worker.EvRelease] evs' false); [reflexivity|exact Hl].
Qed.






(** ** The drive state machine: further properties *)

Lemma run_raises_at_once (P : PyFloat.float) (h : bool)
      (inps : list (option (list Z))) (st : Cst.state) :
  Cst.compute_thresholds P h = None -> Cst.run P h inps st = [].
Proof.
  intros Hn. destruct inps as [|inp rest]; [reflexivity|].
  cbn [Cst.run]. unfold Cst.iteration. rewrite Hn. reflexivity.
Qed.

(** The shared variables and the step a pass leaves depend on the step
    it was entered with, not on the status word that was read, on the
    print counter or on what the shared variables held. *)
Lemma iteration_ignores_input (P : PyFloat.float) (h : bool)
      (inp inp' : option (list Z)) (s1 s2 : Cst.state) :
  Cst.step s1 = Cst.step s2 ->
  let r1 := Cst.iteration P h inp s1 in
  let r2 := Cst.iteration P h inp' s2 in
  snd r1 = snd r2
  /\ (Cst.compute_thresholds P h <> None ->
      Cst.shared (fst r1) = Cst.shared (fst r2)
      /\ Cst.step (fst r1) = Cst.step (fst r2)).
Proof.
  intros Hs. cbv zeta. unfold Cst.iteration.
  destruct (Cst.compute_thresholds P h) as [t|] eqn:Ht.
  2:{ split; [reflexivity|]. intros H. congruence. }
  pose proof (select_output_stage h t (Cst.read_statusword inp) s1) as H1.
  pose proof (select_output_stage h t (Cst.read_statusword inp') s2) as H2.
  rewrite Hs in H1.
  destruct (Cst.select_output t h (Cst.read_statusword inp) s1)
    as [[cw1 tq1] fc1].
  destruct (Cst.select_output t h (Cst.read_statusword inp') s2)
    as [[cw2 tq2] fc2].
  cbn [fst] in H1, H2. rewrite <- H2 in H1. inversion H1; subst cw2 tq2.
  rewrite Hs.
  destruct (PyFloat.time_sleep_raises (PyFloat.seconds P));
    cbn [fst snd Cst.shared Cst.step]; split; auto.
Qed.

Lemma run_ignores_input
      (P : PyFloat.float) (h : bool) (inps : list (option (list Z))) :
  forall inps' s1 s2,
    length inps = length inps' ->
    Cst.step s1 = Cst.step s2 ->
    map Cst.shared (Cst.run P h inps s1)
    = map Cst.shared (Cst.run P h inps' s2)
    /\ map Cst.step (Cst.run P h inps s1)
       = map Cst.step (Cst.run P h inps' s2).
Proof.
  destruct (Cst.compute_thresholds P h) as [t|] eqn:Ht.
  2:{ intros inps' s1 s2 _ _. rewrite !run_raises_at_once by assumption.
      auto. }
  induction inps as [|inp rest IH]; intros [|inp' rest'] s1 s2 Hlen Hs;
    try discriminate; [cbn; auto|].
  cbn [Cst.run].
  destruct (iteration_ignores_input P h inp inp' s1 s2 Hs) as [Ho Hrest].
  destruct Hrest as (Hsh & Hst); [congruence|].
  destruct (Cst.iteration P h inp s1) as [s1' o1].
  destruct (Cst.iteration P h inp' s2) as [s2' o2].
  cbn [fst snd] in *. subst o2. rewrite Ht.
  destruct o1; cbn [map].
  - injection Hlen as Hlen.
    destruct (IH rest' s1' s2' Hlen Hst) as [E1 E2].
    rewrite Hsh, Hst, E1, E2. auto.
  - rewrite Hsh, Hst. auto.
Qed.

(** X7.  What [cyclic_operation_cst] commands depends on what is read
    from the slaves through the start-up diagnosis only (whether an error
    code of the non-critical list was found).  Two calls with the same
    period, the same result of the diagnosis and as many passes leave the
    same control word, torque and mode and the same step after each pass,
    whatever the status words read during the loop (or the failures to
    read them) and whatever the shared variables held on entry: the fault
    bit clearing early does not shorten the fault-reset stage, and its
    staying set does not lengthen it. *)
Theorem cst_outputs_ignore_status
        (P : PyFloat.float) (diags diags' : list Cst.slave_diag)
        (sh sh' : Shared) (inps inps' : list (option (list Z))) :
  Cst.diagnose diags = Cst.diagnose diags' ->
  length inps = length inps' ->
  map Cst.shared (Cst.cyclic_operation_cst P diags sh inps)
  = map Cst.shared (Cst.cyclic_operation_cst P diags' sh' inps')
  /\ map Cst.step (Cst.cyclic_operation_cst P diags sh inps)
     = map Cst.step (Cst.cyclic_operation_cst P diags' sh' inps').
Proof.
  intros Hd Hlen. unfold Cst.cyclic_operation_cst. rewrite Hd.
  apply run_ignores_input; [exact Hlen|reflexivity].
Qed.

Lemma cst_outputs_ignore_status_witness :
  map Cst.shared
      (Cst.cyclic_operation_cst ETHERCAT_CYCLE_TIME_MS [faulted_slave]
                                shared_init [faulted_input; None])
  = map Cst.shared
        (Cst.cyclic_operation_cst ETHERCAT_CYCLE_TIME_MS []
                                  (mkShared 0x000F 50 10) [None; Some []]).
Proof.
  exact (proj1 (cst_outputs_ignore_status
                  ETHERCAT_CYCLE_TIME_MS [faulted_slave] []
                  shared_init (mkShared 0x000F 50 10)
                  [faulted_input; None] [None; Some []]
                  eq_refl eq_refl)).
Defined.

(** The diagnosis does matter: with the period of 2 ms, pass 1001 (from
    0) still resets the fault after a diagnosis that found nothing, and
    commands the shutdown after one that found the error code 0x730F. *)
Example diagnosis_halves_fault_reset :
  let noncritical := Cst.mkDiag [0x08; 0x00; 0; 0; 0; 0; 0; 0; 0; 0; 0; 0]
                                (Some [0x0F; 0x73]) in
  option_map Cst.written
    (nth_error (Cst.cyclic_operation_cst
                  ETHERCAT_CYCLE_TIME_MS [faulted_slave] shared_init
                  (repeat faulted_input 1002)) 1001)
  = Some (0x0080, 0)
  /\ option_map Cst.written
       (nth_error (Cst.cyclic_operation_cst
                     ETHERCAT_CYCLE_TIME_MS [noncritical] shared_init
                     (repeat faulted_input 1002)) 1001)
     = Some (0x0006, 0).
Proof. vm_compute. split; reflexivity. Qed.

Lemma run_member (P : PyFloat.float) (h : bool) (inps : list (option (list Z))) :
  forall st s,
    In s (Cst.run P h inps st) ->
    exists inp prev,
      s = fst (Cst.iteration P h inp prev)
      /\ Cst.compute_thresholds P h <> None.
Proof.
  induction inps as [|inp rest IH]; intros st s Hin; [destruct Hin|].
  cbn [Cst.run] in Hin.
  destruct (Cst.iteration P h inp st) as [st' oc] eqn:Hit.
  destruct oc.
  - destruct Hin as [<-|Hin].
    + exists inp, st. rewrite Hit. split; [reflexivity|].
      intros Hn. unfold Cst.iteration in Hit. rewrite Hn in Hit.
      discriminate.
    + exact (IH st' s Hin).
  - destruct (Cst.compute_thresholds P h) eqn:Ht; [|destruct Hin].
    destruct Hin as [<-|[]].
    exists inp, st. rewrite Hit. split; [reflexivity|discriminate].
Qed.

(** X8.  Every pass of every run, from any state and for any period,
    leaves the mode of operation at 10 and one of the five pairs
    (0x0080, 0), (0x0006, 0), (0x0007, 0), (0x000F, 0), (0x000F, 50) in
    the shared variables: no other control word or torque is ever
    commanded by the state machine. *)
Theorem cst_writes_only_enable_sequence
        (P : PyFloat.float) (h : bool) (inps : list (option (list Z)))
        (st s : Cst.state) :
  In s (Cst.run P h inps st) ->
  thread_mode_of_operation (Cst.shared s) = 10
  /\ In (Cst.written s)
        [(0x0080, 0); (0x0006, 0); (0x0007, 0); (0x000F, 0); (0x000F, 50)].
Proof.
  intros Hin.
  destruct (run_member P h inps st s Hin) as (inp & prev & -> & Hthr).
  destruct (Cst.compute_thresholds P h) as [t|] eqn:Ht; [|congruence].
  split; [apply (iteration_mode P h t Ht)|].
  rewrite (iteration_written P h t Ht).
  destruct (Cst.stage_index t (Cst.step prev)) as [|[|[|[|k]]]];
    cbn; auto 6.
Qed.

Lemma cst_writes_only_enable_sequence_witness :
  thread_mode_of_operation
    (Cst.shared (fst (Cst.iteration ETHERCAT_CYCLE_TIME_MS false faulted_input
                                    (Cst.init_state shared_init)))) = 10.
Proof.
  exact (proj1 (cst_writes_only_enable_sequence
                  ETHERCAT_CYCLE_TIME_MS false [faulted_input] (Cst.init_state shared_init) _
                  (or_introl eq_refl))).
Defined.

(** ** The running stage *)

Lemma stage_index_running (t : Cst.thresholds) (a : Z) :
  (Cst.last_bound t < a -> Cst.stage_index t a = 4%nat)
  /\ (a <= Cst.last_bound t -> snd (stage_output (Cst.stage_index t a)) = 0).
Proof.
  unfold Cst.stage_index, Cst.last_bound. cbv zeta.
  repeat match goal with
         | |- context [Z.leb ?x ?y] => destruct (Z.leb_spec x y)
         end; cbn [stage_output snd]; split; intros; try reflexivity; lia.
Qed.

(** X10.  The running stage and the cap of the step at 25000, with the
    thresholds the code computes from the period.  The torque 50 is
    commanded by the passes entered with a step above the largest bound
    of the chain (the enable-operation threshold when the offsets are in
    their usual order).  When this bound is at or above 25000 no pass of
    any run ever commands a torque, because the step stops at 25000.
    When it is below 25000 and the period is not negative, the first pass
    to command the torque 50 is pass number bound + 1 (counted from 0),
    every earlier pass commanding the torque 0. *)
Theorem cst_running_stage_reachability
        (P : PyFloat.float) (h : bool) (t : Cst.thresholds) :
  Cst.compute_thresholds P h = Some t ->
  (25000 <= Cst.last_bound t ->
   forall sh inps s,
     In s (Cst.run P h inps (Cst.init_state sh)) ->
     thread_target_torque (Cst.shared s) = 0)
  /\ (Cst.last_bound t < 25000 ->
      PyFloat.leb PyFloat.zero P = true ->
      forall sh inps,
        let k := Z.to_nat (Cst.last_bound t + 1) in
        (k < length inps)%nat ->
        (exists s,
            nth_error (Cst.run P h inps (Cst.init_state sh)) k = Some s
            /\ Cst.written s = (0x000F, 50))
        /\ forall i s',
            (i < k)%nat ->
            nth_error (Cst.run P h inps (Cst.init_state sh)) i = Some s' ->
            thread_target_torque (Cst.shared s') = 0).
Proof.
  intros Ht. split.
  - intros Hcap sh inps s Hin.
    apply In_nth_error in Hin. destruct Hin as [i Hi].
    destruct (run_nth P h t Ht inps (Cst.init_state sh) 0 i s
                      (init_state_step sh) Hi) as [Hw _].
    apply (f_equal snd) in Hw. cbn [Cst.written snd] in Hw.
    rewrite Hw. apply stage_index_running.
    unfold step_at. cbn [Nat.add]. lia.
  - intros Hcap HP sh inps k Hk.
    assert (Hlen : length (Cst.run P h inps (Cst.init_state sh))
                   = length inps).
    { apply (run_length_no_raise P h t Ht).
      apply period_seconds_nonneg. exact HP. }
    split.
    + destruct (nth_error (Cst.run P h inps (Cst.init_state sh)) k)
        as [s|] eqn:Hs.
      2:{ apply nth_error_None in Hs. lia. }
      exists s. split; [reflexivity|].
      destruct (run_nth P h t Ht inps (Cst.init_state sh) 0 k s
                        (init_state_step sh) Hs) as [Hw _].
      rewrite Hw. cbn [Nat.add].
      rewrite (proj1 (stage_index_running t (step_at k))); [reflexivity|].
      unfold step_at. subst k. lia.
    + intros i s' Hi Hs'.
      destruct (run_nth P h t Ht inps (Cst.init_state sh) 0 i s'
                        (init_state_step sh) Hs') as [Hw _].
      apply (f_equal snd) in Hw. cbn [Cst.written snd] in Hw.
      rewrite Hw. apply stage_index_running.
      unfold step_at. cbn [Nat.add]. lia.
Qed.

(** With a period of 0.25 ms the bound is 28000 steps. *)
Lemma cst_running_stage_reachability_witness :
  thread_target_torque
    (Cst.shared (fst (Cst.iteration (PyFloat.lit 25 100) false faulted_input
                                    (Cst.init_state shared_init)))) = 0.
Proof.
  exact (proj1 (cst_running_stage_reachability
                  (PyFloat.lit 25 100) false
                  (Cst.mkThr 16000 4000 8000 12000) eq_refl)
               ltac:(cbn; lia)
               shared_init [faulted_input] _ (or_introl eq_refl)).
Defined.

(** With the period of 2 ms as shipped the bound is 3500: pass 3501 is
    the first to command the torque. *)
Example running_stage_2ms :
  option_map Cst.last_bound
             (Cst.compute_thresholds ETHERCAT_CYCLE_TIME_MS false)
  = Some 3500.
Proof. reflexivity. Qed.

(** ** The diagnosis before the loop *)

Lemma diagnose_slave_or (has : bool) (d : Cst.slave_diag) :
  Cst.diagnose_slave has d = has || Cst.diagnose_slave false d.
Proof.
  unfold Cst.diagnose_slave.
  repeat match goal with
         | |- context [if ?b then _ else _] => destruct b
         | |- context [match ?o with Some _ => _ | None => _ end] =>
           destruct o
         end; destruct has; reflexivity.
Qed.

Lemma diagnose_fold (ds : list Cst.slave_diag) :
  forall has,
    fold_left Cst.diagnose_slave ds has
    = has || existsb (Cst.diagnose_slave false) ds.
Proof.
  induction ds as [|d ds IH]; intros has; cbn [fold_left existsb].
  - now rewrite orb_false_r.
  - rewrite IH, diagnose_slave_or. now rewrite orb_assoc.
Qed.

Lemma from_bytes_nil_free (data : list Z) :
  PyBytes.from_bytes data <> 0 -> PyBytes.truthy data = true.
Proof. destruct data; [intros H; now contradiction H|reflexivity]. Qed.

(** X11.  The diagnosis reports a non-critical error exactly when some
    slave has an input buffer of at least 12 bytes whose status word has
    the fault bit (bit 3) set and an error code object 0x603F that was
    read and holds 0x730F.  A slave whose read fails, whose buffer is too
    short or whose fault bit is clear never contributes; one such slave is
    enough, whatever the others report. *)
Theorem diagnose_characterised (ds : list Cst.slave_diag) :
  Cst.diagnose ds = true
  <-> exists d data,
      In d ds
      /\ (12 <= length (Cst.diag_input d))%nat
      /\ Z.land (PyBytes.from_bytes (PyBytes.slice 0 2 (Cst.diag_input d)))
                0x0008 <> 0
      /\ Cst.diag_error_code d = Some data
      /\ PyBytes.from_bytes data = 0x730F.
Proof.
  unfold Cst.diagnose. rewrite diagnose_fold. cbn [orb].
  rewrite existsb_exists. split.
  - intros (d & Hin & Hd). unfold Cst.diagnose_slave in Hd.
    destruct (PyBytes.truthy (Cst.diag_input d)
              && (12 <=? length (Cst.diag_input d))%nat) eqn:Hlen;
      [|discriminate].
    apply andb_prop in Hlen. destruct Hlen as [_ Hlen].
    apply Nat.leb_le in Hlen.
    destruct (Z.eqb_spec
                (Z.land (PyBytes.from_bytes
                           (PyBytes.slice 0 2 (Cst.diag_input d))) 8) 0)
      as [|Hbit]; [discriminate|].
    cbn [negb] in Hd.
    destruct (Cst.diag_error_code d) as [data|] eqn:Hcode; [|discriminate].
    destruct (PyBytes.truthy data); [|discriminate].
    destruct (Z.eqb_spec (PyBytes.from_bytes data) 0); [discriminate|].
    cbn [negb] in Hd. unfold Cst.code_in, Cst.non_critical_error_codes in Hd.
    cbn [existsb] in Hd. rewrite orb_false_r in Hd.
    destruct (Z.eqb_spec (PyBytes.from_bytes data) 29455) as [E|];
      [|discriminate].
    exists d, data. auto.
  - intros (d & data & Hin & Hlen & Hbit & Hcode & Hval).
    exists d. split; [exact Hin|]. unfold Cst.diagnose_slave.
    assert (Ht : PyBytes.truthy (Cst.diag_input d) = true).
    { destruct (Cst.diag_input d); [cbn in Hlen; lia|reflexivity]. }
    rewrite Ht. apply Nat.leb_le in Hlen. rewrite Hlen. cbn [andb].
    destruct (Z.eqb_spec
                (Z.land (PyBytes.from_bytes
                           (PyBytes.slice 0 2 (Cst.diag_input d))) 8) 0)
      as [E|_]; [contradiction|].
    cbn [negb]. rewrite Hcode.
    rewrite (from_bytes_nil_free data) by (rewrite Hval; discriminate).
    rewrite Hval. reflexivity.
Qed.

(** ** Waiting for the OP state *)

Lemma check_loop_spec (e : OpCheck.env) (remaining : nat) :
  forall attempt,
    (0 < remaining)%nat ->
    exists k,
      OpCheck.check_loop remaining attempt e
      = (OpCheck.retry_trace k,
         Some (OpCheck.check_result e (attempt + k)))
      /\ (k < remaining)%nat
      /\ ((S k < remaining)%nat ->
          OpCheck.check_result e (attempt + k) = 8
          /\ forallb (fun s => s =? 8)
                     (OpCheck.states_after e (attempt + k)) = true)
      /\ (forall j, (j < k)%nat ->
            forallb (fun s => s =? 8)
                    (OpCheck.states_after e (attempt + j))
            && (OpCheck.check_result e (attempt + j) =? 8) = false).
Proof.
  induction remaining as [|r IH]; intros attempt Hpos; [lia|].
  cbn [OpCheck.check_loop]. change OP_STATE with 8.
  change (5 * 50000) with 250000.
  destruct (forallb (fun s => s =? 8) (OpCheck.states_after e attempt)
            && (OpCheck.check_result e attempt =? 8)) eqn:Hok.
  - exists 0%nat. rewrite Nat.add_0_r.
    split; [reflexivity|]. split; [lia|]. split; [|intros; lia].
    intros _. apply andb_prop in Hok. destruct Hok as [Hall Hres].
    apply Z.eqb_eq in Hres. auto.
  - destruct r as [|r'].
    + exists 0%nat. rewrite Nat.add_0_r.
      split; [reflexivity|]. split; [lia|]. split; intros; lia.
    + destruct (IH (S attempt) ltac:(lia))
        as (k & Hloop & Hk & Hearly & Hbefore).
      rewrite Hloop.
      exists (S k).
      replace (attempt + S k)%nat with (S attempt + k)%nat by lia.
      split; [reflexivity|]. split; [lia|].
      split.
      * intros Hlt. apply Hearly. lia.
      * intros j Hj. destruct j as [|j].
        -- rewrite Nat.add_0_r. exact Hok.
        -- replace (attempt + S j)%nat with (S attempt + j)%nat by lia.
           apply Hbefore. lia.
Qed.

(** X12.  After the OP request the function makes [k + 1] checks of the
    state for some [k] below 10, each a [state_check] for OP (code 8) with
    a timeout of 250000 followed by [read_state], with a sleep of 100 ms
    after each of the first [k] and none after the last.  It stops before
    the tenth check only when a check returns OP with every slave read in
    OP.  The last check alone decides the rest: the states are read
    again; if it did not return OP the state machine information of every
    slave is read (the states and five objects); the states are read once
    more; if it returned OP the shared variables are set to control word
    0x0080, torque 0, mode 10, the function sleeps 10 ms and returns
    [True]; otherwise they are left as they were and it returns
    [False]. *)
Theorem op_state_wait_bounded (e : OpCheck.env) (sh : Shared) :
  exists k,
    (k < 10)%nat
    /\ (let in_op := OpCheck.check_result e k =? 8 in
        OpCheck.wait_for_op e sh
        = (OpCheck.retry_trace k
             ++ [OpCheck.EvReadState]
             ++ (if in_op then []
                 else flat_map OpCheck.state_machine_info
                               (seq 0 (OpCheck.slave_count e)))
             ++ [OpCheck.EvReadState]
             ++ (if in_op then [OpCheck.EvSleep (1 # 100)] else []),
           if in_op then mkShared 0x0080 0 10 else sh,
           in_op))
    /\ ((S k < 10)%nat ->
        OpCheck.check_result e k = 8
        /\ forallb (fun s => s =? 8) (OpCheck.states_after e k) = true)
    /\ (forall j, (j < k)%nat ->
          forallb (fun s => s =? 8) (OpCheck.states_after e j)
          && (OpCheck.check_result e j =? 8) = false).
Proof.
  unfold OpCheck.wait_for_op, OpCheck.max_attempts.
  destruct (check_loop_spec e 10 0 ltac:(lia))
    as (k & Hloop & Hk & Hearly & Hbefore).
  rewrite Hloop. cbn [Nat.add] in *.
  exists k. split; [exact Hk|]. split; [|split; [exact Hearly|exact Hbefore]].
  cbv zeta. change OP_STATE with 8. unfold OpCheck.epilogue.
  destruct (OpCheck.check_result e k =? 8); reflexivity.
Qed.

Example slow_op_wait :
  OpCheck.wait_for_op slow_op_env (mkShared 0x0006 0 10)
  = ([ OpCheck.EvStateCheck 8 250000; OpCheck.EvReadState;
       OpCheck.EvSleep (1 # 10);
       OpCheck.EvStateCheck 8 250000; OpCheck.EvReadState;
       OpCheck.EvSleep (1 # 10);
       OpCheck.EvStateCheck 8 250000; OpCheck.EvReadState;
       OpCheck.EvReadState; OpCheck.EvReadState;
       OpCheck.EvSleep (1 # 100) ],
     mkShared 0x0080 0 10, true).
Proof. reflexivity. Qed.

Lemma wait_for_op_shared (e : OpCheck.env) (sh : Shared) :
  snd (fst (OpCheck.wait_for_op e sh))
  = (if snd (OpCheck.wait_for_op e sh) then mkShared 0x0080 0 10 else sh).
Proof.
  unfold OpCheck.wait_for_op.
  destruct (OpCheck.check_loop OpCheck.max_attempts 0 e) as [evs [res|]];
    [|reflexivity].
  destruct (res =? OP_STATE); reflexivity.
Qed.

(** X13.  Whatever the module-level variables hold when [main] starts the
    thread, and whichever way [set_slaves_to_op_state_cst] ends (early
    return, OP reached or not), the state machine enters its loop with
    control word 0x0080 and torque 0 in the shared variables. *)
Theorem cst_entered_with_fault_reset (g : Thread.globals) (e : OpCheck.env) :
  thread_controlword (shared_at_entry g e) = 0x0080
  /\ thread_target_torque (shared_at_entry g e) = 0
  /\ thread_controlword (shared_at_entry_early g) = 0x0080
  /\ thread_target_torque (shared_at_entry_early g) = 0.
Proof.
  assert (Hinit : forall sh,
             thread_target_torque sh = 0 ->
             thread_controlword (Cst.init_shared sh) = 0x0080
             /\ thread_target_torque (Cst.init_shared sh) = 0).
  { intros sh Htq. unfold Cst.init_shared.
    destruct (Z.eqb_spec (thread_controlword sh) 128); cbn [negb]; auto. }
  assert (H1 : thread_target_torque
                 (Thread.shared (Thread.start_data_exchange_thread g)) = 0)
    by reflexivity.
  destruct (Hinit _ H1) as [Ha Hb].
  unfold shared_at_entry, shared_at_entry_early.
  rewrite wait_for_op_shared.
  destruct (snd (OpCheck.wait_for_op e _)).
  - repeat split; auto.
  - repeat split; auto.
Qed.

(** ** The counters of [cyclic_operation] *)

Lemma observe_keeps_invariant (wkc expected : Z) (s : Cyclic.stats) :
  Cyclic.cycle_count s = Cyclic.success_count s ->
  let s' := Cyclic.observe wkc expected s in
  Cyclic.cycle_count s' = Cyclic.success_count s'
  /\ Cyclic.success_count s <= Cyclic.success_count s'
  /\ Cyclic.timeout_count s <= Cyclic.timeout_count s'
  /\ Cyclic.low_wkc_count s <= Cyclic.low_wkc_count s'.
Proof.
  intros H. cbv zeta. unfold Cyclic.observe.
  destruct (wkc =? -1); [cbn; lia|].
  destruct (wkc <? expected); [cbn; lia|].
  destruct (wkc >=? expected); cbn; lia.
Qed.

(** X14.  Throughout a run of [cyclic_operation] the cycle count equals the
    success count (the reported total of cycles leaves out timeouts and
    degraded cycles) and no counter ever decreases; and a send or receive
    call that raises ends the loop, so that nothing that would have come
    after it is counted. *)
Theorem cyclic_counters_invariant
        (expected : Z) (envs : list Cyclic.iter_env) (s : Cyclic.stats) :
  Cyclic.cycle_count s = Cyclic.success_count s ->
  let s' := Cyclic.cyclic_loop expected envs s in
  Cyclic.cycle_count s' = Cyclic.success_count s'
  /\ Cyclic.success_count s <= Cyclic.success_count s'
  /\ Cyclic.timeout_count s <= Cyclic.timeout_count s'
  /\ Cyclic.low_wkc_count s <= Cyclic.low_wkc_count s'
  /\ forall e post,
      Cyclic.send_result e = None \/ Cyclic.recv_wkc e = None ->
      Cyclic.cyclic_loop expected (envs ++ e :: post) s = s'.
Proof.
  cbv zeta. revert s.
  assert (Hraise : forall e post s0,
             Cyclic.send_result e = None \/ Cyclic.recv_wkc e = None ->
             Cyclic.cyclic_loop expected (e :: post) s0 = s0).
  { intros e post s0 [H|H]; cbn [Cyclic.cyclic_loop]; rewrite H;
      [reflexivity|]. destruct (Cyclic.send_result e); reflexivity. }
  induction envs as [|e0 rest IH]; intros s Hinv.
  - cbn [Cyclic.cyclic_loop app].
    split; [exact Hinv|]. split; [lia|]. split; [lia|]. split; [lia|].
    intros e post H. apply Hraise. exact H.
  - cbn [Cyclic.cyclic_loop app].
    destruct (Cyclic.send_result e0) as [sr|].
    2:{ split; [exact Hinv|]. split; [lia|]. split; [lia|]. split; [lia|].
        reflexivity. }
    destruct (Cyclic.recv_wkc e0) as [wkc|].
    2:{ split; [exact Hinv|]. split; [lia|]. split; [lia|]. split; [lia|].
        reflexivity. }
    destruct (observe_keeps_invariant wkc expected s Hinv)
      as (Hi & H1 & H2 & H3).
    destruct (IH _ Hi) as (Hi' & H1' & H2' & H3' & Hstop).
    split; [exact Hi'|]. split; [lia|]. split; [lia|]. split; [lia|].
    exact Hstop.
Qed.

Lemma cyclic_counters_invariant_witness :
  Cyclic.cycle_count
    (Cyclic.cyclic_loop 3 [Cyclic.mkIter (Some 1) (Some 3);
                           Cyclic.mkIter (Some 1) (Some (-1))]
                        Cyclic.stats_init)
  = Cyclic.success_count
      (Cyclic.cyclic_loop 3 [Cyclic.mkIter (Some 1) (Some 3);
                             Cyclic.mkIter (Some 1) (Some (-1))]
                          Cyclic.stats_init).
Proof.
  exact (proj1 (cyclic_counters_invariant
                  3 [Cyclic.mkIter (Some 1) (Some 3);
                     Cyclic.mkIter (Some 1) (Some (-1))]
                  Cyclic.stats_init eq_refl)).
Defined.

(** ** The PDO mapping: bounds and the PREOP check *)

Section PdoBounds.
Context {W : Type} (M : Pdo.master W).

Lemma try_write_bounded (n i : nat) (idx sub v : Z) (m : nat) (flag : bool) :
  (i < n)%nat -> In idx written_objects ->
  step_bounded n (if flag then 1 else 0) (Pdo.try_write M i idx sub v m flag).
Proof.
  intros Hi Hidx c. unfold Pdo.try_write.
  destruct (PyBytes.to_bytes v m) as [data|].
  - destruct (Pdo.sdo_write M i idx sub data (Pdo.world c)) as [w' ok].
    destruct ok; cbn [Pdo.trace Pdo.retval]; rewrite length_app;
      (split; [cbn; lia|]); (split; [destruct flag; lia|]);
      intros Hall; apply Forall_app; (split; [exact Hall|]);
      constructor; [split; assumption|constructor
                   |split; assumption|constructor].
  - cbn [Pdo.trace Pdo.retval]. split; [lia|].
    split; [destruct flag; lia|auto].
Qed.

Lemma steps_bounded (n : nat) (fs : list (@Pdo.cfg W -> @Pdo.cfg W))
      (ks : list Z) :
  Forall2 (fun f k => step_bounded n k f) fs ks ->
  forall c,
    (length (Pdo.trace (fold_left (fun c f => f c) fs c))
     <= length (Pdo.trace c) + length fs)%nat
    /\ Pdo.retval c - fold_right Z.add 0 ks
       <= Pdo.retval (fold_left (fun c f => f c) fs c) <= Pdo.retval c
    /\ (Forall (call_in_range n) (Pdo.trace c) ->
        Forall (call_in_range n)
               (Pdo.trace (fold_left (fun c f => f c) fs c))).
Proof.
  induction 1 as [|f k fs ks Hf _ IH]; intros c;
    cbn [fold_left fold_right length].
  - split; [lia|]. split; [lia|auto].
  - destruct (Hf c) as (Hl & Hr & Ha).
    destruct (IH (f c)) as (Hl' & Hr' & Ha').
    split; [lia|]. split; [lia|auto].
Qed.

Lemma mapping_writes_bounded (n i : nat) :
  (i < n)%nat ->
  Forall2 (fun f k => step_bounded n k f) (Pdo.mapping_writes M i)
          [0; 1; 1; 1; 1; 1; 0; 1; 1; 0; 1; 1; 1; 1; 1; 0; 1; 1].
Proof.
  intros Hi. unfold Pdo.mapping_writes.
  repeat (constructor;
          [cbv beta;
           match goal with
           | |- step_bounded _ _ (Pdo.try_write _ _ ?idx ?sub ?v ?m ?flag) =>
             apply (try_write_bounded n i idx sub v m flag Hi);
             unfold written_objects; cbn; auto 7
           end|]).
  constructor.
Qed.

Lemma torque_limits_bounded (n i : nat) (c : Pdo.cfg) :
  (i < n)%nat ->
  (length (Pdo.trace (Pdo.torque_limits M i c))
   <= length (Pdo.trace c) + 2)%nat
  /\ Pdo.retval (Pdo.torque_limits M i c) = Pdo.retval c
  /\ (Forall (call_in_range n) (Pdo.trace c) ->
      Forall (call_in_range n) (Pdo.trace (Pdo.torque_limits M i c))).
Proof.
  intros Hi. unfold Pdo.torque_limits.
  change (PyBytes.to_bytes_signed 0 2) with (Some [0; 0]).
  cbv beta iota zeta.
  assert (H0 : forall ok, call_in_range n (Pdo.mkCall i 0x60E0 0 [0; 0] ok)).
  { intros ok. split; [exact Hi|]. unfold written_objects. cbn. auto 7. }
  assert (H1 : forall ok, call_in_range n (Pdo.mkCall i 0x60E1 0 [0; 0] ok)).
  { intros ok. split; [exact Hi|]. unfold written_objects. cbn. auto 7. }
  destruct (Pdo.sdo_write M i 0x60E0 0 [0; 0] (Pdo.world c)) as [w1 ok1].
  destruct ok1.
  - destruct (Pdo.sdo_write M i 0x60E1 0 [0; 0] w1) as [w2 ok2].
    destruct ok2; cbn [Pdo.trace Pdo.retval]; rewrite !length_app;
      (split; [cbn; lia|]); (split; [reflexivity|]);
      intros Hall; repeat (apply Forall_app; split);
      try exact Hall; constructor; auto.
  - cbn [Pdo.trace Pdo.retval]. rewrite length_app.
    split; [cbn; lia|]. split; [reflexivity|].
    intros Hall. apply Forall_app. split; [exact Hall|].
    constructor; auto.
Qed.

Lemma configure_slave_bounded (n i : nat) (c : Pdo.cfg) :
  (i < n)%nat ->
  (length (Pdo.trace (Pdo.configure_slave M c i))
   <= length (Pdo.trace c) + 20)%nat
  /\ Pdo.retval c - 14 <= Pdo.retval (Pdo.configure_slave M c i)
     <= Pdo.retval c
  /\ (Forall (call_in_range n) (Pdo.trace c) ->
      Forall (call_in_range n) (Pdo.trace (Pdo.configure_slave M c i))).
Proof.
  intros Hi. unfold Pdo.configure_slave.
  destruct (steps_bounded n _ _ (mapping_writes_bounded n i Hi) c)
    as (Hl & Hr & Ha).
  destruct (torque_limits_bounded
              n i (fold_left (fun c f => f c) (Pdo.mapping_writes M i) c) Hi)
    as (Hl' & Hr' & Ha').
  change (length (Pdo.mapping_writes M i)) with 18%nat in Hl.
  change (fold_right Z.add 0
            [0; 1; 1; 1; 1; 1; 0; 1; 1; 0; 1; 1; 1; 1; 1; 0; 1; 1])
    with 14 in Hr.
  split; [lia|]. split; [lia|auto].
Qed.

Lemma configure_all_bounded (n k : nat) :
  forall (a : nat) (c : Pdo.cfg),
    (a + k <= n)%nat ->
    (length (Pdo.trace (fold_left (Pdo.configure_slave M) (seq a k) c))
     <= length (Pdo.trace c) + 20 * k)%nat
    /\ Pdo.retval c - 14 * Z.of_nat k
       <= Pdo.retval (fold_left (Pdo.configure_slave M) (seq a k) c)
       <= Pdo.retval c
    /\ (Forall (call_in_range n) (Pdo.trace c) ->
        Forall (call_in_range n)
               (Pdo.trace (fold_left (Pdo.configure_slave M) (seq a k) c))).
Proof.
  induction k as [|k IH]; intros a c Hak; cbn [seq fold_left].
  - split; [lia|]. split; [lia|auto].
  - destruct (configure_slave_bounded n a c ltac:(lia)) as (Hl & Hr & Ha).
    destruct (IH (S a) (Pdo.configure_slave M c a) ltac:(lia))
      as (Hl' & Hr' & Ha').
    split; [lia|]. split; [lia|auto].
Qed.

End PdoBounds.

(** X15.  Whatever the slaves answer, [configure_pdo_mapping] makes at
    most 20 SDO writes per slave, each addressed to an existing slave and
    to one of the objects 0x1600, 0x1C12, 0x1A00, 0x1C13, 0x60E0, 0x60E1;
    its error counter ends between -14 per slave and 0; and when the PREOP
    check fails it writes nothing at all and returns False. *)
Theorem pdo_mapping_bounds {W : Type} (M : Pdo.master W) (w : W) :
  let r := Pdo.configure_pdo_mapping M w in
  Forall (call_in_range (Pdo.n_slaves M)) (Pdo.res_trace r)
  /\ (length (Pdo.res_trace r) <= 20 * Pdo.n_slaves M)%nat
  /\ (forall rv, Pdo.res_retval r = Some rv ->
        -14 * Z.of_nat (Pdo.n_slaves M) <= rv <= 0)
  /\ (snd (Pdo.preop_check M w) = false ->
      Pdo.res_trace r = [] /\ Pdo.res_ok r = false
      /\ Pdo.res_retval r = None).
Proof.
  cbv zeta. unfold Pdo.configure_pdo_mapping.
  destruct (Pdo.preop_check M w) as [w1 ok]. cbn [snd].
  destruct ok; cbn [negb].
  - destruct (configure_all_bounded M (Pdo.n_slaves M) (Pdo.n_slaves M) 0
                                    (Pdo.mkCfg w1 0 []) ltac:(lia))
      as (Hl & Hr & Ha).
    cbn [Pdo.trace Pdo.retval length] in Hl, Hr, Ha.
    destruct (Pdo.retval _ <? 0); cbn [Pdo.res_trace Pdo.res_retval];
      (split; [apply Ha; constructor|]); (split; [lia|]);
      (split; [intros rv E; inversion E; subst rv; lia|discriminate]).
  - cbn. split; [constructor|]. split; [lia|].
    split; [discriminate|auto].
Qed.

Section PreopCheck.
Context {W : Type} (M : Pdo.master W).

(** Slaves found in PREOP leave the check as it stands. *)
Lemma preop_check_skips (w : W) (b : bool) (k : nat) :
  forall a,
    (forall i, (a <= i < a + k)%nat -> Pdo.slave_state M i w = PREOP_STATE) ->
    fold_left (Pdo.preop_check_slave M) (seq a k) (w, b) = (w, b).
Proof.
  induction k as [|k IH]; intros a Hall; [reflexivity|].
  cbn [seq fold_left]. unfold Pdo.preop_check_slave at 2.
  rewrite (Hall a) by lia. rewrite Z.eqb_refl. cbn [negb].
  apply IH. intros i Hi. apply Hall. lia.
Qed.

End PreopCheck.

(** X16.  The PREOP check at the head of [configure_pdo_mapping]: if every
    slave is read in PREOP it passes without asking for any state change;
    and it is decided by the last slave found outside PREOP: when that
    slave's switch succeeds and the slaves after it are in PREOP, the check
    passes whatever happened to the slaves before it, those that could not
    be switched included. *)
Theorem preop_check_last_decides {W : Type} (M : Pdo.master W) (w : W) :
  ((forall i, (i < Pdo.n_slaves M)%nat ->
      Pdo.slave_state M i (Pdo.read_state M w) = PREOP_STATE) ->
   Pdo.preop_check M w = (Pdo.read_state M w, true))
  /\ forall j w2,
      (j < Pdo.n_slaves M)%nat ->
      let acc := fold_left (Pdo.preop_check_slave M) (seq 0 j)
                           (Pdo.read_state M w, true) in
      Pdo.slave_state M j (fst acc) <> PREOP_STATE ->
      Pdo.write_state M (Pdo.set_slave_state M j PREOP_STATE (fst acc))
      = Some w2 ->
      let w3 := Pdo.read_state M (Pdo.sleep M (2 # 10) w2) in
      Pdo.slave_state M j w3 = PREOP_STATE ->
      (forall i, (j < i < Pdo.n_slaves M)%nat ->
         Pdo.slave_state M i w3 = PREOP_STATE) ->
      Pdo.preop_check M w = (w3, true).
Proof.
  split.
  - intros Hall. unfold Pdo.preop_check.
    apply preop_check_skips. intros i Hi. apply Hall. lia.
  - intros j w2 Hj acc Hout Hwrite w3 Hin Hlater.
    unfold Pdo.preop_check.
    replace (Pdo.n_slaves M) with (j + S (Pdo.n_slaves M - S j))%nat by lia.
    rewrite seq_app, fold_left_app. fold acc.
    cbn [seq fold_left Nat.add].
    assert (Hstep : Pdo.preop_check_slave M acc j = (w3, true)).
    { unfold Pdo.preop_check_slave. destruct acc as [wa ba]. cbn [fst] in *.
      destruct (Z.eqb_spec (Pdo.slave_state M j wa) PREOP_STATE);
        [contradiction|]. cbn [negb]. rewrite Hwrite. fold w3.
      rewrite Hin, Z.eqb_refl. reflexivity. }
    rewrite Hstep. apply preop_check_skips.
    intros i Hi. apply Hlater. lia.
Qed.

Lemma preop_check_last_decides_witness :
  Pdo.preop_check stubborn_master None = (Some 1%nat, true).
Proof.
  refine (proj2 (preop_check_last_decides stubborn_master None) 1%nat
                (Some 1%nat) _ _ eq_refl eq_refl _).
  - cbn. lia.
  - cbn. discriminate.
  - cbn. intros i Hi. lia.
Defined.

Example stubborn_slave_left_in_init :
  Pdo.slave_state stubborn_master 0
                  (fst (Pdo.preop_check stubborn_master None)) = INIT_STATE
  /\ Pdo.res_ok (Pdo.configure_pdo_mapping stubborn_master None) = true
  /\ length (Pdo.writes_of 0 (Pdo.res_trace
                (Pdo.configure_pdo_mapping stubborn_master None)))
     = 20%nat.
Proof. vm_compute. auto. Qed.

(** ** State names *)

Lemma land_lor_zero (x a b : Z) :
  (Z.land x (Z.lor a b) =? 0) = (Z.land x a =? 0) && (Z.land x b =? 0).
Proof.
  rewrite Z.land_lor_distr_r.
  destruct (Z.eqb_spec (Z.lor (Z.land x a) (Z.land x b)) 0) as [E|E].
  - apply Z.lor_eq_0_iff in E. destruct E as [-> ->]. reflexivity.
  - destruct (Z.eqb_spec (Z.land x a) 0) as [Ea|]; [|reflexivity].
    destruct (Z.eqb_spec (Z.land x b) 0) as [Eb|]; [|reflexivity].
    exfalso. apply E. apply Z.lor_eq_0_iff. auto.
Qed.

Lemma land_3_zero (x : Z) :
  (Z.land x 3 =? 0) = (Z.land x 1 =? 0) && (Z.land x 2 =? 0).
Proof. exact (land_lor_zero x 1 2). Qed.

Lemma land_15_zero (x : Z) :
  (Z.land x 15 =? 0)
  = (Z.land x 1 =? 0) && (Z.land x 2 =? 0)
    && ((Z.land x 4 =? 0) && (Z.land x 8 =? 0)).
Proof.
  change 15 with (Z.lor (Z.lor 1 2) (Z.lor 4 8)).
  now rewrite !land_lor_zero.
Qed.

Lemma lookup_known (code : Z) (s : String.string) :
  StateName.lookup code StateName.state_names = Some s ->
  Z.land code 15 <> 0.
Proof.
  unfold StateName.state_names, StateName.lookup,
    INIT_STATE, PREOP_STATE, SAFEOP_STATE, OP_STATE, BOOT_STATE.
  repeat match goal with
         | |- context [Z.eqb code ?k] =>
           destruct (Z.eqb_spec code k) as [->|]; [intros _; discriminate|]
         end.
  discriminate.
Qed.

(** X17.  [get_state_name] falls back to "Unknown State" exactly for the
    codes whose four low bits are all clear (0, or an error flag alone);
    every other code is named from the table or as a combined state. *)
Theorem state_name_unknown_iff (code : Z) :
  StateName.classify code = StateName.Unknown code
  <-> Z.land code 15 = 0.
Proof.
  unfold StateName.classify.
  destruct (StateName.lookup code StateName.state_names) as [s|] eqn:Hl.
  - split; [discriminate|]. intros H.
    exfalso. exact (lookup_known code s Hl H).
  - rewrite <- Z.eqb_eq, land_15_zero.
    unfold StateName.state_parts, StateName.part,
      INIT_STATE, PREOP_STATE, SAFEOP_STATE, OP_STATE, BOOT_STATE.
    rewrite land_3_zero.
    destruct (Z.land code 1 =? 0), (Z.land code 2 =? 0),
             (Z.land code 4 =? 0), (Z.land code 8 =? 0);
      cbn; split; intros H; try reflexivity; discriminate.
Qed.

(** X18.  In the list of parts of a combined state, BOOT is listed exactly
    when INIT or PREOP is: the BOOT code 3 shares its bits with INIT (1)
    and PREOP (2), so BOOT never appears alone and always accompanies
    them. *)
Theorem state_parts_boot (code : Z) :
  In StateName.label_BOOT (StateName.state_parts code)
  <-> In StateName.label_INIT (StateName.state_parts code)
      \/ In StateName.label_PREOP (StateName.state_parts code).
Proof.
  unfold StateName.state_parts, StateName.part,
    INIT_STATE, PREOP_STATE, SAFEOP_STATE, OP_STATE, BOOT_STATE,
    StateName.label_BOOT, StateName.label_INIT, StateName.label_PREOP.
  rewrite land_3_zero.
  destruct (Z.land code 1 =? 0), (Z.land code 2 =? 0),
           (Z.land code 4 =? 0), (Z.land code 8 =? 0);
    cbn; split; intros H;
    repeat match goal with
           | H : _ \/ _ |- _ => destruct H as [H|H]
           | H : False |- _ => destruct H
           end;
    try discriminate; auto 8.
Qed.

Example state_name_preop_error :
  StateName.classify 18
  = StateName.Combined [StateName.label_PREOP; StateName.label_BOOT] 18
  /\ StateName.classify 16 = StateName.Unknown 16
  /\ StateName.classify 3 <> StateName.Unknown 3.
Proof. repeat split. discriminate. Qed.

(** ** The choice of the adapter *)

Lemma first_valid_adapter (l : list Adapters.adapter) :
  match filter (fun a => negb (Adapters.is_loopback a)) l with
  | [] => forallb Adapters.is_loopback l = true
  | a :: _ =>
    Adapters.is_loopback a = false
    /\ exists pre post,
        l = pre ++ a :: post /\ forallb Adapters.is_loopback pre = true
  end.
Proof.
  induction l as [|x l IH]; [reflexivity|].
  cbn [filter forallb].
  destruct (Adapters.is_loopback x) eqn:Hx; cbn [negb andb].
  - destruct (filter _ l) as [|a r]; [exact IH|].
    destruct IH as (Ha & pre & post & -> & Hpre).
    split; [exact Ha|]. exists (x :: pre), post. split; [reflexivity|].
    cbn [forallb]. now rewrite Hx.
  - split; [exact Hx|]. exists [], l. split; reflexivity.
Qed.

(** X19.  [main] goes on without an adapter exactly when none was found;
    otherwise the adapter it opens is one of those found, namely the
    first one not named lo, and the loopback itself only when every
    adapter found is named lo. *)
Theorem adapter_selection (l : list Adapters.adapter) :
  (Adapters.selected_adapter l = None <-> l = [])
  /\ forall a,
      Adapters.selected_adapter l = Some a ->
      In a l
      /\ (Adapters.is_loopback a = true
          <-> forallb Adapters.is_loopback l = true)
      /\ (Adapters.is_loopback a = false ->
          exists pre post,
            l = pre ++ a :: post
            /\ forallb Adapters.is_loopback pre = true).
Proof.
  unfold Adapters.selected_adapter, Adapters.find_adapters.
  pose proof (first_valid_adapter l) as Hf.
  destruct l as [|x l]; [split; [tauto|discriminate]|].
  destruct (filter (fun a => negb (Adapters.is_loopback a)) (x :: l))
    as [|v r] eqn:Hfil.
  - split; [split; discriminate|].
    intros a E. inversion E; subst a.
    split; [left; reflexivity|].
    assert (Hx : Adapters.is_loopback x = true).
    { cbn [forallb] in Hf. apply andb_prop in Hf. tauto. }
    split; [tauto|]. intros Hn. congruence.
  - split; [split; discriminate|].
    intros a E. inversion E; subst a.
    destruct Hf as (Hv & pre & post & Hl & Hpre).
    split; [rewrite Hl; apply in_or_app; right; left; reflexivity|].
    split.
    + split; [congruence|]. intros Hall.
      rewrite Hl, forallb_app in Hall. apply andb_prop in Hall.
      destruct Hall as [_ Hall]. cbn [forallb] in Hall.
      apply andb_prop in Hall. tauto.
    + intros _. exists pre, post. auto.
Qed.

(** ** [configure_cst_mode] *)

Lemma cst_order_ok_app (a b : list Net.call) :
  forall p,
    Net.cst_order_ok p (a ++ b)
    = Net.cst_order_ok p a && Net.cst_order_ok (progress_of p a) b.
Proof.
  induction a as [|c a IH]; intros p; [reflexivity|].
  cbn [app Net.cst_order_ok]. unfold progress_of. cbn [fold_left].
  fold (progress_of (Net.progress_after c p) a).
  rewrite IH. now rewrite andb_assoc.
Qed.

Lemma progress_of_app (a b : list Net.call) (p : nat -> nat) :
  progress_of p (a ++ b) = progress_of (progress_of p a) b.
Proof. unfold progress_of. apply fold_left_app. Qed.

Lemma sdo_writes_app (a b : list Net.call) :
  Net.sdo_writes (a ++ b) = Net.sdo_writes a ++ Net.sdo_writes b.
Proof. unfold Net.sdo_writes. apply flat_map_app. Qed.

Section CstMode.
Context {W : Type} (M : Net.master W).

(** What configuring one slave adds to the trace. *)
Lemma configure_cst_slave_trace (n : nat) (s : Net.st) (i : nat)
      (p : nat -> nat) :
  (i < n)%nat -> p i = 0%nat ->
  exists l,
    Net.log (Net.configure_cst_slave M s i) = Net.log s ++ l
    /\ Net.cst_order_ok p l = true
    /\ (forall j, j <> i -> progress_of p l j = p j)
    /\ (exists ok, In (Net.CSdoWrite i 0x6040 0 [0; 0] ok) l)
    /\ Forall (cst_write_allowed n) (Net.sdo_writes l).
Proof.
  intros Hi Hp.
  assert (Hplan : forall x, In x cst_plan ->
                            cst_write_allowed n (i, fst (fst x), snd (fst x),
                                                 snd x)).
  { intros [[idx sub] data] Hx. split; assumption. }
  unfold Net.configure_cst_slave, Net.do_sdo_write, Net.do_sdo_read,
    Net.do_sleep, Net.bytes_of, Net.log.
  cbn [PyBytes.le_digits fst snd].
  change (0 mod 256) with 0. change (0 / 256) with 0.
  change (10 mod 256) with 10. change (100 mod 256) with 100.
  change (100 / 256) with 0.
  repeat match goal with
         | |- context [Net.sdo_write M ?a ?b ?c ?d ?w] =>
           destruct (Net.sdo_write M a b c d w) as [? []]; cbn [fst snd]
         | |- context [Net.sdo_read M ?a ?b ?c ?d ?w] =>
           destruct (Net.sdo_read M a b c d w) as [? ?]; cbn [fst snd]
         end;
    rewrite <- ?app_assoc; cbn [app];
    (eexists; split; [reflexivity|]);
    (split; [cbn; rewrite ?Nat.eqb_refl, ?Hp; reflexivity|]);
    (split; [intros j Hj; unfold progress_of; cbn;
             apply Nat.eqb_neq in Hj; rewrite ?Hj; reflexivity|]);
    (split; [eexists; cbn; eauto|]);
    cbn;
    repeat (apply Forall_cons;
            [split; [exact Hi|unfold cst_plan; cbn; auto 6]|]);
    apply Forall_nil.
Qed.

Lemma configure_cst_all (n k : nat) :
  forall (a : nat) (s : Net.st) (p : nat -> nat),
    (a + k <= n)%nat ->
    (forall j, (a <= j)%nat -> p j = 0%nat) ->
    exists l,
      Net.log (fold_left (Net.configure_cst_slave M) (seq a k) s)
      = Net.log s ++ l
      /\ Net.cst_order_ok p l = true
      /\ (forall j, (a <= j < a + k)%nat ->
            exists ok, In (Net.CSdoWrite j 0x6040 0 [0; 0] ok) l)
      /\ Forall (cst_write_allowed n) (Net.sdo_writes l).
Proof.
  induction k as [|k IH]; intros a s p Hak Hp; cbn [seq fold_left].
  - exists []. rewrite app_nil_r. split; [reflexivity|].
    split; [reflexivity|]. split; [intros; lia|constructor].
  - destruct (configure_cst_slave_trace n s a p ltac:(lia) (Hp a (le_n a)))
      as (l1 & Hl1 & Hok1 & Hkeep & Hfirst & Hall1).
    destruct (IH (S a) (Net.configure_cst_slave M s a) (progress_of p l1)
                 ltac:(lia))
      as (l2 & Hl2 & Hok2 & Hatt & Hall2).
    { intros j Hj. rewrite Hkeep by lia. apply Hp. lia. }
    exists (l1 ++ l2). split; [rewrite Hl2, Hl1, app_assoc; reflexivity|].
    split; [rewrite cst_order_ok_app, Hok1, Hok2; reflexivity|].
    split.
    + intros j Hj. destruct (Nat.eq_dec j a) as [->|Hne].
      * destruct Hfirst as [ok Hin]. exists ok.
        apply in_or_app. left. exact Hin.
      * destruct (Hatt j ltac:(lia)) as [ok Hin]. exists ok.
        apply in_or_app. right. exact Hin.
    + rewrite sdo_writes_app. apply Forall_app. auto.
Qed.

End CstMode.

(** X20.  [configure_cst_mode], on any network: it attempts the first
    write (control word 0, which disables the drive) on every slave,
    whatever failed on the slaves before; on each slave it writes the mode
    10 only after that write returned, the torque limit 100 only after the
    mode, and the torque slope and the read-back of the mode only after
    the torque limit; and it writes nothing but these four values. *)
Theorem configure_cst_mode_order {W : Type} (M : Net.master W) (w : W) :
  let l := Net.log (Net.configure_cst_mode M (w, [])) in
  Net.cst_order_ok (fun _ => 0%nat) l = true
  /\ (forall j, (j < Net.n_slaves M w)%nat ->
        exists ok, In (Net.CSdoWrite j 0x6040 0 [0; 0] ok) l)
  /\ Forall (cst_write_allowed (Net.n_slaves M w)) (Net.sdo_writes l).
Proof.
  cbv zeta. unfold Net.configure_cst_mode. cbn [fst].
  destruct (configure_cst_all M (Net.n_slaves M w) (Net.n_slaves M w) 0
                              (w, []) (fun _ => 0%nat) ltac:(lia)
                              ltac:(reflexivity))
    as (l & Hl & Hok & Hatt & Hall).
  rewrite Hl. cbn [Net.log snd app].
  split; [exact Hok|]. split; [|exact Hall].
  intros j Hj. apply Hatt. lia.
Qed.

Example configure_cst_mode_refused :
  Net.sdo_writes
    (Net.log (Net.configure_cst_mode
                (plain_master 2 (fun i idx => (i =? 0)%nat && (idx =? 0x6060)))
                (tt, [])))
  = [ (0%nat, 0x6040, 0, [0; 0]); (0%nat, 0x6060, 0, [10]);
      (1%nat, 0x6040, 0, [0; 0]); (1%nat, 0x6060, 0, [10]);
      (1%nat, 0x6072, 0, [100; 0]); (1%nat, 0x6087, 0, [100; 0]) ].
Proof. reflexivity. Qed.

(** ** [configure_slaves] *)

Lemma extends_refl {W : Type} (Pr : Net.call -> Prop) (s : @Net.st W) :
  extends Pr s s.
Proof. exists []. rewrite app_nil_r. split; [reflexivity|constructor]. Qed.

Lemma extends_trans {W : Type} (Pr : Net.call -> Prop)
      (s1 s2 s3 : @Net.st W) :
  extends Pr s1 s2 -> extends Pr s2 s3 -> extends Pr s1 s3.
Proof.
  intros (l1 & H1 & F1) (l2 & H2 & F2). exists (l1 ++ l2).
  split; [rewrite H2, H1, app_assoc; reflexivity|].
  apply Forall_app. auto.
Qed.

Lemma extends_one {W : Type} (Pr : Net.call -> Prop) (s : @Net.st W)
      (w : W) (c : Net.call) :
  Pr c -> extends Pr s (w, snd s ++ [c]).
Proof.
  intros H. exists [c]. split; [reflexivity|]. constructor; [exact H|constructor].
Qed.

Lemma extends_fold {W A : Type} (Pr : Net.call -> Prop)
      (f : @Net.st W -> A -> @Net.st W) (l : list A) :
  (forall s a, extends Pr s (f s a)) ->
  forall s, extends Pr s (fold_left f l s).
Proof.
  intros Hf. induction l as [|a l IH]; intros s; cbn [fold_left].
  - apply extends_refl.
  - eapply extends_trans; [apply Hf|apply IH].
Qed.

Section SlavesFacts.
Context {W : Type} (M : Net.master W).

Ltac quiet_call := repeat split; reflexivity.

Lemma read_state_quiet (s : Net.st) : extends quiet s (Net.do_read_state M s).
Proof. apply extends_one. quiet_call. Qed.

Lemma sleep_quiet (q : Q) (s : Net.st) : extends quiet s (Net.do_sleep M q s).
Proof. apply extends_one. quiet_call. Qed.

Lemma set_slave_quiet (i : nat) (v : Z) (s : Net.st) :
  extends quiet s (Net.do_set_slave_state M i v s).
Proof. apply extends_one. quiet_call. Qed.

Lemma write_state_quiet (s : Net.st) :
  extends quiet s (fst (Net.do_write_state M s)).
Proof.
  unfold Net.do_write_state.
  destruct (Net.write_state M (fst s)); apply extends_one; quiet_call.
Qed.

(** A request for PREOP on one slave, with what follows it. *)
Lemma request_preop_quiet (i : nat) (s : Net.st) :
  extends quiet s
    (fst (Net.do_write_state M (Net.do_set_slave_state M i PREOP_STATE s)))
  /\ extends quiet s
       (Net.do_read_state M
          (Net.do_sleep M (2 # 10)
             (fst (Net.do_write_state
                     M (Net.do_set_slave_state M i PREOP_STATE s))))).
Proof.
  assert (H : extends quiet s
                (fst (Net.do_write_state
                        M (Net.do_set_slave_state M i PREOP_STATE s)))).
  { eapply extends_trans; [apply set_slave_quiet|apply write_state_quiet]. }
  split; [exact H|].
  eapply extends_trans; [exact H|].
  eapply extends_trans; [apply sleep_quiet|apply read_state_quiet].
Qed.

Lemma preop_gate_quiet (acc : Net.st * bool) (i : nat) :
  extends quiet (fst acc) (fst (Bringup.preop_gate_slave M acc i)).
Proof.
  destruct acc as [s b]. unfold Bringup.preop_gate_slave. cbn [fst].
  destruct (negb _); [|apply extends_refl].
  destruct (request_preop_quiet i s) as [H1 H2].
  destruct (Net.do_write_state M _) as [s2 ok]. cbn [fst] in H1, H2.
  destruct ok; [|exact H1].
  destruct (_ =? _); exact H2.
Qed.

Lemma preop_gate_all_quiet (l : list nat) :
  forall acc,
    extends quiet (fst acc) (fst (fold_left (Bringup.preop_gate_slave M) l acc)).
Proof.
  induction l as [|i l IH]; intros acc; cbn [fold_left].
  - apply extends_refl.
  - eapply extends_trans; [apply preop_gate_quiet|apply IH].
Qed.

Lemma back_to_preop_quiet (s : Net.st) (i : nat) :
  extends quiet s (Bringup.back_to_preop M s i).
Proof.
  unfold Bringup.back_to_preop.
  destruct (negb _); [|apply extends_refl].
  destruct (request_preop_quiet i s) as [H1 H2].
  destruct (Net.do_write_state M _) as [s2 ok]. cbn [fst] in H1, H2.
  destruct ok; assumption.
Qed.

Lemma restore_preop_quiet (l : list nat) :
  forall s, extends quiet s (Bringup.restore_preop M l s).
Proof.
  induction l as [|i l IH]; intros s; cbn [Bringup.restore_preop].
  - apply extends_refl.
  - destruct (negb _); [|apply IH].
    destruct (request_preop_quiet i s) as [H1 H2].
    destruct (Net.do_write_state M _) as [s2 ok]. cbn [fst] in H1, H2.
    destruct ok; [|exact H1].
    eapply extends_trans; [exact H2|apply IH].
Qed.

Lemma abandon_mapping_quiet (s : Net.st) : extends quiet s (Bringup.abandon_mapping M s).
Proof.
  unfold Bringup.abandon_mapping.
  eapply extends_trans; [apply read_state_quiet|apply restore_preop_quiet].
Qed.

Lemma clear_assignment_clearing (s : Net.st) (i : nat) :
  exists l,
    Net.log (Bringup.clear_assignment M s i) = Net.log s ++ l
    /\ Forall clearing l
    /\ exists ok, In (Net.CSdoWrite i 0x1C12 0 [0; 0] ok) l.
Proof.
  assert (Hc : forall idx ok, idx = 0x1C12 \/ idx = 0x1C13 ->
                              clearing (Net.CSdoWrite i idx 0 [0; 0] ok)).
  { intros idx ok Hidx. split; [reflexivity|]. split; [reflexivity|].
    cbn. constructor; [|constructor]. cbn. auto. }
  assert (Hs : forall q, clearing (Net.CSleep q)).
  { intros q. split; [reflexivity|]. split; [reflexivity|]. constructor. }
  unfold Bringup.clear_assignment.
  change (Net.bytes_of 0 2) with [0; 0].
  unfold Net.do_sdo_write, Net.do_sleep, Net.log.
  destruct (Net.sdo_write M i 0x1C12 0 [0; 0] (fst s)) as [w1 ok1].
  cbn [fst snd].
  destruct ok1.
  - destruct (Net.sdo_write M i 0x1C13 0 [0; 0] w1) as [w2 ok2].
    cbn [fst snd].
    destruct ok2; cbn [fst snd]; rewrite <- ?app_assoc; cbn [app];
      eexists; (split; [reflexivity|]);
      (split; [repeat (apply Forall_cons; [auto|]); apply Forall_nil|]);
      exists true; cbn; auto.
  - eexists. split; [reflexivity|].
    split; [repeat (apply Forall_cons; [auto|]); apply Forall_nil|].
    exists false. cbn. auto.
Qed.

Lemma clear_all (k : nat) :
  forall a s,
    exists l,
      Net.log (fold_left (Bringup.clear_assignment M) (seq a k) s)
      = Net.log s ++ l
      /\ Forall clearing l
      /\ forall j, (a <= j < a + k)%nat ->
           exists ok, In (Net.CSdoWrite j 0x1C12 0 [0; 0] ok) l.
Proof.
  induction k as [|k IH]; intros a s; cbn [seq fold_left].
  - exists []. rewrite app_nil_r. split; [reflexivity|].
    split; [constructor|intros; lia].
  - destruct (clear_assignment_clearing s a) as (l1 & H1 & F1 & ok & Hin).
    destruct (IH (S a) (Bringup.clear_assignment M s a))
      as (l2 & H2 & F2 & Hall).
    exists (l1 ++ l2). split; [rewrite H2, H1, app_assoc; reflexivity|].
    split; [apply Forall_app; auto|].
    intros j Hj. destruct (Nat.eq_dec j a) as [->|Hne].
    + exists ok. apply in_or_app. left. exact Hin.
    + destruct (Hall j) as [ok' Hin']; [lia|].
      exists ok'. apply in_or_app. right. exact Hin'.
Qed.

End SlavesFacts.

Section SlavesShape.
Context {W : Type} (M : Net.master W).

Lemma default_mapping_shape (s : Net.st) (n : nat) :
  (n <= Net.n_slaves M (fst s))%nat ->
  exists lc rest,
    Net.log (fst (Bringup.default_mapping M s)) = Net.log s ++ lc ++ rest
    /\ Forall clearing lc
    /\ (forall j, (j < n)%nat ->
          exists ok, In (Net.CSdoWrite j 0x1C12 0 [0; 0] ok) lc)
    /\ fallback_shape rest
         (if snd (Bringup.default_mapping M s)
          then Net.Returned true else Net.Raised).
Proof.
  intros Hn. unfold Bringup.default_mapping.
  destruct (clear_all M (Net.n_slaves M (fst s)) 0 s)
    as (lc & Hlc & Fc & Hall).
  set (sc := fold_left (Bringup.clear_assignment M)
                       (seq 0 (Net.n_slaves M (fst s))) s) in *.
  assert (Hatt : forall j, (j < n)%nat ->
                   exists ok, In (Net.CSdoWrite j 0x1C12 0 [0; 0] ok) lc).
  { intros j Hj. apply Hall. lia. }
  exists lc.
  unfold Net.do_config_init.
  destruct (Net.config_init M (fst sc)) as [w2 r2]. cbn [fst snd].
  destruct r2 as [k|].
  - pose proof (sleep_quiet M (2 # 10)
                  (w2, snd sc ++ [Net.CConfigInit (Some k)])) as Hq1.
    set (s2 := (w2, snd sc ++ [Net.CConfigInit (Some k)])) in *.
    pose proof (read_state_quiet M (Net.do_sleep M (2 # 10) s2)) as Hq2.
    set (s3 := Net.do_read_state M (Net.do_sleep M (2 # 10) s2)) in *.
    pose proof (extends_fold quiet (Bringup.back_to_preop M)
                             (seq 0 (Net.n_slaves M (fst s3)))
                             (back_to_preop_quiet M) s3) as Hq3.
    set (s4 := fold_left (Bringup.back_to_preop M)
                         (seq 0 (Net.n_slaves M (fst s3))) s3) in *.
    destruct (extends_trans quiet _ _ _
                (extends_trans quiet _ _ _ Hq1 Hq2) Hq3)
      as (lq & Hlq & Fq).
    unfold Net.do_config_map.
    destruct (Net.config_map M (fst s4)) as [w5 r5]. cbn [fst snd].
    destruct r5 as [sz|]; cbn [fst snd].
    + exists ([Net.CConfigInit (Some k)] ++ lq ++ [Net.CConfigMap (Some sz)]).
      split.
      * unfold Net.log in *. cbn [snd]. rewrite Hlq. subst s2. cbn [snd].
        rewrite Hlc. rewrite <- !app_assoc. reflexivity.
      * split; [exact Fc|]. split; [exact Hatt|].
        right. left. exists k, lq, sz. auto.
    + destruct (abandon_mapping_quiet M (w5, snd s4 ++ [Net.CConfigMap None]))
        as (lq' & Hlq' & Fq').
      exists ([Net.CConfigInit (Some k)] ++ lq ++ [Net.CConfigMap None]
              ++ lq').
      split.
      * rewrite Hlq'. unfold Net.log in *. cbn [snd]. rewrite Hlq.
        subst s2. cbn [snd]. rewrite Hlc. rewrite <- !app_assoc.
        reflexivity.
      * split; [exact Fc|]. split; [exact Hatt|].
        right. right. exists k, lq, lq'. auto.
  - destruct (abandon_mapping_quiet M (w2, snd sc ++ [Net.CConfigInit None]))
      as (lq & Hlq & Fq).
    exists ([Net.CConfigInit None] ++ lq). cbn [fst snd]. split.
    + rewrite Hlq. unfold Net.log in *. cbn [snd]. rewrite Hlc.
      rewrite <- !app_assoc. reflexivity.
    + split; [exact Fc|]. split; [exact Hatt|].
      left. exists lq. auto.
Qed.

Lemma configure_slaves_shape_aux (w : W) (n : nat) :
  (forall w', (n <= Net.n_slaves M w')%nat) ->
  slaves_shape n
    (Net.log (fst (Bringup.configure_slaves M (w, []))))
    (snd (Bringup.configure_slaves M (w, []))).
Proof.
  intros Hn. unfold Bringup.configure_slaves.
  set (s0 := Net.do_read_state M
               (Net.do_read_state M
                  (Net.do_sleep M 1 (Net.do_manual_state_change (w, []))))).
  assert (H0 : extends quiet (w, []) s0).
  { exists [Net.CManualStateChange; Net.CSleep 1; Net.CReadState;
            Net.CReadState].
    split; [reflexivity|].
    repeat (apply Forall_cons; [repeat split; reflexivity|]).
    apply Forall_nil. }
  pose proof (preop_gate_all_quiet M (seq 0 (Net.n_slaves M (fst s0)))
                                   (s0, true)) as H1.
  destruct (fold_left (Bringup.preop_gate_slave M) _ (s0, true))
    as [s1 all_preop].
  cbn [fst] in H1.
  destruct (extends_trans quiet _ _ _ H0 H1) as (l0 & Hl0 & F0).
  cbn [Net.log snd app] in Hl0.
  exists l0. split; [exact F0|].
  destruct all_preop; cbn [negb].
  - unfold Net.do_config_map.
    destruct (Net.config_map M (fst s1)) as [w2 r]. cbn [fst snd].
    destruct r as [sz|].
    + right. left. exists sz. cbn [fst snd Net.log].
      unfold Net.log in Hl0. rewrite Hl0. auto.
    + right. right.
      destruct (default_mapping_shape (w2, snd s1 ++ [Net.CConfigMap None]) n)
        as (lc & rest & Hlog & Fc & Hatt & Hsh).
      { apply Hn. }
      exists lc, rest.
      destruct (Bringup.default_mapping M _) as [s3 b].
      cbn [fst snd] in *.
      split.
      { destruct b; cbn [fst snd]; rewrite Hlog; unfold Net.log in *;
          cbn [snd]; rewrite Hl0, <- !app_assoc; reflexivity. }
      split; [exact Fc|]. split; [exact Hatt|].
      destruct b; exact Hsh.
  - left. cbn [fst snd]. auto.
Qed.

Lemma count_app (f : Net.call -> bool) (a b : list Net.call) :
  Bringup.count f (a ++ b) = (Bringup.count f a + Bringup.count f b)%nat.
Proof. unfold Bringup.count. rewrite filter_app, length_app. reflexivity. Qed.

Lemma sdo_writes_cons (c : Net.call) (l : list Net.call) :
  Net.sdo_writes (c :: l) = Net.sdo_writes [c] ++ Net.sdo_writes l.
Proof. unfold Net.sdo_writes. cbn [flat_map]. rewrite app_nil_r. reflexivity. Qed.

Lemma clearing_counts (l : list Net.call) :
  Forall clearing l ->
  Bringup.count Bringup.is_config_map l = 0%nat
  /\ Bringup.count Bringup.is_config_init l = 0%nat
  /\ Forall Bringup.is_clear (Net.sdo_writes l).
Proof.
  induction 1 as [|c l (Hm & Hi & Hw) _ (IHm & IHi & IHw)].
  - repeat split; constructor.
  - unfold Bringup.count in *. cbn [filter]. rewrite Hm, Hi.
    split; [exact IHm|]. split; [exact IHi|].
    rewrite sdo_writes_cons. apply Forall_app. auto.
Qed.

Lemma quiet_counts (l : list Net.call) :
  Forall quiet l ->
  Bringup.count Bringup.is_config_map l = 0%nat
  /\ Bringup.count Bringup.is_config_init l = 0%nat
  /\ Net.sdo_writes l = [].
Proof.
  induction 1 as [|c l (Hm & Hi & Hw) _ (IHm & IHi & IHw)].
  - repeat split; reflexivity.
  - unfold Bringup.count in *. cbn [filter]. rewrite Hm, Hi.
    split; [exact IHm|]. split; [exact IHi|].
    rewrite sdo_writes_cons, IHw, app_nil_r.
    destruct c; try reflexivity; discriminate Hw.
Qed.

(** A trace that ends with a call that is not quiet has no quiet tail. *)
Lemma quiet_tail_nil (l' a lq : list Net.call) (c : Net.call) :
  l' ++ [c] = a ++ lq -> Forall quiet lq -> ~ quiet c -> lq = [].
Proof.
  intros He Fq Hc. destruct lq as [|x lq0] using rev_ind; [reflexivity|].
  exfalso. rewrite app_assoc in He. apply app_inj_tail in He.
  destruct He as [_ <-]. apply Forall_app in Fq. destruct Fq as [_ Fx].
  inversion Fx; contradiction.
Qed.

Lemma config_map_not_quiet (r : option Z) : ~ quiet (Net.CConfigMap r).
Proof. intros (H & _). discriminate H. Qed.

Lemma shape_counts (n : nat) (l : list Net.call) (out : Net.outcome) :
  slaves_shape n l out ->
  (Bringup.count Bringup.is_config_init l
   <= Bringup.count Bringup.is_config_map l <= 2)%nat
  /\ (Bringup.count Bringup.is_config_init l <= 1)%nat
  /\ Forall Bringup.is_clear (Net.sdo_writes l)
  /\ (out = Net.Returned false ->
      Bringup.count Bringup.is_config_map l = 0%nat
      /\ Net.sdo_writes l = []).
Proof.
  intros (l0 & F0 & H).
  destruct (quiet_counts l0 F0) as (M0 & I0 & W0).
  destruct H as [[-> ->]|[(sz & -> & ->)|(lc & rest & -> & Fc & _ & Hr)]].
  - rewrite M0, I0, W0. repeat split; try lia; constructor.
  - rewrite !count_app, M0, I0. unfold Net.sdo_writes in *.
    rewrite flat_map_app, W0. cbn.
    repeat split; try lia; try constructor; discriminate.
  - destruct (clearing_counts lc Fc) as (Mc & Ic & Wc).
    unfold Net.sdo_writes in *.
    destruct Hr as [(lq & -> & Fq & ->)
                   |[(k & lq & sz & -> & Fq & ->)
                    |(k & lq & lq' & -> & Fq & Fq' & ->)]];
      destruct (quiet_counts lq Fq) as (Mq & Iq & Wq);
      try destruct (quiet_counts lq' Fq') as (Mq' & Iq' & Wq');
      unfold Net.sdo_writes in *;
      rewrite !count_app, ?M0, ?I0, ?Mc, ?Ic, ?Mq, ?Iq, ?Mq', ?Iq';
      rewrite !flat_map_app, ?W0, ?Wq, ?Wq'; cbn [flat_map app];
      rewrite ?app_nil_r;
      (split; [cbn; lia|]); (split; [cbn; lia|]);
      (split; [exact Wc|discriminate]).
Qed.

Lemma shape_true_iff (n : nat) (l : list Net.call) (out : Net.outcome) :
  slaves_shape n l out ->
  (out = Net.Returned true <->
   exists l' sz, l = l' ++ [Net.CConfigMap (Some sz)]).
Proof.
  intros (l0 & F0 & H).
  destruct H as [[-> ->]|[(sz & -> & ->)|(lc & rest & -> & Fc & _ & Hr)]].
  - split; [discriminate|]. intros (l' & sz & He). exfalso.
    symmetry in He.
    pose proof (quiet_tail_nil l' [] l0 _ He F0 (config_map_not_quiet _))
      as Hnil.
    rewrite Hnil in He. destruct l'; discriminate He.
  - split; [|reflexivity]. intros _. exists l0, sz. reflexivity.
  - destruct Hr as [(lq & -> & Fq & ->)
                   |[(k & lq & sz & -> & Fq & ->)
                    |(k & lq & lq' & -> & Fq & Fq' & ->)]].
    + split; [discriminate|]. intros (l' & sz & He). exfalso.
      symmetry in He.
      assert (He' : l' ++ [Net.CConfigMap (Some sz)]
                    = (l0 ++ [Net.CConfigMap None] ++ lc
                          ++ [Net.CConfigInit None]) ++ lq).
      { rewrite He, <- !app_assoc. reflexivity. }
      pose proof (quiet_tail_nil _ _ _ _ He' Fq (config_map_not_quiet _)).
      subst lq. rewrite app_nil_r in He'. rewrite !app_assoc in He'.
      apply app_inj_tail in He'. destruct He' as [_ He']. discriminate He'.
    + split; [intros _|reflexivity].
      exists (l0 ++ [Net.CConfigMap None] ++ lc
                 ++ [Net.CConfigInit (Some k)] ++ lq), sz.
      rewrite <- !app_assoc. reflexivity.
    + split; [discriminate|]. intros (l' & sz & He). exfalso.
      symmetry in He.
      assert (He' : l' ++ [Net.CConfigMap (Some sz)]
                    = (l0 ++ [Net.CConfigMap None] ++ lc
                          ++ [Net.CConfigInit (Some k)] ++ lq
                          ++ [Net.CConfigMap None]) ++ lq').
      { rewrite He, <- !app_assoc. reflexivity. }
      pose proof (quiet_tail_nil _ _ _ _ He' Fq' (config_map_not_quiet _)).
      subst lq'. rewrite app_nil_r in He'. rewrite !app_assoc in He'.
      apply app_inj_tail in He'. destruct He' as [_ He']. discriminate He'.
Qed.

(** X21. [configure_slaves] calls [config_map] at most twice and
    [config_init] at most once, and never [config_init] more often than
    [config_map]; every object it writes is a zero written to subindex 0
    of 0x1C12 or 0x1C13; it returns [True] exactly when its last call on
    the master is a [config_map] that returned; and when it returns
    [False] it has neither called [config_map] nor written an object. *)
Theorem configure_slaves_mapping_attempts (w : W) :
  let r := Bringup.configure_slaves M (w, []) in
  let l := Net.log (fst r) in
  (Bringup.count Bringup.is_config_init l
   <= Bringup.count Bringup.is_config_map l <= 2)%nat
  /\ (Bringup.count Bringup.is_config_init l <= 1)%nat
  /\ Forall Bringup.is_clear (Net.sdo_writes l)
  /\ (snd r = Net.Returned true <->
      exists l' sz, l = l' ++ [Net.CConfigMap (Some sz)])
  /\ (snd r = Net.Returned false ->
      Bringup.count Bringup.is_config_map l = 0%nat
      /\ Net.sdo_writes l = []).
Proof.
  intros r l.
  assert (Hs : slaves_shape 0 l (snd r)).
  { apply configure_slaves_shape_aux. intros; lia. }
  destruct (shape_counts _ _ _ Hs) as (H1 & H2 & H3 & H4).
  pose proof (shape_true_iff _ _ _ Hs) as H5.
  split; [exact H1|]. split; [exact H2|]. split; [exact H3|].
  split; [exact H5|exact H4].
Qed.

(** X22. On a bus whose number of slaves is constant, the calls of
    [configure_slaves] have one of five shapes: only calls that neither
    map, scan nor write, with [False] returned; those followed by a
    [config_map] that returns, with [True] returned; or those, a
    [config_map] that raises, clearing writes among which one to 0x1C12
    for every slave, and then a [config_init] that raises (the exception
    is passed on), or one that returns followed by a second [config_map],
    whose return gives [True] and whose exception is passed on. *)
Theorem configure_slaves_trace_shape (w : W) (n : nat) :
  (forall w', Net.n_slaves M w' = n) ->
  slaves_shape n
    (Net.log (fst (Bringup.configure_slaves M (w, []))))
    (snd (Bringup.configure_slaves M (w, []))).
Proof.
  intros Hn. apply configure_slaves_shape_aux.
  intros w'. rewrite Hn. lia.
Qed.

End SlavesShape.

Lemma configure_slaves_trace_shape_witness :
  slaves_shape 2
    (Net.log (fst (Bringup.configure_slaves
                     (plain_master 2 (fun _ _ => false)) (tt, []))))
    (snd (Bringup.configure_slaves
            (plain_master 2 (fun _ _ => false)) (tt, []))).
Proof.
  apply (configure_slaves_trace_shape (plain_master 2 (fun _ _ => false))
                                      tt 2).
  intros w'. reflexivity.
Defined.

(** ** [enter_safeop_state] *)

Section SafeopFacts.
Context {W : Type} (M : Net.master W).

Lemma sync_slave_log (ns : Z) (s : Net.st) (a : nat) :
  exists ok,
    Net.log (Bringup.sync_slave M ns s a)
    = Net.log s ++ [Net.CDcSync a ns 0 ok].
Proof.
  unfold Bringup.sync_slave, Net.do_dc_sync.
  destruct (Net.dc_sync M a ns 0 (fst s)) as [w1 ok].
  exists ok. reflexivity.
Qed.

Lemma sync_all (ns : Z) (k : nat) :
  forall a s,
    exists oks,
      Net.log (fold_left (Bringup.sync_slave M ns) (seq a k) s)
      = Net.log s ++ sync_calls ns a oks
      /\ length oks = k.
Proof.
  induction k as [|k IH]; intros a s; cbn [seq fold_left].
  - exists []. cbn. rewrite app_nil_r. auto.
  - destruct (IH (S a) (Bringup.sync_slave M ns s a)) as (oks & Hl & Hk).
    destruct (sync_slave_log ns s a) as (ok & H1).
    exists (ok :: oks). split; [|cbn; lia].
    rewrite Hl, H1. cbn [sync_calls]. rewrite <- app_assoc. reflexivity.
Qed.

Lemma sdo_read_reading (i : nat) (idx sub size : Z) (s : Net.st) :
  extends reading s (fst (Net.do_sdo_read M i idx sub size s)).
Proof.
  unfold Net.do_sdo_read.
  destruct (Net.sdo_read M i idx sub size (fst s)) as [w r].
  apply extends_one. exact I.
Qed.

Lemma read_state_reading (s : Net.st) :
  extends reading s (Net.do_read_state M s).
Proof. apply extends_one. exact I. Qed.

Lemma read_dc_config_reading (acc : Net.st * bool) (i : nat) :
  extends reading (fst acc) (fst (Bringup.read_dc_config M acc i)).
Proof.
  destruct acc as [s b]. unfold Bringup.read_dc_config. cbn [fst].
  pose proof (sdo_read_reading i 0x1C32 0x01 2 s) as H1.
  destruct (Net.do_sdo_read M i 0x1C32 0x01 2 s) as [s1 r1].
  cbn [fst] in H1. destruct r1 as [d|]; [|exact H1].
  destruct (PyBytes.truthy d); [|exact H1].
  pose proof (sdo_read_reading i 0x1C32 0x02 4 s1) as H2.
  destruct (Net.do_sdo_read M i 0x1C32 0x02 4 s1) as [s2 r2].
  cbn [fst] in H2.
  destruct r2; cbn [fst]; eapply extends_trans; eassumption.
Qed.

Lemma read_dc_config_all_reading (l : list nat) :
  forall acc,
    extends reading (fst acc)
            (fst (fold_left (Bringup.read_dc_config M) l acc)).
Proof.
  induction l as [|i l IH]; intros acc; cbn [fold_left].
  - apply extends_refl.
  - eapply extends_trans; [apply read_dc_config_reading|apply IH].
Qed.

Lemma slave_state_machine_info_reading (s : Net.st) (i : nat) :
  extends reading s (Bringup.slave_state_machine_info M s i).
Proof.
  unfold Bringup.slave_state_machine_info.
  repeat (eapply extends_trans; [|apply sdo_read_reading]).
  apply read_state_reading.
Qed.

(** X23.  [enter_safeop_state] either stops after reading the states and
    returns [False], or configures the clocks (one [config_dc], a pause
    of 0.2 s, one [dc_sync] per slave with the value of
    [ETHERCAT_CYCLE_TIME_NS], the integer part of the float product of
    the period by 1000000, and shift 0) and only then requests SAFEOP
    (code 4).  If [write_state] raises nothing follows; otherwise one
    [state_check] with a timeout of 200000 follows, whatever the clock
    calls answered, the result is [True] exactly when it answers SAFEOP,
    and the rest of the calls only read. *)
Theorem enter_safeop_state_trace (P : PyFloat.float) (ns : Z) (w : W) :
  Bringup.cycle_time_ns P = Some ns ->
  let r := Bringup.enter_safeop_state M ns (w, []) in
  let l := Net.log (fst (fst r)) in
  let out := snd (fst r) in
  (l = [Net.CReadState] /\ out = Net.Returned false)
  \/ exists dc oks ok post,
      l = [Net.CReadState; Net.CConfigDc dc; Net.CSleep (2 # 10)]
            ++ sync_calls ns 0 oks
            ++ [Net.CSetMasterState 4; Net.CWriteState ok]
            ++ post
      /\ (forall n, (forall w', Net.n_slaves M w' = n) -> length oks = n)
      /\ (if ok
          then exists res tail,
              post = Net.CStateCheck 4 200000 res :: tail
              /\ Forall reading tail
              /\ out = Net.Returned (res =? 4)
          else post = [] /\ out = Net.Raised).
Proof.
  intros _ r l out. subst r l out. change 4 with SAFEOP_STATE. unfold Bringup.enter_safeop_state.
  set (s0 := Net.do_read_state M (w, [])).
  destruct (negb (forallb _ _)).
  - left. split; reflexivity.
  - right.
    unfold Net.do_config_dc.
    destruct (Net.config_dc M (fst s0)) as [w1 dc]. cbn [fst snd].
    set (s1 := Net.do_sleep M (2 # 10) (w1, snd s0 ++ [Net.CConfigDc dc])).
    destruct (sync_all ns (Net.n_slaves M (fst s1)) 0 s1) as (oks & Hl & Hk).
    set (s2 := fold_left (Bringup.sync_slave M ns)
                         (seq 0 (Net.n_slaves M (fst s1))) s1) in *.
    assert (Hl2 : snd s2
                  = [Net.CReadState; Net.CConfigDc dc; Net.CSleep (2 # 10)]
                      ++ sync_calls ns 0 oks).
    { unfold Net.log in Hl. rewrite Hl. reflexivity. }
    exists dc, oks.
    unfold Net.do_write_state, Net.do_set_master_state. cbn [fst snd].
    destruct (Net.write_state M _) as [w3|].
    + exists true.
      unfold Net.do_state_check. cbn [fst snd].
      destruct (Net.state_check M SAFEOP_STATE (4 * 50000) w3) as [w4 res].
      set (s4 := (w4, ((snd s2 ++ [Net.CSetMasterState SAFEOP_STATE])
                         ++ [Net.CWriteState true])
                        ++ [Net.CStateCheck SAFEOP_STATE (4 * 50000) res])).
      assert (Hl4 : Net.log s4
                    = [Net.CReadState; Net.CConfigDc dc; Net.CSleep (2 # 10)]
                        ++ sync_calls ns 0 oks
                        ++ [Net.CSetMasterState SAFEOP_STATE;
                            Net.CWriteState true]
                        ++ [Net.CStateCheck SAFEOP_STATE 200000 res]).
      { unfold Net.log, s4. cbn [snd]. rewrite Hl2, <- !app_assoc.
        reflexivity. }
      assert (Hfin : forall s', extends reading s4 s' ->
                exists tail,
                  Net.log s'
                  = [Net.CReadState; Net.CConfigDc dc; Net.CSleep (2 # 10)]
                      ++ sync_calls ns 0 oks
                      ++ [Net.CSetMasterState SAFEOP_STATE;
                          Net.CWriteState true]
                      ++ Net.CStateCheck 4 200000 res :: tail
                  /\ Forall reading tail).
      { intros s' (tail & Ht & Ft). exists tail. split; [|exact Ft].
        rewrite Ht, Hl4, <- !app_assoc. reflexivity. }
      destruct (res =? SAFEOP_STATE) eqn:Eres.
      * pose proof (read_state_reading s4) as R5.
        set (s5 := Net.do_read_state M s4) in *.
        pose proof (read_dc_config_all_reading
                      (seq 0 (Net.n_slaves M (fst s5))) (s5, true)) as R6.
        destruct (fold_left (Bringup.read_dc_config M) _ (s5, true))
          as [s6 dc_ok].
        cbn [fst] in R6.
        pose proof (extends_fold reading (Bringup.slave_state_machine_info M)
                                 (seq 0 (Net.n_slaves M (fst s6)))
                                 slave_state_machine_info_reading s6) as R7.
        destruct (Hfin _ (extends_trans _ _ _ _
                            (extends_trans _ _ _ _ R5 R6) R7))
          as (tail & Ht & Ft).
        exists (Net.CStateCheck 4 200000 res :: tail).
        cbn [fst snd]. split; [exact Ht|].
        split; [intros n Hn; rewrite Hk; apply Hn|].
        exists res, tail. rewrite Eres. auto.
      * destruct (Hfin _ (read_state_reading s4)) as (tail & Ht & Ft).
        exists (Net.CStateCheck 4 200000 res :: tail).
        cbn [fst snd]. split; [exact Ht|].
        split; [intros n Hn; rewrite Hk; apply Hn|].
        exists res, tail. rewrite Eres. auto.
    + exists false, []. cbn [fst snd Net.log].
      split; [rewrite Hl2, <- !app_assoc; reflexivity|].
      split; [intros n Hn; rewrite Hk; apply Hn|].
      split; reflexivity.
Qed.

End SafeopFacts.

(** The value of [ETHERCAT_CYCLE_TIME_NS] for the period as shipped, and
    for a period of 1.001 ms, where the float product is below
    1001000. *)
Example cycle_time_ns_values :
  Bringup.cycle_time_ns ETHERCAT_CYCLE_TIME_MS = Some 2000000
  /\ Bringup.cycle_time_ns (PyFloat.lit 1001 1000) = Some 1000999.
Proof. vm_compute. split; reflexivity. Qed.

Lemma enter_safeop_state_trace_witness :
  let r := Bringup.enter_safeop_state
             (plain_master 2 (fun _ _ => false)) 1000999 (tt, []) in
  let l := Net.log (fst (fst r)) in
  let out := snd (fst r) in
  (l = [Net.CReadState] /\ out = Net.Returned false)
  \/ exists dc oks ok post,
      l = [Net.CReadState; Net.CConfigDc dc; Net.CSleep (2 # 10)]
            ++ sync_calls 1000999 0 oks
            ++ [Net.CSetMasterState 4; Net.CWriteState ok]
            ++ post
      /\ (forall n,
            (forall w', Net.n_slaves (plain_master 2 (fun _ _ => false)) w'
                        = n) ->
            length oks = n)
      /\ (if ok
          then exists res tail,
              post = Net.CStateCheck 4 200000 res :: tail
              /\ Forall reading tail
              /\ out = Net.Returned (res =? 4)
          else post = [] /\ out = Net.Raised).
Proof.
  apply (enter_safeop_state_trace (plain_master 2 (fun _ _ => false))
                                  (PyFloat.lit 1001 1000) 1000999 tt).
  vm_compute. reflexivity.
Defined.


(** ** [main] *)

Section MainFacts.
Variable outcome_of : Main.step -> Net.outcome.

Lemma selected_some (adapters : list Adapters.adapter) :
  adapters <> [] -> exists a, Adapters.selected_adapter adapters = Some a.
Proof.
  intros Hne. destruct adapters as [|x l]; [contradiction|].
  unfold Adapters.selected_adapter, Adapters.find_adapters.
  destruct (filter _ (x :: l)) as [|v r]; eexists; reflexivity.
Qed.

Ltac main_split g :=
  destruct (outcome_of g) as [[|]|] eqn:?.

Ltac main_close k c :=
  exists k, c; cbn [firstn app repeat Main.order Main.gates Main.plain];
  split; [lia|]; split; [reflexivity|]; split; [auto|]; split;
  [ split;
    [ intros Hc;
      first [ discriminate Hc
            | eexists; split; [|split; [|eassumption]]; cbn; auto 20 ]
    | intros (g & Hin & Hinl & Hg); cbn in Hinl;
      first [ reflexivity
            | exfalso;
              repeat (destruct Hinl as [<-|Hinl]; [try congruence|]);
              try contradiction; cbn in Hin; intuition discriminate ] ]
  | split;
    [ intros Hin; cbn in Hin;
      first [ exfalso; intuition discriminate
            | split; [congruence|];
              split; intros g Hg; cbn in Hg;
              repeat (destruct Hg as [<-|Hg]; [congruence|]);
              contradiction ]
    | intros (H1 & H2 & H3);
      first [ cbn; tauto
            | exfalso;
              pose proof (H2 Main.SScan ltac:(cbn; auto 10));
              pose proof (H2 Main.SPreop ltac:(cbn; auto 10));
              pose proof (H2 Main.SPdo ltac:(cbn; auto 10));
              pose proof (H2 Main.SSlaves ltac:(cbn; auto 10));
              pose proof (H2 Main.SSafeop ltac:(cbn; auto 10));
              pose proof (H3 Main.SStartThread ltac:(cbn; auto 10));
              pose proof (H3 Main.SOp ltac:(cbn; auto 10));
              pose proof (H3 Main.SCstMode ltac:(cbn; auto 10));
              congruence ] ] ].

(** X24. Without an adapter [main] calls nothing.  With one, its calls
    are an initial part of the fixed order open, scan, PREOP, PDO
    mapping, slave configuration, SAFEOP, thread start, OP request, CST
    mode, cyclic run, thread stop, back to SAFEOP, followed by one call
    of [master.close()], or two when a tested step returned a false
    value; nothing is called after the close.  The cyclic run is reached
    exactly when the adapter opened, the five tested steps returned true
    values, and thread start, OP request and CST mode did not raise:
    what the OP request returns plays no part. *)
Theorem main_closes_master (adapters : list Adapters.adapter) :
  let l := Main.main outcome_of adapters in
  (adapters = [] -> l = [])
  /\ (adapters <> [] ->
      exists k c,
        (1 <= k)%nat
        /\ l = firstn k Main.order ++ repeat Main.SClose c
        /\ (c = 1%nat \/ c = 2%nat)
        /\ (c = 2%nat <->
            exists g, In g Main.gates /\ In g l
                      /\ outcome_of g = Net.Returned false)
        /\ (In Main.SCyclic l <->
            outcome_of Main.SOpen <> Net.Raised
            /\ (forall g, In g Main.gates ->
                          outcome_of g = Net.Returned true)
            /\ (forall g, In g [Main.SStartThread; Main.SOp; Main.SCstMode] ->
                          outcome_of g <> Net.Raised))).
Proof.
  intros l. subst l. split; [intros ->; reflexivity|].
  intros Hne. destruct (selected_some adapters Hne) as [a Ha].
  unfold Main.main. rewrite Ha.
  unfold Main.try_body, Main.gates, Main.plain.
  cbn [Main.run_gates Main.run_plain Main.plain].
  destruct (outcome_of Main.SOpen) as [bo|] eqn:Eopen;
    [|main_close 1%nat 1%nat].
  main_split Main.SScan; [|main_close 2%nat 2%nat|main_close 2%nat 1%nat].
  main_split Main.SPreop; [|main_close 3%nat 2%nat|main_close 3%nat 1%nat].
  main_split Main.SPdo; [|main_close 4%nat 2%nat|main_close 4%nat 1%nat].
  main_split Main.SSlaves; [|main_close 5%nat 2%nat|main_close 5%nat 1%nat].
  main_split Main.SSafeop; [|main_close 6%nat 2%nat|main_close 6%nat 1%nat].
  destruct (outcome_of Main.SStartThread) as [b1|] eqn:E1;
    [|main_close 7%nat 1%nat].
  destruct (outcome_of Main.SOp) as [b2|] eqn:E2;
    [|main_close 8%nat 1%nat].
  destruct (outcome_of Main.SCstMode) as [b3|] eqn:E3;
    [|main_close 9%nat 1%nat].
  destruct (outcome_of Main.SCyclic) as [b4|] eqn:E4;
    [|main_close 10%nat 1%nat].
  destruct (outcome_of Main.SStopThread) as [b5|] eqn:E5;
    [|main_close 11%nat 1%nat].
  destruct (outcome_of Main.SBackToSafeop) as [b6|] eqn:E6;
    main_close 12%nat 1%nat.
Qed.

End MainFacts.

(** ** [enter_preop_state] *)

Section PreopFacts.
Context {W : Type} (M : Net.master W).

(** The loop of lines 271-300 sends to INIT the slaves it finds outside
    PREOP, in the order of the list, and leaves the function at the first
    slave it finds in PREOP. *)
Lemma scan_shape (slaves : list nat) :
  forall s,
    exists inits tail vs,
      Net.log (fst (fst (Preop.scan M slaves s)))
      = Net.log s ++ inits ++ tail
      /\ Forall Preop.init_request inits
      /\ Preop.sent_to_init inits = firstn (length vs) slaves
      /\ Forall (fun v => v <> 2) vs
      /\ match snd (fst (Preop.scan M slaves s)) with
         | None =>
           tail = [] /\ length vs = length slaves
           /\ snd (Preop.scan M slaves s) = combine slaves vs
         | Some out =>
           (length vs < length slaves)%nat
           /\ snd (Preop.scan M slaves s)
              = combine (firstn (length vs) slaves) vs
                ++ [(nth (length vs) slaves 0%nat, 2)]
           /\ Preop.ending_in_loop tail out
         end.
Proof.
  induction slaves as [|i rest IH]; intros s; cbn [Preop.scan].
  - exists [], [], []. cbn [fst snd app length firstn combine].
    rewrite app_nil_r.
    split; [reflexivity|]. split; [constructor|].
    split; [reflexivity|]. split; [constructor|]. auto.
  - change PREOP_STATE with 2. change INIT_STATE with 1.
    destruct (Z.eqb_spec (Net.slave_state M i (fst s)) 2) as [Heq|Hne];
      cbn [negb].
    + unfold Net.do_write_state, Net.do_set_master_state. cbn [fst snd].
      destruct (Net.write_state M _) as [w2|].
      * unfold Net.do_state_check. cbn [fst snd].
        change (3 * 50000) with 150000.
        destruct (Net.state_check M 2 150000 w2) as [w3 r].
        exists [], [Net.CSetMasterState 2; Net.CWriteState true;
                    Net.CStateCheck 2 150000 r], [].
        cbn [fst snd Net.log app length firstn combine nth].
        rewrite <- !app_assoc. rewrite Heq.
        split; [reflexivity|]. split; [constructor|].
        split; [reflexivity|]. split; [constructor|].
        split; [lia|]. split; [reflexivity|].
        right. exists r. auto.
      * exists [], [Net.CSetMasterState 2; Net.CWriteState false], [].
        cbn [fst snd Net.log app length firstn combine nth].
        rewrite <- !app_assoc. rewrite Heq.
        split; [reflexivity|]. split; [constructor|].
        split; [reflexivity|]. split; [constructor|].
        split; [lia|]. split; [reflexivity|].
        left. auto.
    + unfold Net.do_write_state, Net.do_set_slave_state. cbn [fst snd].
      destruct (Net.write_state M _) as [w2|].
      * destruct (IH (Net.do_sleep M (1 # 10)
                        (w2, (snd s ++ [Net.CSetSlaveState i 1])
                               ++ [Net.CWriteState true])))
          as (inits & tail & vs & Hl & Fi & Hk & Fv & Ht).
        destruct (Preop.scan M rest _) as [[s' r] found].
        cbn [fst snd] in *.
        exists ([Net.CSetSlaveState i 1; Net.CWriteState true;
                 Net.CSleep (1 # 10)] ++ inits), tail,
               (Net.slave_state M i (fst s) :: vs).
        split; [rewrite Hl; unfold Net.log, Net.do_sleep; cbn [fst snd];
                rewrite <- !app_assoc; reflexivity|].
        split; [repeat (apply Forall_cons; [cbn; auto|]); exact Fi|].
        split; [cbn [Preop.sent_to_init flat_map app length firstn];
                f_equal; exact Hk|].
        split; [constructor; assumption|].
        destruct r as [out|]; cbn [length firstn combine nth app].
        -- destruct Ht as (Hlt & Hf & He).
           split; [lia|]. split; [rewrite Hf; reflexivity|exact He].
        -- destruct Ht as (Hnil & Hlen & Hf).
           split; [exact Hnil|]. split; [lia|rewrite Hf; reflexivity].
      * destruct (IH (Net.set_slave_state M i 1 (fst s),
                      (snd s ++ [Net.CSetSlaveState i 1])
                        ++ [Net.CWriteState false]))
          as (inits & tail & vs & Hl & Fi & Hk & Fv & Ht).
        destruct (Preop.scan M rest _) as [[s' r] found].
        cbn [fst snd] in *.
        exists ([Net.CSetSlaveState i 1; Net.CWriteState false]
                  ++ inits), tail,
               (Net.slave_state M i (fst s) :: vs).
        split; [rewrite Hl; unfold Net.log; cbn [fst snd];
                rewrite <- !app_assoc; reflexivity|].
        split; [repeat (apply Forall_cons; [cbn; auto|]); exact Fi|].
        split; [cbn [Preop.sent_to_init flat_map app length firstn];
                f_equal; exact Hk|].
        split; [constructor; assumption|].
        destruct r as [out|]; cbn [length firstn combine nth app].
        -- destruct Ht as (Hlt & Hf & He).
           split; [lia|]. split; [rewrite Hf; reflexivity|exact He].
        -- destruct Ht as (Hnil & Hlen & Hf).
           split; [exact Hnil|]. split; [lia|rewrite Hf; reflexivity].
Qed.

Lemma firstn_seq (k n : nat) :
  (k <= n)%nat -> firstn k (seq 0 n) = seq 0 k.
Proof.
  intros Hk. replace n with (k + (n - k))%nat by lia.
  rewrite seq_app, firstn_app, length_seq, Nat.sub_diag.
  cbn [firstn]. rewrite app_nil_r.
  rewrite <- (length_seq k 0) at 1. apply firstn_all.
Qed.

(** X25.  [enter_preop_state] reads the states and looks at the slaves in
    the order of their index.  The slaves it finds outside PREOP (code 2)
    are sent to INIT (code 1), one request each, and no slave is sent to
    any other state.  At the first slave it finds in PREOP it asks the
    master for PREOP and leaves the loop: [write_state] raises, or one
    [state_check] of 150000 decides the result; the slaves after that one
    are not looked at.  When it finds no slave in PREOP, every slave has
    been sent to INIT; it reads the states again and returns [True]
    without asking anything, or asks the master for PREOP, where again
    [write_state] raises or one [state_check] of 150000 decides the
    result. *)
Theorem enter_preop_state_trace (w : W) :
  let r := Preop.enter_preop_state M (w, []) in
  let n := Net.n_slaves M (Net.read_state M w) in
  exists vs inits tail,
    Net.log (fst (fst r)) = [Net.CReadState] ++ inits ++ tail
    /\ Forall Preop.init_request inits
    /\ Preop.sent_to_init inits = seq 0 (length vs)
    /\ Forall (fun v => v <> 2) vs
    /\ (((length vs < n)%nat
         /\ snd r = combine (seq 0 (length vs)) vs ++ [(length vs, 2)]
         /\ Preop.ending_in_loop tail (snd (fst r)))
        \/ (length vs = n
            /\ snd r = combine (seq 0 n) vs
            /\ Preop.ending_after_loop tail (snd (fst r)))).
Proof.
  intros r n. subst r n. unfold Preop.enter_preop_state.
  set (s0 := Net.do_read_state M (w, [])).
  change (Net.read_state M w) with (fst s0).
  destruct (scan_shape (seq 0 (Net.n_slaves M (fst s0))) s0)
    as (inits & tail & vs & Hl & Fi & Hk & Fv & Ht).
  destruct (Preop.scan M _ s0) as [[s1 [out|]] found]; cbn [fst snd] in *.
  - destruct Ht as (Hlt & Hf & He). rewrite length_seq in Hlt.
    rewrite firstn_seq in Hk, Hf by lia.
    rewrite seq_nth in Hf by exact Hlt. cbn [Nat.add] in Hf.
    exists vs, inits, tail. split; [exact Hl|]. split; [exact Fi|].
    split; [exact Hk|]. split; [exact Fv|].
    left. auto.
  - destruct Ht as (Hnil & Hlen & Hf). rewrite length_seq in Hlen.
    subst tail. rewrite app_nil_r in Hl.
    rewrite Hlen, firstn_seq in Hk by lia.
    change PREOP_STATE with 2. change (3 * 50000) with 150000.
    exists vs, inits.
    destruct (negb _).
    + unfold Net.do_write_state, Net.do_set_master_state, Net.do_read_state.
      cbn [fst snd].
      destruct (Net.write_state M _) as [w3|].
      * unfold Net.do_state_check, Net.do_sleep. cbn [fst snd].
        destruct (Net.state_check M 2 150000 _) as [w4 r].
        eexists. cbn [fst snd Net.log]. unfold Net.log in Hl.
        split; [rewrite Hl, <- !app_assoc; cbn [app]; reflexivity|].
        split; [exact Fi|]. split; [rewrite Hlen; exact Hk|].
        split; [exact Fv|].
        right. split; [exact Hlen|]. split; [exact Hf|].
        right. right. exists r. auto.
      * eexists. cbn [fst snd Net.log]. unfold Net.log in Hl.
        split; [rewrite Hl, <- !app_assoc; cbn [app]; reflexivity|].
        split; [exact Fi|]. split; [rewrite Hlen; exact Hk|].
        split; [exact Fv|].
        right. split; [exact Hlen|]. split; [exact Hf|].
        right. left. auto.
    + eexists. unfold Net.do_read_state. cbn [fst snd Net.log].
      unfold Net.log in Hl.
      split; [rewrite Hl, <- !app_assoc; cbn [app]; reflexivity|].
      split; [exact Fi|]. split; [rewrite Hlen; exact Hk|].
      split; [exact Fv|].
      right. split; [exact Hlen|]. split; [exact Hf|].
      left. auto.
Qed.

End PreopFacts.
